(** * Data ingestion: download, validate and extract a ZIP archive

    A shallow embedding of [textSummarizer/components/data_ingestion.py]
    (class [DataIngestion]).  Python [str] values are [string], [bytes]
    values are [list byte]; the file system, the logger and the network are
    an explicit [World] threaded through a small exception monad.

    The file system is a map from path names to nodes, a regular file with
    its bytes or a directory.  The functions of [os], [os.path], [urllib]
    and [zipfile] that the class calls are modelled after CPython 3.11 on
    POSIX: [os.makedirs] makes every missing directory on the way,
    [os.remove] refuses a directory, [os.path.exists] sees files and
    directories, a file or a directory is made only in a directory that
    is there, and [extractall] cleans each member name, makes the
    directories above it and stops at the first member it cannot extract.
    Paths are names: two spellings of one path are two names, and the
    configuration is taken to hold its paths as the file system has them;
    the one spelling that is resolved is a last component [.] of the
    directory a new entry goes in, which [os.makedirs] counts on.
    Permissions and symbolic links are not modelled.

    What the libraries compute from data is a parameter of the embedding:
    the archive [zipfile] reads from the bytes of a file (or the exception
    it raises), the answers of the network, the decoding of text, the size
    [stat] reports for a directory, and [get_size].  The recursion of
    [download_file] is bounded by a depth, and a call that would go deeper
    ends as [OutOfFuel]. *)

From Stdlib Require Strings.String Strings.Byte Numbers.DecimalString.
From Stdlib Require Import Strings.Ascii.
From Stdlib Require Import Lia.
From stdpp Require Import gmap strings list fin_maps.

Local Arguments String.append : simpl nomatch.
Local Open Scope stdpp_scope.

Abbreviation byte := Byte.byte.

(** ** Python string built-ins used by the module *)

Module PyStr.

(** [s.startswith(p)] *)
Definition startswith (s p : string) : bool := String.prefix p s.

(** [p in s]: some suffix of [s] starts with [p]. *)
Fixpoint contains (p s : string) : bool :=
  startswith s p ||
  match s with
  | EmptyString => false
  | String _ s' => contains p s'
  end.

(** The scan of [s.replace(old, new)] for a non-empty [old]: [skip]
    counts the characters of a match that are still to be dropped. *)
Fixpoint replace_scan (old new : string) (skip : nat) (s : string) : string :=
  match s with
  | EmptyString => EmptyString
  | String c s' =>
      match skip with
      | S k => replace_scan old new k s'
      | O =>
          if startswith s old
          then new +:+ replace_scan old new (String.length old - 1) s'
          else String c (replace_scan old new 0 s')
      end
  end.

(** With an empty [old] Python puts [new] before every character and at
    the end. *)
Fixpoint interleave (new s : string) : string :=
  match s with
  | EmptyString => new
  | String c s' => new +:+ String c (interleave new s')
  end.

(** [s.replace(old, new)]: every non-overlapping occurrence, leftmost
    first. *)
Definition replace (old new s : string) : string :=
  match old with
  | EmptyString => interleave new s
  | String _ _ => replace_scan old new 0 s
  end.

(** [str(n)] for a non-negative integer. *)
Definition str_of_nat (n : nat) : string :=
  DecimalString.NilZero.string_of_uint (Nat.to_uint n).

(** [s.split('/')] *)
Fixpoint split_slash (s : string) : list string :=
  match s with
  | EmptyString => [EmptyString]
  | String c s' =>
      if Ascii.eqb c "/"%char then EmptyString :: split_slash s'
      else match split_slash s' with
           | first :: others => String c first :: others
           | [] => [String c EmptyString]
           end
  end.

(** ['/'.join(parts)] *)
Fixpoint join_slash (parts : list string) : string :=
  match parts with
  | [] => EmptyString
  | [x] => x
  | x :: rest => x +:+ "/" +:+ join_slash rest
  end.

(** [s == ''] *)
Definition is_empty (s : string) : bool :=
  match s with
  | EmptyString => true
  | String _ _ => false
  end.

End PyStr.


(** ** Python bytes built-ins used by the module *)

Module PyBytes.

(** A bytes literal [b'...']. *)
Definition lit (s : string) : list byte := String.list_byte_of_string s.

(** [b.startswith(p)] *)
Fixpoint startswith (b p : list byte) {struct p} : bool :=
  match p, b with
  | [], _ => true
  | x :: p', y :: b' => Byte.eqb x y && startswith b' p'
  | _ :: _, [] => false
  end.

Definition hex_digit (n : nat) : ascii :=
  match String.get n "0123456789abcdef" with
  | Some c => c
  | None => "0"%char
  end.

(** [b.hex()]: two lower-case digits per byte. *)
Fixpoint hex (b : list byte) : string :=
  match b with
  | [] => EmptyString
  | x :: b' =>
      let n := Byte.to_nat x in
      String (hex_digit (n / 16)) (String (hex_digit (n mod 16)) (hex b'))
  end.

End PyBytes.

(** ** [os.path] helpers (POSIX flavour) *)

Module PosixPath.

Definition is_slash (c : ascii) : bool := Ascii.eqb c "/"%char.

(** [p[:p.rfind('/')+1]] when [p] has a slash. *)
Fixpoint upto_last_slash (p : string) : option string :=
  match p with
  | EmptyString => None
  | String c p' =>
      match upto_last_slash p' with
      | Some h => Some (String c h)
      | None => if is_slash c then Some (String c EmptyString) else None
      end
  end.

Fixpoint all_slashes (s : string) : bool :=
  match s with
  | EmptyString => true
  | String c s' => is_slash c && all_slashes s'
  end.

(** [s.rstrip('/')] *)
Fixpoint rstrip_slash (s : string) : string :=
  match s with
  | EmptyString => EmptyString
  | String c s' =>
      match rstrip_slash s' with
      | EmptyString => if is_slash c then EmptyString else String c EmptyString
      | r => String c r
      end
  end.

(** [os.path.dirname(p)] *)
Definition dirname (p : string) : string :=
  match upto_last_slash p with
  | None => EmptyString
  | Some head => if all_slashes head then head else rstrip_slash head
  end.

(** [os.path.join(a, b)] *)
Definition join (a b : string) : string :=
  if PyStr.startswith b "/" then b
  else match a with
       | EmptyString => b
       | _ => if is_slash (default "/"%char (String.get (String.length a - 1) a))
              then a +:+ b else a +:+ "/" +:+ b
       end.

(** [p[p.rfind('/')+1:]]: what follows the last slash. *)
Fixpoint after_last_slash (p : string) : string :=
  match p with
  | EmptyString => EmptyString
  | String c p' =>
      match upto_last_slash p' with
      | Some _ => after_last_slash p'
      | None => if is_slash c then p' else p
      end
  end.

(** [os.path.split(p)] *)
Definition split (p : string) : string * string :=
  (dirname p, after_last_slash p).

(** The first lines of [os.makedirs]: [head, tail = path.split(name)],
    and once more on [head] when [tail] is empty. *)
Definition split_twice (name : string) : string * string :=
  if PyStr.is_empty (split name).2 then split (split name).1 else split name.

(** One turn of the loop of [os.path.normpath]; the components kept so
    far are held last first. *)
Definition norm_step (initial_slashes : nat) (kept : list string)
    (comp : string) : list string :=
  if PyStr.is_empty comp || String.eqb comp "." then kept
  else if negb (String.eqb comp "..")
          || (Nat.eqb initial_slashes 0
              && match kept with [] => true | _ :: _ => false end)
          || match kept with
             | last_comp :: _ => String.eqb last_comp ".."
             | [] => false
             end
       then comp :: kept
       else match kept with
            | _ :: rest => rest
            | [] => []
            end.

(** [os.path.normpath(path)] *)
Definition normpath (path : string) : string :=
  if PyStr.is_empty path then "."
  else
    let initial_slashes :=
      if PyStr.startswith path "/" then
        if PyStr.startswith path "//" && negb (PyStr.startswith path "///")
        then 2 else 1
      else 0 in
    let kept := fold_left (norm_step initial_slashes) (PyStr.split_slash path) [] in
    let body := PyStr.join_slash (rev kept) in
    let normal :=
      match initial_slashes with
      | 0 => body
      | 1 => "/" +:+ body
      | _ => "//" +:+ body
      end in
    if PyStr.is_empty normal then "." else normal.

End PosixPath.


(** ** Exceptions, the world and the monad *)

(** The exception classes the module and the libraries under it raise or
    name in a handler.  [ValueErrorSubclass] stands for a proper subclass of
    [ValueError] ([UnicodeDecodeError] is one); [OtherException] for any
    other class below [Exception] that is below none of the classes
    named here. *)
Inductive ExnClass :=
| FileNotFoundError
| FileExistsError
| IsADirectoryError
| NotADirectoryError
| ValueError
| ValueErrorSubclass (name : string)
| BadZipFile
| OtherException (name : string).

(** An exception: its class and [str(e)]. *)
Record Exn := mkExn { exn_class : ExnClass; exn_msg : string }.

Global Instance ExnClass_eq_dec : EqDecision ExnClass.
Proof. solve_decision. Defined.

Global Instance Exn_eq_dec : EqDecision Exn.
Proof. solve_decision. Defined.

Inductive Level := INFO | WARNING | ERROR.

(** What one call of [urlretrieve] gets from the network: the whole body,
    or an exception, raised before the destination is opened ([None]) or
    after part of the body has been written to it. *)
Inductive Response :=
| Fetched (body : list byte) (headers : string)
| Failed (e : Exn) (partial : option (list byte)).

(** What a path names: a regular file with its bytes, or a directory. *)
Inductive Node :=
| File (content : list byte)
| Directory.

Global Instance byte_eq_dec : EqDecision byte := Byte.byte_eq_dec.

Global Instance Node_eq_dec : EqDecision Node.
Proof. solve_decision. Defined.

(** The file system, the logger's output and the URLs requested from the
    network, oldest first. *)
Record World := mkWorld {
  nodes : gmap string Node;
  log : list (Level * string);
  requests : list string
}.

Definition node_content (n : Node) : option (list byte) :=
  match n with
  | File content => Some content
  | Directory => None
  end.

Definition node_directory (n : Node) : option unit :=
  match n with
  | File _ => None
  | Directory => Some tt
  end.

(** The regular files of the world, by path. *)
Definition files (w : World) : gmap string (list byte) :=
  omap node_content (nodes w).

(** The directories of the world. *)
Definition dirs (w : World) : gset string :=
  dom (omap node_directory (nodes w)).

Definition set_nodes (m : gmap string Node) (w : World) : World :=
  mkWorld m (log w) (requests w).
Definition add_log (l : Level) (msg : string) (w : World) : World :=
  mkWorld (nodes w) (log w ++ [(l, msg)]) (requests w).
Definition add_request (url : string) (w : World) : World :=
  mkWorld (nodes w) (log w) (requests w ++ [url]).

(** A call returns, raises, or (for the recursive [download_file]) exceeds
    the recursion depth it was given. *)
Inductive Outcome (A : Type) :=
| Return (a : A)
| Raise (e : Exn)
| OutOfFuel.
Arguments Return {A} a.
Arguments Raise {A} e.
Arguments OutOfFuel {A}.

Definition Py (A : Type) : Type := World -> Outcome A * World.

Definition ret {A} (a : A) : Py A := fun w => (Return a, w).
Definition raise {A} (e : Exn) : Py A := fun w => (Raise e, w).
Definition bind {A B} (m : Py A) (k : A -> Py B) : Py B :=
  fun w =>
    match m w with
    | (Return a, w') => k a w'
    | (Raise e, w') => (Raise e, w')
    | (OutOfFuel, w') => (OutOfFuel, w')
    end.

Declare Scope py_scope.
Delimit Scope py_scope with py.
Notation "x <- m ;; k" := (bind m (fun x => k))
  (at level 100, m at next level, right associativity) : py_scope.
Notation "m ;;; k" := (bind m (fun _ => k))
  (at level 100, right associativity) : py_scope.

(** [except Exception]: everything modelled here. *)
Definition any_Exception (c : ExnClass) : bool := true.

(** [except (ValueError, zipfile.BadZipFile)]: the two classes and what is
    below them. *)
Definition ValueError_or_BadZipFile (c : ExnClass) : bool :=
  match c with
  | ValueError | ValueErrorSubclass _ | BadZipFile => true
  | _ => false
  end.

(** [except zipfile.BadZipFile] *)
Definition only_BadZipFile (c : ExnClass) : bool :=
  match c with
  | BadZipFile => true
  | _ => false
  end.

(** [except FileExistsError] *)
Definition only_FileExistsError (c : ExnClass) : bool :=
  match c with
  | FileExistsError => true
  | _ => false
  end.

(** [except OSError], for the classes of [OSError] named here. *)
Definition any_OSError (c : ExnClass) : bool :=
  match c with
  | FileNotFoundError | FileExistsError | IsADirectoryError
  | NotADirectoryError => true
  | _ => false
  end.

(** [try: m except c1 as e: h1 e except c2 as e: h2 e ...]: the first
    clause whose classes match handles the exception; what a handler raises
    is not offered to its sibling clauses. *)
Fixpoint dispatch {A} (clauses : list ((ExnClass -> bool) * (Exn -> Py A)))
    (e : Exn) : Py A :=
  match clauses with
  | [] => raise e
  | (catches, h) :: rest =>
      if catches (exn_class e) then h e else dispatch rest e
  end.

Definition try_clauses {A} (m : Py A)
    (clauses : list ((ExnClass -> bool) * (Exn -> Py A))) : Py A :=
  fun w =>
    match m w with
    | (Raise e, w') => dispatch clauses e w'
    | r => r
    end.

(** [for x in xs: body x] *)
Fixpoint for_each {A} (xs : list A) (body : A -> Py unit) : Py unit :=
  match xs with
  | [] => ret tt
  | x :: xs' => bind (body x) (fun _ => for_each xs' body)
  end.

(** [enumerate(xs)], counting from [i]. *)
Fixpoint enumerate_from {A} (i : nat) (xs : list A) : list (nat * A) :=
  match xs with
  | [] => []
  | x :: xs' => (i, x) :: enumerate_from (S i) xs'
  end.

(** ** The logger *)

(** Modelled from the spec: the logging collaborator
    ([textSummarizer.logging]), which takes each line with its level and
    never raises; the lines are kept in the world, oldest first. *)
Module logger.
Definition emit (l : Level) (msg : string) : Py unit :=
  fun w => (Return tt, add_log l msg w).
Definition info := emit INFO.
Definition warning := emit WARNING.
Definition error := emit ERROR.
End logger.

(** ** The [os] functions the module and the libraries call *)

Module os.

Local Open Scope py_scope.

Definition enoent (p : string) : Exn :=
  mkExn FileNotFoundError ("[Errno 2] No such file or directory: '" +:+ p +:+ "'").

Definition eexist (p : string) : Exn :=
  mkExn FileExistsError ("[Errno 17] File exists: '" +:+ p +:+ "'").

Definition enotdir (p : string) : Exn :=
  mkExn NotADirectoryError ("[Errno 20] Not a directory: '" +:+ p +:+ "'").

Definition eisdir (p : string) : Exn :=
  mkExn IsADirectoryError ("[Errno 21] Is a directory: '" +:+ p +:+ "'").

(** Whether [p] names a file or a directory. *)
Definition exists_at (p : string) (w : World) : bool :=
  bool_decide (is_Some (nodes w !! p)).

(** Whether [p] names a directory; the empty path names none. *)
Definition is_dir (p : string) (w : World) : bool :=
  negb (PyStr.is_empty p) && bool_decide (nodes w !! p = Some Directory).

(** Whether [p] names a directory that a new entry can go in: a
    directory under that name, or, when the last component of [p] is [.],
    the directory named by what comes before it; an empty name before it
    is the current directory. *)
Fixpoint dir_in (fuel : nat) (N : gmap string Node) (p : string) : bool :=
  negb (PyStr.is_empty p) && bool_decide (N !! p = Some Directory)
  || match fuel with
     | O => false
     | S fuel' =>
         let head := (PosixPath.split_twice p).1 in
         let tail := (PosixPath.split_twice p).2 in
         String.eqb tail "." && (PyStr.is_empty head || dir_in fuel' N head)
     end.

Definition dir_there (p : string) (w : World) : bool :=
  dir_in (String.length p) (nodes w) p.

(** [os.path.exists(p)] *)
Definition path_exists (p : string) : Py bool :=
  fun w => (Return (exists_at p w), w).

(** [os.path.isdir(p)] *)
Definition path_isdir (p : string) : Py bool :=
  fun w => (Return (is_dir p w), w).

(** [os.path.getsize(p)]; [dir_size] is what [stat] reports as the size
    of a directory. *)
Definition getsize (dir_size : string -> nat) (p : string) : Py nat :=
  fun w =>
    match nodes w !! p with
    | Some (File content) => (Return (length content), w)
    | Some Directory => (Return (dir_size p), w)
    | None => (Raise (enoent p), w)
    end.

(** [open(p, 'rb')] or [open(p, 'r', ...)]: the bytes of the file. *)
Definition open_read (p : string) : Py (list byte) :=
  fun w =>
    match nodes w !! p with
    | Some (File content) => (Return content, w)
    | Some Directory => (Raise (eisdir p), w)
    | None => (Raise (enoent p), w)
    end.

(** [with open(p, 'rb') as f: f.read(n)]: the bytes there are, up to
    [n]. *)
Definition read_bytes (p : string) (n : nat) : Py (list byte) :=
  content <- open_read p ;; ret (take n content).

(** [open(p, 'wb')] followed by the writing of [content]: a directory is
    refused, and the directory the file goes in must be there; a name of
    one component goes in the current directory.  The file is made or
    overwritten. *)
Definition write_file (p : string) (content : list byte) : Py unit :=
  fun w =>
    let parent := PosixPath.dirname p in
    match nodes w !! p with
    | Some Directory => (Raise (eisdir p), w)
    | _ =>
        if PyStr.is_empty parent || dir_there parent w then
          (Return tt, set_nodes (<[p := File content]> (nodes w)) w)
        else if exists_at parent w then (Raise (enotdir p), w)
        else (Raise (enoent p), w)
    end.

(** [os.remove(p)] *)
Definition remove (p : string) : Py unit :=
  fun w =>
    match nodes w !! p with
    | Some (File _) => (Return tt, set_nodes (delete p (nodes w)) w)
    | Some Directory => (Raise (eisdir p), w)
    | None => (Raise (enoent p), w)
    end.

(** [os.mkdir(name)]: the name must be new and the directory it goes in
    must be there; a relative name of one component goes in the current
    directory. *)
Definition mkdir (name : string) : Py unit :=
  fun w =>
    let parent := (PosixPath.split_twice name).1 in
    if PyStr.is_empty name then (Raise (enoent name), w)
    else if exists_at name w then (Raise (eexist name), w)
    else if PyStr.is_empty parent || dir_there parent w then
      (Return tt, set_nodes (<[name := Directory]> (nodes w)) w)
    else if exists_at parent w then (Raise (enotdir name), w)
    else (Raise (enoent name), w).

(** The last statement of [os.makedirs]: [mkdir], whose [OSError] is
    passed over when [exist_ok] is set and the name is a directory. *)
Definition makedirs_leaf (exist_ok : bool) (name : string) : Py unit :=
  try_clauses (mkdir name)
    [(any_OSError,
      fun e =>
        isdir <- path_isdir name ;;
        if negb exist_ok || negb isdir then raise e else ret tt)].

(** [os.makedirs(name, exist_ok=exist_ok)], with the depth of its
    recursion on [head] bounded by [depth]. *)
Fixpoint makedirs_upto (depth : nat) (exist_ok : bool) (name : string)
    : Py unit :=
  match depth with
  | O => makedirs_leaf exist_ok name
  | S depth' =>
      let head := (PosixPath.split_twice name).1 in
      let tail := (PosixPath.split_twice name).2 in
      head_exists <- path_exists head ;;
      if negb (PyStr.is_empty head) && negb (PyStr.is_empty tail)
         && negb head_exists then
        try_clauses (makedirs_upto depth' exist_ok head)
          [(only_FileExistsError, fun _ => ret tt)] ;;;
        if String.eqb tail "." then ret tt
        else makedirs_leaf exist_ok name
      else makedirs_leaf exist_ok name
  end.

(** [os.makedirs(name, exist_ok=exist_ok)]: each call on [head] is on a
    shorter name, so the length of [name] bounds the recursion. *)
Definition makedirs (exist_ok : bool) (name : string) : Py unit :=
  makedirs_upto (String.length name) exist_ok name.

End os.

(** Modelled from the spec: the entity [DataIngestionConfig] (its
    declaration is in [textSummarizer.entity]), with the three fields the
    component reads. *)
Record DataIngestionConfig := mkConfig {
  source_URL : string;
  local_data_file : string;
  unzip_dir : string
}.

(** ** What [zipfile] finds in an archive *)

(** What reading a member gives: its data; an exception of
    [ZipFile.open], raised before the target file is opened; or an
    exception of a later read, raised after [copied] has been written. *)
Inductive Payload :=
| Stored (data : list byte)
| Unopened (e : Exn)
| Broken (e : Exn) (copied : list byte).

(** A member of an archive: [ZipInfo.filename] and what reading it
    gives. *)
Record Member := mkMember {
  member_name : string;
  member_payload : Payload
}.

(** ** The class [DataIngestion] *)

Section DataIngestion.

(** What the libraries and collaborators outside the module compute. *)

(** [zipfile.ZipFile(path, 'r')] on a file with these bytes: the exception
    it raises, or the members in archive order. *)
Variable read_zip : list byte -> Exn + list Member.

(** The network: what the [n]-th call of [urlretrieve] (counting from 0)
    gets when it asks for a URL. *)
Variable urlretrieve_response : nat -> string -> Response.

(** Modelled from the spec: [get_size] of [textSummarizer.utils.common],
    the file-size utility, as a function of the size in bytes that gives a
    human-readable size. *)
Variable get_size : nat -> string.

(** [f.read(n)] on a file with these bytes opened with
    [encoding='utf-8', errors='ignore']: its first [n] characters. *)
Variable read_chars : list byte -> nat -> string.

(** The size [stat] reports for a directory. *)
Variable dir_size : string -> nat.

(** [self.config] *)
Variable config : DataIngestionConfig.

Local Open Scope py_scope.

(** [urlretrieve(url=url, filename=filename)]: the request is made, then
    the destination is opened for writing and the body copied to it. *)
Definition urlretrieve (url filename : string) : Py (string * string) :=
  fun w =>
    (match urlretrieve_response (length (requests w)) url with
     | Fetched body headers =>
         os.write_file filename body ;;; ret (filename, headers)
     | Failed e None => raise e
     | Failed e (Some part) => os.write_file filename part ;;; raise e
     end) (add_request url w).

(** [get_size(Path(p))] *)
Definition get_size_of (p : string) : Py string :=
  size <- os.getsize dir_size p ;; ret (get_size size).

(** [with open(p, 'r', encoding='utf-8', errors='ignore') as f:
    f.read(n)] *)
Definition read_text (p : string) (n : nat) : Py string :=
  content <- os.open_read p ;; ret (read_chars content n).

(** [zipfile.ZipFile(p, 'r')], entered as a context manager. *)
Definition zip_open (p : string) : Py (list Member) :=
  content <- os.open_read p ;;
  match read_zip content with
  | inl e => raise e
  | inr members => ret members
  end.

(** [zip_ref.namelist()] *)
Definition namelist (members : list Member) : list string :=
  map member_name members.

(** [zip_ref.getinfo(name)]: of the members of that name, the last. *)
Definition getinfo (members : list Member) (name : string) : option Member :=
  last (filter (fun m => String.eqb (member_name m) name) members).

(** [member.is_dir()], which is [filename[-1] == '/']. *)
Definition member_is_dir (name : string) : Py bool :=
  match String.get (String.length name - 1) name with
  | Some c => ret (PosixPath.is_slash c)
  | None => raise (mkExn (OtherException "IndexError") "string index out of range")
  end.

(** The member name without its empty, [.] and [..] components. *)
Definition arcname (name : string) : string :=
  PyStr.join_slash
    (filter (fun x => negb (PyStr.is_empty x || String.eqb x "."
                            || String.eqb x ".."))
       (PyStr.split_slash name)).

(** Where [extractall(path)] puts the member of that name. *)
Definition member_target (path name : string) : string :=
  PosixPath.normpath (PosixPath.join path (arcname name)).

(** [zip_ref._extract_member(name, path, None)] *)
Definition extract_member (members : list Member) (path name : string)
    : Py unit :=
  match getinfo members name with
  | None =>
      raise (mkExn (OtherException "KeyError")
               ("'There is no item named " +:+ name +:+ " in the archive'"))
  | Some member =>
      let targetpath := member_target path (member_name member) in
      let upperdirs := PosixPath.dirname targetpath in
      found <- os.path_exists upperdirs ;;
      (if negb (PyStr.is_empty upperdirs) && negb found
       then os.makedirs false upperdirs else ret tt) ;;;
      is_dir <- member_is_dir (member_name member) ;;
      if is_dir then
        isdir <- os.path_isdir targetpath ;;
        if negb isdir then os.mkdir targetpath else ret tt
      else
        match member_payload member with
        | Stored data => os.write_file targetpath data
        | Unopened e => raise e
        | Broken e copied => os.write_file targetpath copied ;;; raise e
        end
  end.

(** [zip_ref.extractall(path)] *)
Definition extractall (members : list Member) (path : string) : Py unit :=
  for_each (namelist members) (extract_member members path).

(** [_fix_github_url], lines 14-23 *)
Definition _fix_github_url (url : string) : Py string :=
  if PyStr.contains "github.com" url && PyStr.contains "/blob/" url then
    let fixed_url := PyStr.replace "github.com" "raw.githubusercontent.com" url in
    let fixed_url := PyStr.replace "/blob/" "/" fixed_url in
    logger.info ("Fixed GitHub URL: " +:+ url +:+ " -> " +:+ fixed_url) ;;;
    ret fixed_url
  else ret url.

(** [_validate_zip_file], lines 25-61 *)
Definition _validate_zip_file (file_path : string) : Py bool :=
  found <- os.path_exists file_path ;;
  if negb found then
    raise (mkExn FileNotFoundError ("File not found: " +:+ file_path))
  else
  file_size <- os.getsize dir_size file_path ;;
  if Nat.eqb file_size 0 then
    raise (mkExn ValueError "Downloaded file is empty")
  else
  first_bytes <- os.read_bytes file_path 100 ;;
  if PyBytes.startswith first_bytes (PyBytes.lit "<!DOCTYPE")
     || PyBytes.startswith first_bytes (PyBytes.lit "<html") then
    logger.error "Downloaded HTML page instead of ZIP file" ;;;
    html_content <- read_text file_path 300 ;;
    logger.error ("HTML content: " +:+ html_content) ;;;
    raise (mkExn ValueError "Downloaded HTML page instead of ZIP file. Check the URL.")
  else
  if negb (PyBytes.startswith first_bytes (PyBytes.lit "PK")) then
    raise (mkExn ValueError
             ("File is not a ZIP file. First bytes: "
              +:+ PyBytes.hex (take 20 first_bytes)))
  else
  try_clauses
    (zip_test <- zip_open file_path ;;
     let file_list := namelist zip_test in
     logger.info ("ZIP file is valid with "
                  +:+ PyStr.str_of_nat (length file_list) +:+ " files") ;;;
     ret true)
    [(only_BadZipFile,
      fun e => raise (mkExn BadZipFile ("Corrupted ZIP file: " +:+ exn_msg e)))].

(** The branch of [download_file] for a destination that is not there,
    lines 69-86. *)
Definition download_fresh : Py unit :=
  os.makedirs true (PosixPath.dirname (local_data_file config)) ;;;
  download_url <- _fix_github_url (source_URL config) ;;
  logger.info ("Downloading from: " +:+ download_url) ;;;
  fetched <- urlretrieve download_url (local_data_file config) ;;
  logger.info (fetched.1 +:+ " downloaded! Headers: "
               +:+ String "010"%char fetched.2) ;;;
  _validate_zip_file (local_data_file config) ;;;
  logger.info "File validated successfully as ZIP".

(** The branch for a destination that is there, lines 89-100;
    [self_download_file] is the recursive call of line 100. *)
Definition download_existing (self_download_file : Py unit) : Py unit :=
  file_size <- get_size_of (local_data_file config) ;;
  logger.info ("File already exists of size: " +:+ file_size) ;;;
  try_clauses
    (_validate_zip_file (local_data_file config) ;;; ret tt)
    [(ValueError_or_BadZipFile,
      fun e =>
        logger.warning ("Existing file is invalid: " +:+ exn_msg e) ;;;
        logger.info "Removing invalid file and re-downloading..." ;;;
        os.remove (local_data_file config) ;;;
        self_download_file)].

(** The [try] block of [download_file], lines 68-100. *)
Definition download_try (self_download_file : Py unit) : Py unit :=
  found <- os.path_exists (local_data_file config) ;;
  if negb found then download_fresh
  else download_existing self_download_file.

(** The [except Exception as e] block of [download_file], lines 102-109;
    its last statement is a bare [raise]. *)
Definition download_except (e : Exn) : Py unit :=
  found <- os.path_exists (local_data_file config) ;;
  (if found then
     os.remove (local_data_file config) ;;;
     logger.error "Removed failed download"
   else ret tt) ;;;
  logger.error ("Download failed: " +:+ exn_msg e) ;;;
  raise e.

(** [download_file], lines 63-109.  [fuel] bounds the depth of the
    recursion: with [fuel = 1] the call of line 100 is not available. *)
Fixpoint download_file (fuel : nat) : Py unit :=
  match fuel with
  | O => fun w => (OutOfFuel, w)
  | S fuel' =>
      try_clauses (download_try (download_file fuel'))
        [(any_Exception, download_except)]
  end.

(** The report on the extracted files, lines 133-138. *)
Definition log_samples (file_list : list string) : Py unit :=
  match file_list with
  | [] => ret tt
  | _ :: _ =>
      logger.info "Sample extracted files:" ;;;
      for_each (enumerate_from 0 (take 5 file_list))
        (fun item =>
           logger.info ("  " +:+ PyStr.str_of_nat (item.1 + 1) +:+ ". "
                        +:+ item.2)) ;;;
      if Nat.ltb 5 (length file_list) then
        logger.info ("  ... and " +:+ PyStr.str_of_nat (length file_list - 5)
                     +:+ " more files")
      else ret tt
  end.

(** The [try] block of [extract_zip_file], lines 116-140. *)
Definition extract_try : Py unit :=
  _validate_zip_file (local_data_file config) ;;;
  let unzip_path := unzip_dir config in
  os.makedirs true unzip_path ;;;
  logger.info ("Extracting ZIP file to: " +:+ unzip_path) ;;;
  zip_ref <- zip_open (local_data_file config) ;;
  let file_list := namelist zip_ref in
  logger.info ("Extracting " +:+ PyStr.str_of_nat (length file_list)
               +:+ " files...") ;;;
  extractall zip_ref unzip_path ;;;
  log_samples file_list ;;;
  logger.info "ZIP extraction completed successfully!".

(** [extract_zip_file], lines 111-151: the [try] block and its two
    [except] clauses, each of which ends in a bare [raise]. *)
Definition extract_zip_file : Py unit :=
  try_clauses extract_try
    [(only_BadZipFile,
      fun e =>
        logger.error ("ZIP file error: " +:+ exn_msg e) ;;;
        logger.error "Possible causes:" ;;;
        logger.error "1. Downloaded file is corrupted" ;;;
        logger.error "2. Wrong URL (downloaded HTML instead of ZIP)" ;;;
        logger.error "3. File is not actually a ZIP file" ;;;
        raise e);
     (any_Exception,
      fun e =>
        logger.error ("Extraction failed: " +:+ exn_msg e) ;;;
        raise e)].

End DataIngestion.

(** ** Vocabulary of the specification *)

(** The five validation failures the specification names. *)
Inductive ErrorKind :=
| NotFoundError
| EmptyFileError
| WrongContentTypeError
| NotAnArchiveError
| CorruptArchiveError.

(** The HTML document signature: a [<!DOCTYPE] or [<html] prefix. *)
Definition html_signature (first_bytes : list byte) : bool :=
  PyBytes.startswith first_bytes (PyBytes.lit "<!DOCTYPE")
  || PyBytes.startswith first_bytes (PyBytes.lit "<html").

(** The archive signature: the two bytes [PK]. *)
Definition pk_signature (first_bytes : list byte) : bool :=
  PyBytes.startswith first_bytes (PyBytes.lit "PK").

(** The specification's [validate_archive], section 4.1: the first of its
    five checks, in the order it lists them, that a file fails; [None] is a
    missing file on the left and a valid archive on the right. *)
Definition spec_failing_check
    (read_zip : list byte -> Exn + list Member)
    (file : option (list byte)) : option ErrorKind :=
  match file with
  | None => Some NotFoundError
  | Some content =>
      if Nat.eqb (length content) 0 then Some EmptyFileError
      else if html_signature (take 100 content) then Some WrongContentTypeError
      else if negb (pk_signature (take 100 content)) then Some NotAnArchiveError
      else match read_zip content with
           | inl _ => Some CorruptArchiveError
           | inr _ => None
           end
  end.

(** The character [c] is in [s]. *)
Fixpoint has_char (c : ascii) (s : string) : bool :=
  match s with
  | EmptyString => false
  | String d s' => Ascii.eqb c d || has_char c s'
  end.

(** Every character of [s] is a lower-case hex digit. *)
Fixpoint all_hex (s : string) : bool :=
  match s with
  | EmptyString => true
  | String c s' => has_char c "0123456789abcdef" && all_hex s'
  end.

(** The hex dump of at most 20 bytes. *)
Definition is_hex_dump (s : string) : bool :=
  all_hex s && Nat.even (String.length s) && Nat.leb (String.length s) 40.

(** What is left of [s] after the prefix [p]. *)
Fixpoint strip_prefix (p s : string) : option string :=
  match p, s with
  | EmptyString, _ => Some s
  | String a p', String b s' =>
      if Ascii.eqb a b then strip_prefix p' s' else None
  | String _ _, EmptyString => None
  end.

(** What a caller can read off an exception it catches: its class and
    its message, as the five [raise] statements of [_validate_zip_file]
    write them. *)
Definition kind_of_exn (e : Exn) : option ErrorKind :=
  match exn_class e with
  | FileNotFoundError =>
      if PyStr.startswith (exn_msg e) "File not found: "
      then Some NotFoundError else None
  | BadZipFile =>
      if PyStr.startswith (exn_msg e) "Corrupted ZIP file: "
      then Some CorruptArchiveError else None
  | ValueError =>
      if String.eqb (exn_msg e) "Downloaded file is empty"
      then Some EmptyFileError
      else if String.eqb (exn_msg e)
                "Downloaded HTML page instead of ZIP file. Check the URL."
      then Some WrongContentTypeError
      else match strip_prefix "File is not a ZIP file. First bytes: " (exn_msg e) with
           | Some dump => if is_hex_dump dump then Some NotAnArchiveError else None
           | None => None
           end
  | _ => None
  end.

(** The five kinds as five exception types: two runs of
    [_validate_zip_file] that fail different checks raise exceptions of
    different classes. *)
Definition kinds_have_own_class
    (read_zip : list byte -> Exn + list Member)
    (read_chars : list byte -> nat -> string)
    (dir_size : string -> nat) : Prop :=
  forall (p : string) (w1 w2 : World) (e1 e2 : Exn) (k1 k2 : ErrorKind),
    (_validate_zip_file read_zip read_chars dir_size p w1).1 = Raise e1 ->
    (_validate_zip_file read_zip read_chars dir_size p w2).1 = Raise e2 ->
    spec_failing_check read_zip (files w1 !! p) = Some k1 ->
    spec_failing_check read_zip (files w2 !! p) = Some k2 ->
    k1 <> k2 ->
    exn_class e1 <> exn_class e2.

(** [p] is a substring of [s]. *)
Definition occurs (p s : string) : Prop :=
  exists a b, s = a +:+ p +:+ b.

(** In [pre +:+ p +:+ rest] the string [p] occurs once only, after
    [pre]. *)
Definition occurs_only_at (p pre rest : string) : Prop :=
  forall a b, pre +:+ p +:+ rest = a +:+ p +:+ b -> a = pre.

(** In [pre +:+ p +:+ rest] no occurrence of [p] starts before the one
    after [pre]. *)
Definition leftmost (p pre rest : string) : Prop :=
  forall a b, pre +:+ p +:+ rest = a +:+ p +:+ b ->
              String.length pre <= String.length a.

(** What [str.replace] is documented to return: the string with every
    non-overlapping occurrence of [old], taken from the left, replaced by
    [new]. *)
Inductive replaced (old new : string) : string -> string -> Prop :=
| replaced_none (s : string) :
    ~ occurs old s -> replaced old new s s
| replaced_first (pre rest out : string) :
    leftmost old pre rest ->
    replaced old new rest out ->
    replaced old new (pre +:+ old +:+ rest) (pre +:+ new +:+ out).

(** The offsets, counted from [i], at which [p] starts in [s]. *)
Fixpoint occurrences_from (i : nat) (p s : string) : list nat :=
  (if PyStr.startswith s p then [i] else []) ++
  match s with
  | EmptyString => []
  | String _ s' => occurrences_from (S i) p s'
  end.

(** The lines the loop of lines 135-136 logs, one per sampled name. *)
Definition sample_name_lines (file_list : list string) : list (Level * string) :=
  map (fun item : nat * string =>
         (INFO, "  " +:+ PyStr.str_of_nat (item.1 + 1) +:+ ". " +:+ item.2))
      (enumerate_from 0 (take 5 file_list)).

(** What lines 133-138 log for these names: the heading, the numbered
    names, and the count of the names left out. *)
Definition sample_report (file_list : list string) : list (Level * string) :=
  (if Nat.eqb (length file_list) 0 then []
   else [(INFO, "Sample extracted files:")])
  ++ sample_name_lines file_list
  ++ (if Nat.ltb 5 (length file_list)
      then [(INFO, "  ... and " +:+ PyStr.str_of_nat (length file_list - 5)
                   +:+ " more files")]
      else []).

(** What the [except] clauses of [extract_zip_file] log for [e]. *)
Definition extract_failure_report (e : Exn) : list (Level * string) :=
  if only_BadZipFile (exn_class e)
  then [(ERROR, "ZIP file error: " +:+ exn_msg e);
        (ERROR, "Possible causes:");
        (ERROR, "1. Downloaded file is corrupted");
        (ERROR, "2. Wrong URL (downloaded HTML instead of ZIP)");
        (ERROR, "3. File is not actually a ZIP file")]
  else [(ERROR, "Extraction failed: " +:+ exn_msg e)].

(** The URL [_fix_github_url] returns, whatever the world. *)
Definition normalized_url (url : string) : string :=
  match (_fix_github_url url (mkWorld ∅ [] [])).1 with
  | Return fixed => fixed
  | _ => url
  end.

(** What follows the first [://] of a URL. *)
Fixpoint after_scheme (url : string) : string :=
  match url with
  | EmptyString => EmptyString
  | String _ rest =>
      if PyStr.startswith url "://" then String.substring 3 (String.length url) url
      else after_scheme rest
  end.

(** What stands before the first slash. *)
Fixpoint until_slash (s : string) : string :=
  match s with
  | EmptyString => EmptyString
  | String c s' => if PosixPath.is_slash c then EmptyString else String c (until_slash s')
  end.

(** The host a URL names: what stands between [://] and the next slash. *)
Definition url_host (url : string) : string := until_slash (after_scheme url).

(** The specification's "blob-style path segment on the known host": the
    host is [github.com] and the path has a segment [blob]. *)
Definition blob_url_on_known_host (url : string) : bool :=
  String.eqb (url_host url) "github.com"
  && PyStr.contains "/blob/" (after_scheme url).

(** The second half of the specification's property of [normalize_url]:
    every URL that is not a blob URL on the known host comes back as it
    is. *)
Definition identity_off_the_known_host : Prop :=
  forall url : string,
    blob_url_on_known_host url = false -> normalized_url url = url.

(** What [_validate_zip_file] makes of a file with this content at [p]:
    its outcome in a world that holds nothing else. *)
Definition validation_outcome
    (read_zip : list byte -> Exn + list Member)
    (read_chars : list byte -> nat -> string)
    (dir_size : string -> nat)
    (p : string) (content : list byte) : Outcome bool :=
  (_validate_zip_file read_zip read_chars dir_size p
     (mkWorld {[ p := File content ]} [] [])).1.

(** [os.makedirs(p, exist_ok=True)] goes through in [w]. *)
Definition makedirs_ok (p : string) (w : World) : Prop :=
  (os.makedirs true p w).1 = Return tt.

(** The exception [e] is one that an operation of [download_file] raised:
    [os.makedirs] on the parent directory, [urlretrieve], or the validation
    of the destination. *)
Definition raised_by_operation
    (read_zip : list byte -> Exn + list Member)
    (urlretrieve_response : nat -> string -> Response)
    (read_chars : list byte -> nat -> string)
    (dir_size : string -> nat)
    (config : DataIngestionConfig) (e : Exn) : Prop :=
  (exists w0 : World,
     (os.makedirs true (PosixPath.dirname (local_data_file config)) w0).1 = Raise e)
  \/ (exists (n : nat) (url : string) (partial : option (list byte)),
        urlretrieve_response n url = Failed e partial)
  \/ (exists w0 : World,
        (_validate_zip_file read_zip read_chars dir_size
           (local_data_file config) w0).1 = Raise e).

(** The first half of the specification's clean-up property of
    [acquire()]: whenever the call raises, nothing is left at the
    destination. *)
Definition failure_removes_destination
    (read_zip : list byte -> Exn + list Member)
    (urlretrieve_response : nat -> string -> Response)
    (get_size : nat -> string)
    (read_chars : list byte -> nat -> string)
    (dir_size : string -> nat) : Prop :=
  forall (config : DataIngestionConfig) (fuel : nat) (w w' : World) (e : Exn),
    download_file read_zip urlretrieve_response get_size read_chars dir_size
      config fuel w = (Raise e, w') ->
    os.exists_at (local_data_file config) w' = false.

(** A member name that stands for a directory: it ends in a slash. *)
Definition is_dir_name (name : string) : bool :=
  match String.get (String.length name - 1) name with
  | Some c => PosixPath.is_slash c
  | None => false
  end.

(** The specification's property of [extract()]: on an archive that
    passes validation, with a target directory that can be made, the call
    returns and every file entry is then at its own relative path, taken
    from the target directory. *)
Definition entries_keep_their_paths
    (read_zip : list byte -> Exn + list Member)
    (read_chars : list byte -> nat -> string)
    (dir_size : string -> nat) : Prop :=
  forall (config : DataIngestionConfig) (w : World) (content : list byte)
         (members : list Member),
    files w !! local_data_file config = Some content ->
    validation_outcome read_zip read_chars dir_size
      (local_data_file config) content = Return true ->
    read_zip content = inr members ->
    makedirs_ok (unzip_dir config) w ->
    exists w',
      extract_zip_file read_zip read_chars dir_size config w = (Return tt, w')
      /\ forall (name : string) (data : list byte),
           mkMember name (Stored data) ∈ members ->
           is_dir_name name = false ->
           files w' !! PosixPath.normpath (PosixPath.join (unzip_dir config) name)
           = Some data.

(** [pat] and [x] agree as far as both go. *)
Fixpoint agree (pat x : string) : bool :=
  match pat, x with
  | String a pat', String b x' => Ascii.eqb a b && agree pat' x'
  | _, _ => true
  end.

(** No end of [X] agrees with [pat]: an occurrence of [pat] cannot start
    inside [X]. *)
Fixpoint starts_nowhere_in (pat X : string) : bool :=
  match X with
  | EmptyString => true
  | String _ X' => negb (agree pat X) && starts_nowhere_in pat X'
  end.

(** ** Runs and relations between worlds, for the proofs *)

(** What the checks of [_validate_zip_file] make of the bytes of a
    regular file at [p], in the world [w]. *)
Definition file_verdict
    (read_zip : list byte -> Exn + list Member)
    (read_chars : list byte -> nat -> string)
    (p : string) (content : list byte) (w : World)
    : Outcome bool * World :=
  if Nat.eqb (length content) 0 then
    (Raise (mkExn ValueError "Downloaded file is empty"), w)
  else if html_signature (take 100 content) then
    (Raise (mkExn ValueError
              "Downloaded HTML page instead of ZIP file. Check the URL."),
     add_log ERROR ("HTML content: " +:+ read_chars content 300)
       (add_log ERROR "Downloaded HTML page instead of ZIP file" w))
  else if negb (pk_signature (take 100 content)) then
    (Raise (mkExn ValueError
              ("File is not a ZIP file. First bytes: "
               +:+ PyBytes.hex (take 20 (take 100 content)))), w)
  else
    match read_zip content with
    | inl e =>
        (Raise (if only_BadZipFile (exn_class e)
                then mkExn BadZipFile ("Corrupted ZIP file: " +:+ exn_msg e)
                else e), w)
    | inr members =>
        (Return true,
         add_log INFO ("ZIP file is valid with "
                       +:+ PyStr.str_of_nat (length members) +:+ " files") w)
    end.

(** The world [w'] is [w] with directories added, each of them new, made
    by [os.mkdir] and with a name of at most [bound] characters. *)
Definition grown (bound : nat) (w w' : World) : Prop :=
  log w' = log w
  /\ requests w' = requests w
  /\ forall p,
       nodes w' !! p = nodes w !! p
       \/ (nodes w !! p = None
           /\ nodes w' !! p = Some Directory
           /\ p <> EmptyString
           /\ (PosixPath.split_twice p).1 <> p
           /\ String.length p <= bound).

(** A call whose outcome depends on the file system alone and which
    changes nothing else. *)
Definition fs_only {A} (m : Py A) : Prop :=
  forall w, exists (r : Outcome A) (N : gmap string Node),
    forall w2, nodes w2 = nodes w -> m w2 = (r, set_nodes N w2).

(** The world [w'] is [w] after an extraction to [targets]: directories
    have been added and files written at the targets; nothing has been
    removed, no directory has become a file, and no request has been
    made. *)
Definition extracted (targets : string -> Prop) (w w' : World) : Prop :=
  requests w' = requests w
  /\ forall p,
       nodes w' !! p = nodes w !! p
       \/ (nodes w !! p = None /\ nodes w' !! p = Some Directory)
       \/ (targets p /\ nodes w !! p <> Some Directory
           /\ exists c, nodes w' !! p = Some (File c)).

(** A call that does to the world what an extraction to [targets] may
    do, however it ends. *)
Definition extracting {A} (targets : string -> Prop) (m : Py A) : Prop :=
  forall w, extracted targets w (m w).2.

(** The member of that name is in place under [path]: a directory for a
    name that ends in a slash, and otherwise a file with the data of the
    member. *)
Definition in_place (members : list Member) (path name : string)
    (w : World) : Prop :=
  exists member,
    getinfo members name = Some member
    /\ if is_dir_name name
       then nodes w !! member_target path name = Some Directory
       else exists data,
              member_payload member = Stored data
              /\ nodes w !! member_target path name = Some (File data).

(** ** A concrete environment, for running the model *)

(** A world with nothing in it, not even a root directory. *)
Definition empty_world : World := mkWorld ∅ [] [].

(** A file system with the root directory only. *)
Definition root_world : World := mkWorld {[ "/" := Directory ]} [] [].

(** The configuration of the specification's scenario. *)
Definition demo_config : DataIngestionConfig :=
  mkConfig "https://github.com/org/repo/blob/main/data.zip" "/tmp/d.zip" "/tmp/out".

(** An archive reader that refuses every file of fewer than 22 bytes (the
    size of an empty archive) and finds the given members in any other. *)
Definition demo_read_zip (members : list Member)
    (content : list byte) : Exn + list Member :=
  if Nat.ltb (length content) 22
  then inl (mkExn BadZipFile "File is not a zip file")
  else inr members.

(** An archive reader that finds, in every file, a member made for a
    later version of the format. *)
Definition demo_read_later_version (content : list byte) : Exn + list Member :=
  inl (mkExn (OtherException "NotImplementedError") "zip file version 9.9").

Definition demo_get_size (n : nat) : string :=
  "~ " +:+ PyStr.str_of_nat (n / 1024) +:+ " KB".

(** The decoding of a file of ASCII text. *)
Definition demo_text (content : list byte) (n : nat) : string :=
  String.substring 0 n (String.string_of_list_byte content).

Definition demo_dir_size (p : string) : nat := 4096.

(** Seven members, one of them a directory. *)
Definition demo_members : list Member :=
  [mkMember "a.txt" (Stored (PyBytes.lit "A")); mkMember "b.txt" (Stored []);
   mkMember "c.txt" (Stored []); mkMember "d/" (Stored []);
   mkMember "d/e.txt" (Stored (PyBytes.lit "E")); mkMember "f.txt" (Stored []);
   mkMember "g.txt" (Stored [])].

(** A member whose name climbs out of the archive. *)
Definition climbing_members : list Member :=
  [mkMember "../evil.txt" (Stored (PyBytes.lit "E"))].

(** Three members, the second with a wrong checksum: reading it raises
    after its data has been copied. *)
Definition damaged_members : list Member :=
  [mkMember "a.txt" (Stored (PyBytes.lit "A"));
   mkMember "b.txt"
     (Broken (mkExn BadZipFile "Bad CRC-32 for file 'b.txt'") (PyBytes.lit "B"));
   mkMember "c.txt" (Stored (PyBytes.lit "C"))].

(** Thirty bytes that start with [PK]. *)
Definition demo_archive : list byte :=
  PyBytes.lit "PK-0123456789-0123456789-01234".

(** An HTML page with the archive signature further on. *)
Definition demo_html : list byte :=
  PyBytes.lit "<!DOCTYPE html><html>PK-0123456789-0123456789</html>".

(** A network that serves the same body to every request. *)
Definition demo_serve (body : list byte) (n : nat) (url : string) : Response :=
  Fetched body "Content-Type: application/octet-stream".

(** A network that refuses every request. *)
Definition demo_refuse (n : nat) (url : string) : Response :=
  Failed (mkExn (OtherException "URLError") "<urlopen error timed out>") None.

(** A network whose connection breaks after three bytes of the body. *)
Definition demo_break (n : nat) (url : string) : Response :=
  Failed (mkExn (OtherException "IncompleteRead") "IncompleteRead(3 bytes read)")
    (Some (PyBytes.lit "PK-")).

(** A file system with [/tmp] and, in it, the destination of
    [demo_config] with this content. *)
Definition world_with (content : list byte) : World :=
  mkWorld {[ "/" := Directory; "/tmp" := Directory;
             local_data_file demo_config := File content ]} [] [].

(** A file system in which the destination of [demo_config] is a
    directory. *)
Definition world_with_directory : World :=
  mkWorld {[ "/" := Directory; "/tmp" := Directory;
             local_data_file demo_config := Directory ]} [] [].

(** The calls of the model in the concrete environment. *)
Definition demo_download
    (response : nat -> string -> Response) : nat -> Py unit :=
  download_file (demo_read_zip demo_members) response demo_get_size demo_text
    demo_dir_size demo_config.

Definition demo_extract : Py unit :=
  extract_zip_file (demo_read_zip demo_members) demo_text demo_dir_size
    demo_config.

Definition demo_validate : string -> Py bool :=
  _validate_zip_file (demo_read_zip demo_members) demo_text demo_dir_size.

(** A configuration whose destination has no directory part. *)
Definition demo_config_bare : DataIngestionConfig :=
  mkConfig "https://github.com/org/repo/blob/main/data.zip" "data.zip" "out".

(** A configuration whose target directory is the path of the archive. *)
Definition demo_config_clash : DataIngestionConfig :=
  mkConfig "https://github.com/org/repo/blob/main/data.zip" "/tmp/d.zip"
    "/tmp/d.zip".

(** A configuration whose destination lies three directories deep. *)
Definition demo_config_nested : DataIngestionConfig :=
  mkConfig "https://github.com/org/repo/blob/main/data.zip"
    "/tmp/a/b/d.zip" "/tmp/out".

(** Three bytes with the archive signature, too few for [demo_read_zip]. *)
Definition demo_truncated : list byte := PyBytes.lit "PKx".

(** A text file of more than 20 bytes. *)
Definition demo_plain : list byte :=
  PyBytes.lit "plain text, with PK further on".
(** * Properties *)

(** ** The built-ins on small inputs *)

Example replace_overlapping :
  PyStr.replace "/blob/" "/" "a/blob/blob/b/blob/c" = "a/blob/b/c".
Proof. reflexivity. Qed.

Example str_of_nat_decimal :
  PyStr.str_of_nat 0 = "0" /\ PyStr.str_of_nat 120 = "120".
Proof. split; reflexivity. Qed.

Example dirname_cases :
  PosixPath.dirname "artifacts/data_ingestion/data.zip" = "artifacts/data_ingestion"
  /\ PosixPath.dirname "data.zip" = EmptyString
  /\ PosixPath.dirname "/data.zip" = "/"
  /\ PosixPath.dirname "a//b" = "a".
Proof. repeat split; reflexivity. Qed.

Example hex_lower_case : PyBytes.hex (PyBytes.lit "PK~") = "504b7e".
Proof. reflexivity. Qed.

(** ** Strings *)

Lemma str_app_nil_r (s : string) : s +:+ EmptyString = s.
Proof. induction s as [|c s IH]; simpl; [reflexivity | now rewrite IH]. Qed.

Lemma str_app_assoc (a b c : string) : (a +:+ b) +:+ c = a +:+ b +:+ c.
Proof. induction a as [|x a IH]; simpl; [reflexivity | now rewrite IH]. Qed.

Lemma str_length_app (a b : string) :
  String.length (a +:+ b) = String.length a + String.length b.
Proof. induction a as [|x a IH]; simpl; [reflexivity | now rewrite IH]. Qed.

Lemma str_app_inv_head (a b c : string) : a +:+ b = a +:+ c -> b = c.
Proof.
  induction a as [|x a IH]; simpl; intros H; [exact H |].
  injection H as H. now apply IH.
Qed.

Lemma str_app_eq_inv (a b c d : string) :
  a +:+ b = c +:+ d ->
  (exists k, a = c +:+ k /\ d = k +:+ b) \/ (exists k, c = a +:+ k /\ b = k +:+ d).
Proof.
  revert c. induction a as [|x a IH]; intros c H; simpl in H.
  - right. exists c. split; [reflexivity | exact H].
  - destruct c as [|y c]; simpl in H.
    + left. exists (String x a). split; [reflexivity | now symmetry].
    + injection H as -> H. destruct (IH _ H) as [[k [-> ->]] | [k [-> ->]]].
      * left. exists k. split; reflexivity.
      * right. exists k. split; reflexivity.
Qed.

Lemma str_app_length_nil (a u : string) : a = a +:+ u -> u = EmptyString.
Proof.
  intros H. apply (f_equal String.length) in H. rewrite str_length_app in H.
  destruct u; [reflexivity | simpl in H; lia].
Qed.

Lemma prefix_spec (p s : string) :
  String.prefix p s = true <-> exists r, s = p +:+ r.
Proof.
  revert s. induction p as [|c p IH]; intros s; simpl.
  - destruct s; simpl; split; eauto.
  - destruct s as [|d s]; simpl.
    + split; [discriminate | intros [r H]; discriminate].
    + destruct (ascii_dec c d) as [->|Hne].
      * rewrite IH. split; intros [r H]; exists r; congruence.
      * split; [discriminate | intros [r H]; congruence].
Qed.

Lemma startswith_spec (s p : string) :
  PyStr.startswith s p = true <-> exists r, s = p +:+ r.
Proof. apply prefix_spec. Qed.

Lemma contains_spec (p s : string) : PyStr.contains p s = true <-> occurs p s.
Proof.
  unfold occurs. induction s as [|c s IH]; cbn [PyStr.contains];
    unfold PyStr.startswith.
  - rewrite orb_false_r, prefix_spec. split.
    + intros [r H]. exists EmptyString, r. exact H.
    + intros [a [b H]]. destruct a; simpl in H; [eauto |discriminate].
  - rewrite orb_true_iff, prefix_spec, IH. split.
    + intros [[r H] | [a [b H]]].
      * exists EmptyString, r. exact H.
      * exists (String c a), b. simpl. now rewrite H.
    + intros [a [b H]]. destruct a as [|x a]; simpl in H.
      * left. eauto.
      * right. injection H as _ H. eauto.
Qed.

Lemma has_char_app (c : ascii) (a b : string) :
  has_char c (a +:+ b) = has_char c a || has_char c b.
Proof.
  induction a as [|x a IH]; simpl; [reflexivity |].
  now rewrite IH, orb_assoc.
Qed.

Lemma has_char_head (c : ascii) (s : string) : has_char c (String c s) = true.
Proof. simpl. now rewrite Ascii.eqb_refl. Qed.

(** ** [str.replace] *)

Lemma replace_scan_skip (old new a s : string) :
  PyStr.replace_scan old new (String.length a) (a +:+ s)
  = PyStr.replace_scan old new 0 s.
Proof. induction a as [|x a IH]; simpl; [reflexivity | exact IH]. Qed.

Lemma replace_scan_copy (old new pre rest : string) :
  (forall t u, pre = t +:+ u -> u <> EmptyString ->
               PyStr.startswith (u +:+ rest) old = false) ->
  PyStr.replace_scan old new 0 (pre +:+ rest)
  = pre +:+ PyStr.replace_scan old new 0 rest.
Proof.
  induction pre as [|c pre IH]; intros H; [reflexivity |].
  cbn [String.append PyStr.replace_scan].
  change (String c (pre +:+ rest)) with (String c pre +:+ rest).
  rewrite (H EmptyString (String c pre) eq_refl) by discriminate.
  rewrite IH; [reflexivity |].
  intros t u -> Hu. apply (H (String c t) u); [reflexivity | exact Hu].
Qed.

Lemma replace_scan_hit (old new rest : string) :
  old <> EmptyString ->
  PyStr.replace_scan old new 0 (old +:+ rest)
  = new +:+ PyStr.replace_scan old new 0 rest.
Proof.
  destruct old as [|c old]; [congruence | intros _].
  cbn [String.append PyStr.replace_scan].
  change (String c (old +:+ rest)) with (String c old +:+ rest).
  assert (Hp : PyStr.startswith (String c old +:+ rest) (String c old) = true)
    by (apply startswith_spec; eauto).
  rewrite Hp. f_equal.
  replace (String.length (String c old) - 1) with (String.length old)
    by (simpl; lia).
  apply replace_scan_skip.
Qed.

Lemma replace_scan_absent (old new s : string) :
  ~ occurs old s -> PyStr.replace_scan old new 0 s = s.
Proof.
  intros H.
  rewrite <- (str_app_nil_r s) at 1.
  rewrite replace_scan_copy; [simpl; apply str_app_nil_r |].
  intros t u -> Hu. rewrite str_app_nil_r.
  destruct (PyStr.startswith u old) eqn:Hp; [| reflexivity].
  exfalso. apply H. apply startswith_spec in Hp as [r ->].
  exists t, r. reflexivity.
Qed.

Lemma replace_once (old new pre rest : string) :
  old <> EmptyString ->
  occurs_only_at old pre rest ->
  PyStr.replace old new (pre +:+ old +:+ rest) = pre +:+ new +:+ rest.
Proof.
  intros Hne Honly.
  assert (Hscan : PyStr.replace old new (pre +:+ old +:+ rest)
                  = PyStr.replace_scan old new 0 (pre +:+ old +:+ rest))
    by (destruct old; [congruence | reflexivity]).
  rewrite Hscan, replace_scan_copy.
  - rewrite replace_scan_hit by exact Hne.
    rewrite replace_scan_absent; [reflexivity |].
    intros [a [b ->]].
    specialize (Honly (pre +:+ old +:+ a) b).
    rewrite !str_app_assoc in Honly. specialize (Honly eq_refl).
    apply (f_equal String.length) in Honly.
    rewrite !str_length_app in Honly.
    destruct old; [congruence | simpl in Honly; lia].
  - intros t u -> Hu.
    destruct (PyStr.startswith (u +:+ old +:+ rest) old) eqn:Hp; [| reflexivity].
    exfalso. apply startswith_spec in Hp as [r Hr].
    specialize (Honly t r). rewrite str_app_assoc, Hr in Honly.
    specialize (Honly eq_refl).
    apply str_app_length_nil in Honly. contradiction.
Qed.

Lemma occurs_leftmost (old s : string) :
  occurs old s ->
  exists pre rest, s = pre +:+ old +:+ rest /\ leftmost old pre rest.
Proof.
  induction s as [|c s IH]; intros Hocc.
  - destruct Hocc as (a & b & H). exists EmptyString, b.
    destruct a; [| discriminate H]. split; [exact H |].
    intros a' b' _. simpl. lia.
  - destruct (PyStr.startswith (String c s) old) eqn:Hp.
    + apply startswith_spec in Hp as [r Hr]. exists EmptyString, r.
      split; [exact Hr |]. intros a' b' _. simpl. lia.
    + assert (Hocc' : occurs old s).
      { destruct Hocc as (a & b & H). destruct a as [|x a].
        - exfalso. assert (Ht : PyStr.startswith (String c s) old = true)
            by (apply startswith_spec; exists b; exact H).
          congruence.
        - simpl in H. injection H as _ H. exists a, b. exact H. }
      destruct (IH Hocc') as (pre & rest & -> & Hleft).
      exists (String c pre), rest. split; [reflexivity |].
      intros a b H. destruct a as [|x a].
      * exfalso. assert (Ht : PyStr.startswith (String c (pre +:+ old +:+ rest)) old = true)
          by (apply startswith_spec; exists b; exact H).
        congruence.
      * simpl in H. injection H as _ H. specialize (Hleft a b H). simpl. lia.
Qed.

Lemma replace_scan_leftmost (old new pre rest : string) :
  old <> EmptyString ->
  leftmost old pre rest ->
  PyStr.replace_scan old new 0 (pre +:+ old +:+ rest)
  = pre +:+ new +:+ PyStr.replace_scan old new 0 rest.
Proof.
  intros Hne Hleft. rewrite replace_scan_copy.
  - now rewrite replace_scan_hit.
  - intros t u -> Hu.
    destruct (PyStr.startswith (u +:+ old +:+ rest) old) eqn:Hp; [| reflexivity].
    exfalso. apply startswith_spec in Hp as [r Hr].
    specialize (Hleft t r). rewrite str_app_assoc, Hr in Hleft.
    specialize (Hleft eq_refl). rewrite str_length_app in Hleft.
    destruct u; [congruence | simpl in Hleft; lia].
Qed.

(** [PyStr.replace] returns what [str.replace] is documented to return. *)
Lemma replace_replaced (old new : string) :
  old <> EmptyString ->
  forall s, replaced old new s (PyStr.replace old new s).
Proof.
  intros Hne s.
  assert (Hscan : PyStr.replace old new s = PyStr.replace_scan old new 0 s)
    by (destruct old; [congruence | reflexivity]).
  rewrite Hscan. clear Hscan.
  remember (String.length s) as n eqn:Hn. revert s Hn.
  induction n as [n IH] using lt_wf_ind. intros s Hn.
  destruct (PyStr.contains old s) eqn:Hc.
  - apply contains_spec in Hc.
    destruct (occurs_leftmost old s Hc) as (pre & rest & -> & Hleft).
    rewrite (replace_scan_leftmost old new pre rest Hne Hleft).
    apply replaced_first; [exact Hleft |].
    apply (IH (String.length rest)); [| reflexivity].
    subst n. rewrite !str_length_app.
    destruct old; [congruence | simpl; lia].
  - assert (Hno : ~ occurs old s)
      by (intros H; apply contains_spec in H; congruence).
    rewrite (replace_scan_absent old new s Hno). now apply replaced_none.
Qed.

(** An occurrence of [pat] in a string around [X] lies on one side of
    [X], when neither string holds the first character of the other. *)
Lemma occurrence_avoids (X pat pre tail a b : string) (x0 p0 : ascii)
    (X' pat' : string) :
  X = String x0 X' -> pat = String p0 pat' ->
  has_char x0 pat = false -> has_char p0 X = false ->
  pre +:+ X +:+ tail = a +:+ pat +:+ b ->
  (exists c, pre = a +:+ pat +:+ c)
  \/ (exists a', a = pre +:+ X +:+ a' /\ tail = a' +:+ pat +:+ b).
Proof.
  intros HX Hpat Hx Hp H.
  destruct (str_app_eq_inv _ _ _ _ H) as [[k [-> Hk]] | [k [-> Hk]]].
  - (* the occurrence starts inside [pre] *)
    destruct (str_app_eq_inv _ _ _ _ Hk) as [[k' [Hk1 Hk2]] | [k' [-> _]]].
    + destruct k' as [|y k'].
      * rewrite str_app_nil_r in Hk1. subst k. left. exists EmptyString.
        now rewrite str_app_nil_r.
      * exfalso. rewrite HX in Hk2. simpl in Hk2. injection Hk2 as <- _.
        rewrite Hk1, has_char_app, has_char_head, orb_true_r in Hx.
        discriminate.
    + left. exists k'. reflexivity.
  - (* the occurrence starts at or after the start of [X] *)
    symmetry in Hk.
    destruct (str_app_eq_inv _ _ _ _ Hk) as [[k' [-> Hk2]] | [k' [Hk1 Hk2]]].
    + right. exists k'. split; [reflexivity | exact Hk2].
    + destruct k' as [|y k'].
      * rewrite str_app_nil_r in Hk1. subst k. right. exists EmptyString.
        split; [now rewrite str_app_nil_r | now rewrite Hk2].
      * exfalso. rewrite Hpat in Hk2. simpl in Hk2. injection Hk2 as -> _.
        rewrite Hk1, has_char_app, has_char_head, orb_true_r in Hp.
        discriminate.
Qed.

Lemma str_app_inj_length (a b c d : string) :
  a +:+ b = c +:+ d -> String.length a = String.length c -> a = c.
Proof.
  revert c. induction a as [|x a IH]; intros [|y c] H Hl; simpl in *;
    try discriminate; [reflexivity |].
  injection H as -> H. f_equal. apply IH; [exact H | lia].
Qed.

Lemma occurrences_complete (p a b : string) (i : nat) :
  In (i + String.length a) (occurrences_from i p (a +:+ p +:+ b)).
Proof.
  revert i. induction a as [|x a IH]; intros i.
  - assert (Hp : PyStr.startswith (p +:+ b) p = true)
      by (apply startswith_spec; eauto).
    change (EmptyString +:+ p +:+ b) with (p +:+ b).
    destruct (p +:+ b) eqn:E; cbn [occurrences_from]; rewrite Hp;
      simpl; left; lia.
  - cbn [String.append occurrences_from]. apply in_or_app. right.
    replace (i + String.length (String x a)) with (S i + String.length a)
      by (simpl; lia).
    apply IH.
Qed.

Lemma only_at_by_occurrences (p pre rest : string) :
  occurrences_from 0 p (pre +:+ p +:+ rest) = [String.length pre] ->
  occurs_only_at p pre rest.
Proof.
  intros H a b Heq.
  pose proof (occurrences_complete p a b 0) as Hin.
  rewrite <- Heq, H in Hin. simpl in Hin.
  destruct Hin as [Hl | []].
  symmetry. eapply str_app_inj_length; [exact Heq | exact Hl].
Qed.

Lemma only_at_transfer (X Y pat pre mid post : string) (y0 p0 : ascii)
    (Y' pat' : string) :
  Y = String y0 Y' -> pat = String p0 pat' ->
  has_char y0 pat = false -> has_char p0 Y = false ->
  occurs_only_at pat (pre +:+ X +:+ mid) post ->
  occurs_only_at pat (pre +:+ Y +:+ mid) post.
Proof.
  intros HY Hpat Hy Hp Honly a b Heq.
  rewrite !str_app_assoc in Heq.
  destruct (occurrence_avoids _ _ _ _ _ _ _ _ _ _ HY Hpat Hy Hp Heq)
    as [[c Hc] | [a' [-> Ha']]].
  - exfalso.
    specialize (Honly a (c +:+ X +:+ mid +:+ pat +:+ post)).
    rewrite Hc, !str_app_assoc in Honly. specialize (Honly eq_refl).
    apply (f_equal String.length) in Honly.
    rewrite !str_length_app in Honly.
    rewrite Hpat in Honly. simpl in Honly. lia.
  - specialize (Honly (pre +:+ X +:+ a') b).
    rewrite !str_app_assoc, Ha' in Honly. specialize (Honly eq_refl).
    apply str_app_inv_head in Honly. apply str_app_inv_head in Honly.
    now subst a'.
Qed.

(** ** C5: [_fix_github_url] *)

(** C5, as amended.  A URL that holds both [github.com] and [/blob/] as
    substrings, wherever they stand, comes back with [github.com]
    replaced by [raw.githubusercontent.com] and then [/blob/] replaced by
    a slash, at every occurrence in the way of [str.replace];
    when each occurs once, that is the URL with the host replaced and the
    segment removed, and the rewrite is logged; every other URL comes back
    as it is, with nothing logged. *)
Theorem fix_github_url_blob_or_identity :
  (forall (pre mid post : string) (w : World),
     occurs_only_at "github.com" pre (mid +:+ "/blob/" +:+ post) ->
     occurs_only_at "/blob/" (pre +:+ "github.com" +:+ mid) post ->
     let url := pre +:+ "github.com" +:+ mid +:+ "/blob/" +:+ post in
     let fixed := pre +:+ "raw.githubusercontent.com" +:+ mid +:+ "/" +:+ post in
     _fix_github_url url w
     = (Return fixed,
        add_log INFO ("Fixed GitHub URL: " +:+ url +:+ " -> " +:+ fixed) w))
  /\ (forall (url : string) (w : World),
        occurs "github.com" url -> occurs "/blob/" url ->
        exists raw_host fixed : string,
          replaced "github.com" "raw.githubusercontent.com" url raw_host
          /\ replaced "/blob/" "/" raw_host fixed
          /\ (_fix_github_url url w).1 = Return fixed)
  /\ (forall (url : string) (w : World),
        ~ (occurs "github.com" url /\ occurs "/blob/" url) ->
        _fix_github_url url w = (Return url, w)).
Proof.
  split; [| split].
  - intros pre mid post w Hhost Hblob url fixed.
    assert (Hc1 : PyStr.contains "github.com" url = true)
      by (apply contains_spec; exists pre, (mid +:+ "/blob/" +:+ post); reflexivity).
    assert (Hc2 : PyStr.contains "/blob/" url = true).
    { apply contains_spec. exists (pre +:+ "github.com" +:+ mid), post.
      unfold url. now rewrite !str_app_assoc. }
    unfold _fix_github_url. rewrite Hc1, Hc2. cbn [andb].
    assert (Hr1 : PyStr.replace "github.com" "raw.githubusercontent.com" url
                  = pre +:+ "raw.githubusercontent.com" +:+ mid +:+ "/blob/" +:+ post)
      by (apply replace_once; [discriminate | exact Hhost]).
    assert (Hr2 : PyStr.replace "/blob/" "/"
                    (pre +:+ "raw.githubusercontent.com" +:+ mid +:+ "/blob/" +:+ post)
                  = fixed).
    { pose proof (only_at_transfer "github.com" "raw.githubusercontent.com"
                    "/blob/" pre mid post _ _ _ _ eq_refl eq_refl eq_refl eq_refl
                    Hblob) as Honly.
      pose proof (replace_once "/blob/" "/" _ _ ltac:(discriminate) Honly) as E.
      rewrite !str_app_assoc in E. exact E. }
    rewrite Hr1, Hr2. reflexivity.
  - intros url w H1 H2.
    apply contains_spec in H1. apply contains_spec in H2.
    exists (PyStr.replace "github.com" "raw.githubusercontent.com" url),
      (PyStr.replace "/blob/" "/"
         (PyStr.replace "github.com" "raw.githubusercontent.com" url)).
    split; [apply replace_replaced; discriminate |].
    split; [apply replace_replaced; discriminate |].
    unfold _fix_github_url. rewrite H1, H2. reflexivity.
  - intros url w Hnot. unfold _fix_github_url.
    destruct (PyStr.contains "github.com" url) eqn:H1; [| reflexivity].
    destruct (PyStr.contains "/blob/" url) eqn:H2; [| reflexivity].
    exfalso. apply Hnot. split; apply contains_spec; assumption.
Qed.

Lemma fix_github_url_blob_or_identity_witness :
  occurs_only_at "github.com" "https://" ("/org/repo" +:+ "/blob/" +:+ "main/data.zip")
  /\ occurs_only_at "/blob/" ("https://" +:+ "github.com" +:+ "/org/repo") "main/data.zip"
  /\ _fix_github_url (source_URL demo_config) empty_world
     = (Return "https://raw.githubusercontent.com/org/repo/main/data.zip",
        add_log INFO
          ("Fixed GitHub URL: https://github.com/org/repo/blob/main/data.zip"
           +:+ " -> https://raw.githubusercontent.com/org/repo/main/data.zip")
          empty_world)
  /\ ~ (occurs "github.com" "https://example.org/blob/data.zip"
        /\ occurs "/blob/" "https://example.org/blob/data.zip")
  /\ _fix_github_url "https://example.org/blob/data.zip" empty_world
     = (Return "https://example.org/blob/data.zip", empty_world).
Proof.
  assert (H1 : occurs_only_at "github.com" "https://"
                 ("/org/repo" +:+ "/blob/" +:+ "main/data.zip"))
    by (apply only_at_by_occurrences; reflexivity).
  assert (H2 : occurs_only_at "/blob/"
                 ("https://" +:+ "github.com" +:+ "/org/repo") "main/data.zip")
    by (apply only_at_by_occurrences; reflexivity).
  assert (H3 : ~ (occurs "github.com" "https://example.org/blob/data.zip"
                  /\ occurs "/blob/" "https://example.org/blob/data.zip"))
    by (intros [H _]; apply contains_spec in H; discriminate H).
  split; [exact H1 |]. split; [exact H2 |]. split.
  - exact (proj1 fix_github_url_blob_or_identity
             "https://" "/org/repo" "main/data.zip" empty_world H1 H2).
  - split; [exact H3 |].
    exact (proj2 (proj2 fix_github_url_blob_or_identity) _ empty_world H3).
Defined.

(** C5, as stated, fails: a URL whose host is not [github.com] is rewritten
    all the same, because the test is for the substring [github.com]
    anywhere in the string. *)
Lemma other_host_is_rewritten : ~ identity_off_the_known_host.
Proof.
  intros H.
  specialize (H "https://notgithub.com/a/blob/b.zip" eq_refl).
  discriminate H.
Qed.

Example host_in_the_path_is_rewritten :
  url_host "http://127.0.0.1:9/github.com/blob/data.zip" = "127.0.0.1:9"
  /\ normalized_url "http://127.0.0.1:9/github.com/blob/data.zip"
     = "http://127.0.0.1:9/raw.githubusercontent.com/data.zip".
Proof. split; reflexivity. Qed.

Example every_blob_segment_is_dropped :
  normalized_url "https://github.com/org/repo/blob/main/blob/data.zip"
  = "https://raw.githubusercontent.com/org/repo/main/data.zip".
Proof. reflexivity. Qed.

Example normpath_cases :
  PosixPath.normpath "/tmp/out/../evil.txt" = "/tmp/evil.txt"
  /\ PosixPath.normpath "a//b/./c/" = "a/b/c"
  /\ PosixPath.normpath "//x/../y" = "//y"
  /\ PosixPath.normpath EmptyString = ".".
Proof. repeat split; reflexivity. Qed.

Example split_cases :
  PosixPath.split "/tmp/a/d.zip" = ("/tmp/a", "d.zip")
  /\ PosixPath.split "/tmp/a/" = ("/tmp/a", EmptyString)
  /\ PosixPath.split_twice "/tmp/a/" = ("/tmp", "a")
  /\ PosixPath.split "/" = ("/", EmptyString).
Proof. repeat split; reflexivity. Qed.

(** ** The file system *)

Lemma files_lookup (w : World) (p : string) :
  files w !! p = nodes w !! p ≫= node_content.
Proof. unfold files. apply lookup_omap. Qed.

Lemma files_lookup_Some (w : World) (p : string) (content : list byte) :
  files w !! p = Some content <-> nodes w !! p = Some (File content).
Proof.
  rewrite files_lookup. destruct (nodes w !! p) as [[c|]|]; cbn; split;
    intros H; try discriminate H; congruence.
Qed.

Lemma files_lookup_None (w : World) (p : string) :
  files w !! p = None
  <-> nodes w !! p = None \/ nodes w !! p = Some Directory.
Proof.
  rewrite files_lookup. destruct (nodes w !! p) as [[c|]|]; cbn; split;
    intros H; try discriminate H; auto; destruct H; discriminate.
Qed.

Lemma elem_of_dirs (w : World) (p : string) :
  p ∈ dirs w <-> nodes w !! p = Some Directory.
Proof.
  unfold dirs. rewrite elem_of_dom, lookup_omap.
  destruct (nodes w !! p) as [[c|]|]; cbn; split; intros H;
    try discriminate H; try (destruct H as [x H]; discriminate H); eauto.
Qed.

Lemma files_write (w : World) (p : string) (content : list byte) :
  files (set_nodes (<[p := File content]> (nodes w)) w)
  = <[p := content]> (files w).
Proof. unfold files. cbn. now apply omap_insert_Some. Qed.

Lemma files_remove (w : World) (p : string) :
  files (set_nodes (delete p (nodes w)) w) = delete p (files w).
Proof. unfold files. cbn. apply omap_delete. Qed.

Lemma files_mkdir (w : World) (p : string) :
  files w !! p = None ->
  files (set_nodes (<[p := Directory]> (nodes w)) w) = files w.
Proof.
  intros H. unfold files in *. cbn.
  rewrite (omap_insert_None _ _ _ Directory) by reflexivity.
  now apply delete_id.
Qed.

Lemma exists_at_true (w : World) (p : string) (n : Node) :
  nodes w !! p = Some n -> os.exists_at p w = true.
Proof. intros H. unfold os.exists_at. rewrite H. reflexivity. Qed.

Lemma exists_at_false (w : World) (p : string) :
  os.exists_at p w = false <-> nodes w !! p = None.
Proof.
  unfold os.exists_at. destruct (nodes w !! p); cbn; split; intros H;
    try discriminate H; reflexivity.
Qed.

Lemma exists_at_file (w : World) (p : string) (content : list byte) :
  files w !! p = Some content -> os.exists_at p w = true.
Proof. intros H. apply files_lookup_Some in H. eapply exists_at_true, H. Qed.

Lemma is_dir_true (w : World) (p : string) :
  os.is_dir p w = true -> nodes w !! p = Some Directory.
Proof.
  unfold os.is_dir. intros H. apply andb_true_iff in H as [_ H].
  now apply bool_decide_eq_true in H.
Qed.

(** ** [_validate_zip_file] *)

Section Validation.

Variable read_zip : list byte -> Exn + list Member.
Variable read_chars : list byte -> nat -> string.
Variable dir_size : string -> nat.

Local Abbreviation validate := (_validate_zip_file read_zip read_chars dir_size).
Local Abbreviation verdict := (file_verdict read_zip read_chars).

(** The run of [_validate_zip_file], check by check. *)
Lemma validate_eq (p : string) (w : World) :
  validate p w =
  match nodes w !! p with
  | None => (Raise (mkExn FileNotFoundError ("File not found: " +:+ p)), w)
  | Some Directory =>
      if Nat.eqb (dir_size p) 0 then
        (Raise (mkExn ValueError "Downloaded file is empty"), w)
      else (Raise (os.eisdir p), w)
  | Some (File content) => verdict p content w
  end.
Proof.
  unfold _validate_zip_file, os.path_exists, os.exists_at, os.getsize,
    os.read_bytes, read_text, try_clauses, zip_open, bind, os.open_read,
    file_verdict, html_signature, pk_signature.
  destruct (nodes w !! p) as [[content|]|] eqn:Hn;
    cbn -[PyBytes.startswith PyBytes.lit take]; [| | reflexivity].
  - rewrite ?Hn. cbn -[PyBytes.startswith PyBytes.lit take].
    destruct (Nat.eqb (length content) 0); [reflexivity |].
    rewrite ?Hn. cbn -[PyBytes.startswith PyBytes.lit take].
    destruct (PyBytes.startswith (take 100 content) (PyBytes.lit "<!DOCTYPE")
              || PyBytes.startswith (take 100 content) (PyBytes.lit "<html")).
    { cbn -[PyBytes.startswith PyBytes.lit take].
      unfold add_log; cbn [nodes]. rewrite ?Hn. reflexivity. }
    destruct (PyBytes.startswith (take 100 content) (PyBytes.lit "PK"));
      cbn -[PyBytes.startswith PyBytes.lit take]; [| reflexivity].
    rewrite Hn. cbn. destruct (read_zip content) as [e|members]; cbn.
    + destruct (only_BadZipFile (exn_class e)); reflexivity.
    + unfold namelist. rewrite length_map. reflexivity.
  - rewrite ?Hn. cbn -[PyBytes.startswith PyBytes.lit take].
    destruct (Nat.eqb (dir_size p) 0); [reflexivity |].
    rewrite ?Hn. reflexivity.
Qed.

Lemma validate_file_eq (p : string) (w : World) (content : list byte) :
  files w !! p = Some content -> validate p w = verdict p content w.
Proof.
  intros H. apply files_lookup_Some in H. now rewrite validate_eq, H.
Qed.

Lemma file_verdict_frame (p : string) (content : list byte) (w : World) :
  nodes (verdict p content w).2 = nodes w
  /\ requests (verdict p content w).2 = requests w.
Proof.
  unfold file_verdict.
  destruct (Nat.eqb (length content) 0); [auto |].
  destruct (html_signature (take 100 content)); [auto |].
  destruct (negb (pk_signature (take 100 content))); [auto |].
  destruct (read_zip content); auto.
Qed.

Lemma hex_length (b : list byte) :
  String.length (PyBytes.hex b) = 2 * length b.
Proof. induction b as [|x b IH]; simpl; [reflexivity | rewrite IH; lia]. Qed.

Lemma validate_frame (p : string) (w : World) :
  nodes (validate p w).2 = nodes w
  /\ requests (validate p w).2 = requests w.
Proof.
  rewrite validate_eq.
  destruct (nodes w !! p) as [[content|]|]; [| | auto].
  - apply file_verdict_frame.
  - destruct (Nat.eqb (dir_size p) 0); auto.
Qed.

Lemma validate_not_out_of_fuel (p : string) (w : World) :
  (validate p w).1 <> OutOfFuel.
Proof.
  rewrite validate_eq.
  destruct (nodes w !! p) as [[content|]|]; [| | discriminate].
  - unfold file_verdict.
    destruct (Nat.eqb (length content) 0); [discriminate |].
    destruct (html_signature (take 100 content)); [discriminate |].
    destruct (negb (pk_signature (take 100 content))); [discriminate |].
    destruct (read_zip content); discriminate.
  - destruct (Nat.eqb (dir_size p) 0); discriminate.
Qed.

Lemma strip_prefix_app (p r : string) : strip_prefix p (p +:+ r) = Some r.
Proof.
  induction p as [|c p IH]; cbn [String.append strip_prefix];
    [now destruct r |].
  now rewrite Ascii.eqb_refl.
Qed.

Lemma hex_digit_is_hex (x : byte) :
  has_char (PyBytes.hex_digit (Byte.to_nat x / 16)) "0123456789abcdef" = true
  /\ has_char (PyBytes.hex_digit (Byte.to_nat x mod 16)) "0123456789abcdef" = true.
Proof. destruct x; split; reflexivity. Qed.

Lemma hex_all_hex (b : list byte) : all_hex (PyBytes.hex b) = true.
Proof.
  induction b as [|x b IH]; [reflexivity |].
  destruct (hex_digit_is_hex x) as [H1 H2].
  cbn [PyBytes.hex all_hex]. now rewrite H1, H2, IH.
Qed.

Lemma hex_is_dump (b : list byte) : is_hex_dump (PyBytes.hex (take 20 b)) = true.
Proof.
  unfold is_hex_dump. rewrite hex_all_hex, hex_length, length_take.
  rewrite Nat.even_mul. cbn [Nat.even orb andb].
  apply Nat.leb_le. lia.
Qed.

(** C3, as amended.  On a path that names no directory, a run of
    [_validate_zip_file] returns [True] or fails one of the five checks.
    The exception tells the caller which check by its class and message:
    [FileNotFoundError] for the missing file, [BadZipFile] for the archive
    that [zipfile] refuses as one, and a [ValueError] with one of three
    messages for the empty file, the HTML page and the file without the
    archive signature.  An exception of [zipfile] that is no [BadZipFile]
    is passed on as it is, outside the five.  On a directory the run
    raises the [IsADirectoryError] of the first read, or the error of the
    empty file when the directory has size 0. *)
Theorem validate_five_kinds (p : string) (w : World) :
  match nodes w !! p with
  | Some Directory =>
      (validate p w).1
      = Raise (if Nat.eqb (dir_size p) 0
               then mkExn ValueError "Downloaded file is empty"
               else os.eisdir p)
  | _ =>
      match spec_failing_check read_zip (files w !! p) with
      | None => (validate p w).1 = Return true
      | Some kind =>
          exists e,
            (validate p w).1 = Raise e
            /\ (kind_of_exn e = Some kind
                \/ (kind = CorruptArchiveError
                    /\ exn_class e <> BadZipFile
                    /\ exists content,
                         files w !! p = Some content
                         /\ read_zip content = inl e))
      end
  end.
Proof.
  rewrite validate_eq, files_lookup.
  destruct (nodes w !! p) as [[content|]|] eqn:Hn; cbn [mbind option_bind node_content].
  - unfold spec_failing_check, file_verdict.
    destruct (Nat.eqb (length content) 0);
      [eexists; split; [reflexivity | left; reflexivity] |].
    destruct (html_signature (take 100 content));
      [eexists; split; [reflexivity | left; reflexivity] |].
    destruct (negb (pk_signature (take 100 content))).
    { eexists. split; [reflexivity | left].
      unfold kind_of_exn. cbn [exn_class exn_msg].
      rewrite strip_prefix_app, take_take, hex_is_dump.
      destruct (String.eqb _ "Downloaded file is empty") eqn:E1.
      { apply String.eqb_eq in E1. discriminate E1. }
      destruct (String.eqb _ _) eqn:E2; [| reflexivity].
      apply String.eqb_eq in E2. discriminate E2. }
    destruct (read_zip content) as [e | members] eqn:Hz; [| reflexivity].
    eexists. split; [reflexivity |].
    destruct (only_BadZipFile (exn_class e)) eqn:Hc.
    + left. unfold kind_of_exn. cbn [exn_class exn_msg].
      assert (Hp : PyStr.startswith ("Corrupted ZIP file: " +:+ exn_msg e)
                     "Corrupted ZIP file: " = true)
        by (apply startswith_spec; eauto).
      now rewrite Hp.
    + right. split; [reflexivity |]. split.
      * intros Hb. rewrite Hb in Hc. discriminate Hc.
      * exists content. auto.
  - destruct (Nat.eqb (dir_size p) 0); reflexivity.
  - cbn [spec_failing_check fst]. eexists. split; [reflexivity | left].
    unfold kind_of_exn. cbn [exn_class exn_msg].
    assert (Hp : PyStr.startswith ("File not found: " +:+ p) "File not found: " = true)
      by (apply startswith_spec; eauto).
    now rewrite Hp.
Qed.

(** C6.  A zero-byte file is refused as empty with nothing read or logged,
    and a file that begins with [<!DOCTYPE] or [<html] is refused as an HTML
    page whatever follows the prefix and whatever the archive reader would
    make of the file. *)
Theorem validate_check_order (p : string) (w : World) :
  (files w !! p = Some [] ->
   validate p w = (Raise (mkExn ValueError "Downloaded file is empty"), w))
  /\ (forall content rest : list byte,
        files w !! p = Some content ->
        content = PyBytes.lit "<!DOCTYPE" ++ rest
        \/ content = PyBytes.lit "<html" ++ rest ->
        validate p w
        = (Raise (mkExn ValueError
                    "Downloaded HTML page instead of ZIP file. Check the URL."),
           add_log ERROR ("HTML content: " +:+ read_chars content 300)
             (add_log ERROR "Downloaded HTML page instead of ZIP file" w))).
Proof.
  split.
  - intros H. rewrite (validate_file_eq _ _ _ H). reflexivity.
  - intros content rest Hf Hc. rewrite (validate_file_eq _ _ _ Hf).
    unfold file_verdict.
    assert (Hlen : Nat.eqb (length content) 0 = false)
      by (destruct Hc as [-> | ->]; reflexivity).
    assert (Hsig : html_signature (take 100 content) = true)
      by (destruct Hc as [-> | ->]; reflexivity).
    rewrite Hlen, Hsig. reflexivity.
Qed.

(** C7.  A file that starts with the two bytes [PK] and that the archive
    reader can read is accepted, and the line logged gives the number of
    names in the archive. *)
Theorem validate_accepts_archive (p : string) (w : World) (rest : list byte)
    (members : list Member) :
  files w !! p = Some (PyBytes.lit "PK" ++ rest) ->
  read_zip (PyBytes.lit "PK" ++ rest) = inr members ->
  validate p w
  = (Return true,
     add_log INFO ("ZIP file is valid with "
                   +:+ PyStr.str_of_nat (length (namelist members)) +:+ " files") w).
Proof.
  intros Hf Hz. rewrite (validate_file_eq _ _ _ Hf). unfold file_verdict.
  change (PyBytes.lit "PK" ++ rest) with (Byte.x50 :: Byte.x4b :: rest) in *.
  cbn [length Nat.eqb take html_signature pk_signature].
  unfold namelist. rewrite length_map.
  cbn. rewrite Hz. reflexivity.
Qed.

(** C10.  An existing file of fewer than 100 bytes is read whole; when it is
    not empty and has neither signature it is refused as not being an
    archive, with a message that ends in the hex dump of its first 20 bytes
    at most. *)
Theorem validate_short_file (p : string) (w : World) (content : list byte) :
  files w !! p = Some content ->
  0 < length content < 100 ->
  html_signature content = false ->
  pk_signature content = false ->
  os.read_bytes p 100 w = (Return content, w)
  /\ validate p w
     = (Raise (mkExn ValueError
                 ("File is not a ZIP file. First bytes: "
                  +:+ PyBytes.hex (take 20 content))), w)
  /\ String.length (PyBytes.hex (take 20 content)) = 2 * Nat.min 20 (length content).
Proof.
  intros Hf Hlen Hhtml Hpk.
  assert (Ht : take 100 content = content) by (apply take_ge; lia).
  split; [| split].
  - apply files_lookup_Some in Hf.
    unfold os.read_bytes, bind, os.open_read. rewrite Hf. cbn. now rewrite Ht.
  - rewrite (validate_file_eq _ _ _ Hf). unfold file_verdict.
    rewrite Ht, Hhtml, Hpk.
    destruct (Nat.eqb (length content) 0) eqn:E.
    + apply Nat.eqb_eq in E. lia.
    + reflexivity.
  - rewrite hex_length, length_take. reflexivity.
Qed.

(** ** More on [_validate_zip_file] *)

Lemma bytes_startswith_take (n : nat) (b p : list byte) :
  length p <= n ->
  PyBytes.startswith (take n b) p = PyBytes.startswith b p.
Proof.
  revert n b. induction p as [|x p IH]; intros n b Hn; [reflexivity |].
  destruct n as [|n]; [simpl in Hn; lia |].
  destruct b as [|y b]; [reflexivity |].
  cbn [take PyBytes.startswith]. rewrite IH by (simpl in Hn; lia).
  reflexivity.
Qed.

(** X1.  [_validate_zip_file] only reads: it leaves the file system and
    the requests as they were and adds lines to the log; and whether it
    returns or what it raises depends on nothing but what the path
    names. *)
Theorem validate_only_reads (p : string) (w : World) :
  (exists lines,
     (validate p w).2 = mkWorld (nodes w) (log w ++ lines) (requests w))
  /\ (forall w2 : World,
        nodes w2 !! p = nodes w !! p ->
        (validate p w2).1 = (validate p w).1).
Proof.
  split.
  - rewrite validate_eq.
    assert (Hsame : w = mkWorld (nodes w) (log w ++ []) (requests w))
      by (rewrite app_nil_r; now destruct w).
    destruct (nodes w !! p) as [[content|]|]; [| | exists []; exact Hsame].
    + unfold file_verdict.
      destruct (Nat.eqb (length content) 0); [exists []; exact Hsame |].
      destruct (html_signature (take 100 content)).
      { exists [(ERROR, "Downloaded HTML page instead of ZIP file");
                (ERROR, "HTML content: " +:+ read_chars content 300)].
        unfold add_log. cbn [nodes log requests snd].
        now rewrite <- app_assoc. }
      destruct (negb (pk_signature (take 100 content))); [exists []; exact Hsame |].
      destruct (read_zip content) as [e | members]; [exists []; exact Hsame |].
      exists [(INFO, "ZIP file is valid with "
                     +:+ PyStr.str_of_nat (length members) +:+ " files")].
      reflexivity.
    + destruct (Nat.eqb (dir_size p) 0); exists []; exact Hsame.
  - intros w2 H. rewrite !validate_eq, H.
    destruct (nodes w !! p) as [[content|]|]; [| | reflexivity].
    + unfold file_verdict.
      destruct (Nat.eqb (length content) 0); [reflexivity |].
      destruct (html_signature (take 100 content)); [reflexivity |].
      destruct (negb (pk_signature (take 100 content))); [reflexivity |].
      destruct (read_zip content); reflexivity.
    + destruct (Nat.eqb (dir_size p) 0); reflexivity.
Qed.

(** X2.  A file that starts with [PK] and that the archive reader refuses
    with a [BadZipFile] is refused with a [BadZipFile] whose message is the
    reader's message after "Corrupted ZIP file: "; nothing is logged. *)
Theorem validate_corrupt_archive (p : string) (w : World) (rest : list byte)
    (msg : string) :
  files w !! p = Some (PyBytes.lit "PK" ++ rest) ->
  read_zip (PyBytes.lit "PK" ++ rest) = inl (mkExn BadZipFile msg) ->
  validate p w
  = (Raise (mkExn BadZipFile ("Corrupted ZIP file: " +:+ msg)), w).
Proof.
  intros Hf Hz. rewrite (validate_file_eq _ _ _ Hf). unfold file_verdict.
  change (PyBytes.lit "PK" ++ rest) with (Byte.x50 :: Byte.x4b :: rest) in *.
  cbn [length Nat.eqb]. cbn. rewrite Hz. reflexivity.
Qed.

(** X3.  The signatures are looked for at the start of the file only, and
    the message shows 20 bytes at most: a file of any length that is not
    empty and starts with neither signature is refused as not being an
    archive, with the hex dump of its first 20 bytes, and the archive
    reader is not asked. *)
Theorem validate_unsigned_file (p : string) (w : World) (content : list byte) :
  files w !! p = Some content ->
  content <> [] ->
  html_signature content = false ->
  pk_signature content = false ->
  validate p w
  = (Raise (mkExn ValueError
              ("File is not a ZIP file. First bytes: "
               +:+ PyBytes.hex (take 20 content))), w)
  /\ String.length (PyBytes.hex (take 20 content)) <= 40.
Proof.
  intros Hf Hne Hhtml Hpk. split.
  - rewrite (validate_file_eq _ _ _ Hf). unfold file_verdict.
    assert (H1 : html_signature (take 100 content) = false).
    { unfold html_signature in *.
      rewrite !bytes_startswith_take by (cbn; lia). exact Hhtml. }
    assert (H2 : pk_signature (take 100 content) = false).
    { unfold pk_signature in *.
      rewrite bytes_startswith_take by (cbn; lia). exact Hpk. }
    rewrite H1, H2. rewrite take_take.
    destruct content; [congruence | reflexivity].
  - rewrite hex_length, length_take. lia.
Qed.

(** X17.  The archive reader can refuse a file that has the signature with
    an exception that is no [BadZipFile]; the check of line 60 does not
    catch it, and it leaves [_validate_zip_file] as it is, class and
    message, with nothing logged. *)
Theorem validate_passes_on_other_errors (p : string) (w : World)
    (rest : list byte) (e : Exn) :
  files w !! p = Some (PyBytes.lit "PK" ++ rest) ->
  read_zip (PyBytes.lit "PK" ++ rest) = inl e ->
  exn_class e <> BadZipFile ->
  validate p w = (Raise e, w).
Proof.
  intros Hf Hz Hc. rewrite (validate_file_eq _ _ _ Hf). unfold file_verdict.
  change (PyBytes.lit "PK" ++ rest) with (Byte.x50 :: Byte.x4b :: rest) in *.
  cbn [length Nat.eqb]. cbn. rewrite Hz.
  destruct (exn_class e); try reflexivity. congruence.
Qed.

End Validation.

(** ** Paths *)

Lemma upto_last_slash_split (p h : string) :
  PosixPath.upto_last_slash p = Some h ->
  p = h +:+ PosixPath.after_last_slash p.
Proof.
  revert h. induction p as [|c p IH]; intros h H; [discriminate H |].
  cbn [PosixPath.upto_last_slash PosixPath.after_last_slash] in *.
  destruct (PosixPath.upto_last_slash p) as [h'|].
  - injection H as <-. cbn. f_equal. now apply IH.
  - destruct (PosixPath.is_slash c); [| discriminate H].
    injection H as <-. reflexivity.
Qed.

Lemma upto_last_slash_none (p : string) :
  PosixPath.upto_last_slash p = None -> PosixPath.after_last_slash p = p.
Proof.
  destruct p as [|c p]; [reflexivity |].
  cbn [PosixPath.upto_last_slash PosixPath.after_last_slash].
  destruct (PosixPath.upto_last_slash p); [discriminate |].
  destruct (PosixPath.is_slash c); [discriminate | reflexivity].
Qed.

Lemma rstrip_slash_prefix (s : string) :
  exists r, s = PosixPath.rstrip_slash s +:+ r.
Proof.
  induction s as [|c s [r IH]]; [exists EmptyString; reflexivity |].
  cbn [PosixPath.rstrip_slash].
  destruct (PosixPath.rstrip_slash s) as [|d t] eqn:E.
  - destruct (PosixPath.is_slash c).
    + exists (String c s). reflexivity.
    + exists s. reflexivity.
  - exists r. cbn. f_equal. exact IH.
Qed.

(** [os.path.dirname(p)] is a prefix of [p], and what follows the last
    slash is at the end of what it leaves. *)
Lemma dirname_prefix (p : string) :
  exists r, p = PosixPath.dirname p +:+ r +:+ PosixPath.after_last_slash p.
Proof.
  unfold PosixPath.dirname.
  destruct (PosixPath.upto_last_slash p) as [h|] eqn:E.
  - pose proof (upto_last_slash_split p h E) as Hp.
    destruct (PosixPath.all_slashes h).
    + exists EmptyString. exact Hp.
    + destruct (rstrip_slash_prefix h) as [r Hr]. exists r.
      rewrite <- str_app_assoc, <- Hr. exact Hp.
  - exists EmptyString. cbn. now rewrite upto_last_slash_none.
Qed.

Lemma split_length (p : string) :
  String.length (PosixPath.dirname p)
  + String.length (PosixPath.after_last_slash p) <= String.length p.
Proof.
  destruct (dirname_prefix p) as [r Hr].
  apply (f_equal String.length) in Hr. rewrite !str_length_app in Hr. lia.
Qed.

Lemma dirname_whole (p : string) :
  String.length p <= String.length (PosixPath.dirname p) ->
  PosixPath.dirname p = p /\ PosixPath.after_last_slash p = EmptyString.
Proof.
  intros H. destruct (dirname_prefix p) as [r Hr].
  pose proof (f_equal String.length Hr) as Hl.
  rewrite !str_length_app in Hl.
  assert (Hr0 : r = EmptyString) by (destruct r; [reflexivity | cbn in Hl; lia]).
  assert (Ht : PosixPath.after_last_slash p = EmptyString)
    by (destruct (PosixPath.after_last_slash p); [reflexivity | cbn in Hl; lia]).
  subst r. rewrite Ht in Hr. cbn in Hr. rewrite str_app_nil_r in Hr.
  split; [now symmetry | exact Ht].
Qed.

Lemma is_empty_true (s : string) : PyStr.is_empty s = true <-> s = EmptyString.
Proof. destruct s; cbn; split; intros H; try discriminate H; reflexivity. Qed.

Lemma is_empty_false (s : string) : PyStr.is_empty s = false <-> s <> EmptyString.
Proof. destruct s; cbn; split; intros H; try discriminate H; congruence. Qed.

(** The [head] of [os.makedirs] is no longer than the name, and shorter
    when there is a [tail]. *)
Lemma split_twice_length (name : string) :
  String.length (PosixPath.split_twice name).1
  + String.length (PosixPath.split_twice name).2 <= String.length name.
Proof.
  unfold PosixPath.split_twice, PosixPath.split. cbn [fst snd].
  pose proof (split_length name) as H1.
  destruct (PyStr.is_empty (PosixPath.after_last_slash name)); cbn [fst snd];
    [| exact H1].
  pose proof (split_length (PosixPath.dirname name)) as H2. lia.
Qed.

(** A name that is its own [head] is one that [os.path.dirname] leaves
    as it is. *)
Lemma split_twice_whole (name : string) :
  PosixPath.dirname name = name ->
  PosixPath.after_last_slash name = EmptyString ->
  (PosixPath.split_twice name).1 = name.
Proof.
  intros Hd Ht. unfold PosixPath.split_twice, PosixPath.split. cbn [fst snd].
  rewrite Ht. cbn. now rewrite !Hd.
Qed.

(** ** [os.makedirs] *)

Lemma grown_refl (bound : nat) (w : World) : grown bound w w.
Proof. repeat split; auto. Qed.

Lemma grown_weaken (b1 b2 : nat) (w w' : World) :
  b1 <= b2 -> grown b1 w w' -> grown b2 w w'.
Proof.
  intros Hb (Hl & Hq & Hn). repeat split; [exact Hl | exact Hq |].
  intros p. destruct (Hn p) as [H | (H1 & H2 & H3 & H4 & H5)]; [now left |].
  right. repeat split; auto. lia.
Qed.

Lemma grown_trans (bound : nat) (w1 w2 w3 : World) :
  grown bound w1 w2 -> grown bound w2 w3 -> grown bound w1 w3.
Proof.
  intros (Hl1 & Hq1 & Hn1) (Hl2 & Hq2 & Hn2).
  repeat split; [congruence | congruence |].
  intros p. destruct (Hn2 p) as [H2 | (H2 & H2' & Hp)].
  - rewrite H2. apply Hn1.
  - destruct (Hn1 p) as [H1 | (H1 & H1' & _)].
    + right. split; [congruence |]. split; [exact H2' | exact Hp].
    + congruence.
Qed.

Lemma grown_files (bound : nat) (w w' : World) :
  grown bound w w' -> files w' = files w.
Proof.
  intros (_ & _ & Hn). apply map_eq. intros p. rewrite !files_lookup.
  destruct (Hn p) as [-> | (-> & -> & _)]; reflexivity.
Qed.

Lemma grown_dirs (bound : nat) (w w' : World) :
  grown bound w w' -> dirs w ⊆ dirs w'.
Proof.
  intros (_ & _ & Hn) p. rewrite !elem_of_dirs. intros H.
  destruct (Hn p) as [E | (E & _)]; congruence.
Qed.

Lemma grown_add_log (bound : nat) (w w' : World) (l : Level) (msg : string) :
  grown bound w w' -> grown bound (add_log l msg w) (add_log l msg w').
Proof.
  intros (Hl & Hq & Hn). repeat split; cbn; [now rewrite Hl | exact Hq | exact Hn].
Qed.

(** A name that is not there and does not end in the component [.] is
    not a directory to put an entry in. *)
Lemma dir_there_absent (name : string) (w : World) :
  nodes w !! name = None ->
  (PosixPath.split_twice name).2 <> "." ->
  os.dir_there name w = false.
Proof.
  intros Hn Ht. unfold os.dir_there.
  destruct (String.length name); cbn [os.dir_in]; rewrite Hn;
    rewrite bool_decide_eq_false_2 by discriminate;
    rewrite andb_false_r; [reflexivity |].
  apply String.eqb_neq in Ht. now rewrite Ht.
Qed.

Lemma is_dir_there (name : string) (w : World) :
  os.is_dir name w = true -> os.dir_there name w = true.
Proof.
  unfold os.is_dir, os.dir_there. intros H.
  destruct (String.length name); cbn [os.dir_in]; now rewrite H.
Qed.

(** The depth [dir_in] is given does not matter once it is the length
    of the name. *)
Lemma dir_in_depth (N : gmap string Node) (d : nat) :
  forall (k : nat) (s : string),
    String.length s <= d -> String.length s <= k ->
    os.dir_in d N s = os.dir_in k N s.
Proof.
  induction d as [|d IHd]; intros k s Hd Hk.
  - destruct s; [| cbn in Hd; lia]. destruct k; reflexivity.
  - destruct k as [|k].
    + destruct s; [| cbn in Hk; lia]. reflexivity.
    + cbn [os.dir_in]. f_equal.
      destruct (String.eqb (PosixPath.split_twice s).2 ".") eqn:Ht;
        [| reflexivity].
      apply String.eqb_eq in Ht. cbn [andb]. f_equal.
      pose proof (split_twice_length s) as Hl. rewrite Ht in Hl. cbn in Hl.
      apply IHd; lia.
Qed.

Lemma mkdir_run (name : string) (w : World) :
  (exists e, os.mkdir name w = (Raise e, w) /\ any_OSError (exn_class e) = true)
  \/ (os.mkdir name w
      = (Return tt, set_nodes (<[name := Directory]> (nodes w)) w)
      /\ nodes w !! name = None
      /\ name <> EmptyString
      /\ (PosixPath.split_twice name).1 <> name).
Proof.
  unfold os.mkdir.
  destruct (PyStr.is_empty name) eqn:Hname; [left; eauto |].
  destruct (os.exists_at name w) eqn:Hex; [left; eauto |].
  apply exists_at_false in Hex. apply is_empty_false in Hname.
  destruct (PyStr.is_empty (PosixPath.split_twice name).1) eqn:Hpar.
  - right. cbn. repeat split; auto.
    apply is_empty_true in Hpar. congruence.
  - destruct (os.dir_there (PosixPath.split_twice name).1 w) eqn:Hdir.
    + right. cbn. repeat split; auto.
      intros E. rewrite E in Hdir.
      rewrite (dir_there_absent name w Hex) in Hdir; [discriminate |].
      pose proof (split_twice_length name) as Hl. rewrite E in Hl.
      destruct (PosixPath.split_twice name).2; [discriminate | cbn in Hl; lia].
    + cbn. destruct (os.exists_at (PosixPath.split_twice name).1 w);
        left; eauto.
Qed.

Lemma mkdir_grown (name : string) (w : World) :
  grown (String.length name) w (os.mkdir name w).2.
Proof.
  destruct (mkdir_run name w) as [(e & -> & _) | (-> & Hn & Hne & Hp)];
    [apply grown_refl |].
  repeat split; cbn; auto. intros p.
  destruct (decide (p = name)) as [-> | Hp'].
  - right. rewrite lookup_insert_eq. repeat split; auto.
  - left. now rewrite lookup_insert_ne.
Qed.

Lemma makedirs_leaf_run (exist_ok : bool) (name : string) (w : World) :
  grown (String.length name) w (os.makedirs_leaf exist_ok name w).2
  /\ (os.makedirs_leaf exist_ok name w).1 <> OutOfFuel
  /\ (forall e, (os.makedirs_leaf exist_ok name w).1 = Raise e ->
                (os.makedirs_leaf exist_ok name w).2 = w).
Proof.
  unfold os.makedirs_leaf, try_clauses.
  pose proof (mkdir_grown name w) as Hg.
  destruct (mkdir_run name w) as [(e & E & Hc) | (E & _)];
    rewrite E in *; cbn [snd] in Hg.
  - cbn [dispatch]. rewrite Hc. unfold bind, os.path_isdir.
    destruct (negb exist_ok || negb (os.is_dir name w)); cbn;
      (split; [apply grown_refl | split; [discriminate | auto]]).
  - split; [exact Hg | split; discriminate].
Qed.

(** [os.makedirs] adds directories and nothing else, whatever the depth,
    and ends. *)
Lemma makedirs_upto_grown (depth : nat) (exist_ok : bool) :
  forall (name : string) (w : World),
    grown (String.length name) w (os.makedirs_upto depth exist_ok name w).2
    /\ (os.makedirs_upto depth exist_ok name w).1 <> OutOfFuel.
Proof.
  induction depth as [|depth IH]; intros name w.
  - cbn [os.makedirs_upto].
    destruct (makedirs_leaf_run exist_ok name w) as (H1 & H2 & _). auto.
  - destruct (os.makedirs_upto (S depth) exist_ok name w) as [r w'] eqn:E.
    cbn [fst snd]. cbn [os.makedirs_upto] in E.
    unfold bind at 1, os.path_exists in E.
    destruct (negb (PyStr.is_empty (PosixPath.split_twice name).1)
              && negb (PyStr.is_empty (PosixPath.split_twice name).2)
              && negb (os.exists_at (PosixPath.split_twice name).1 w)).
    + destruct (IH (PosixPath.split_twice name).1 w) as [Hg Hfuel].
      pose proof (split_twice_length name) as Hlen.
      apply (grown_weaken _ (String.length name)) in Hg; [| lia].
      unfold bind, try_clauses in E.
      destruct (os.makedirs_upto depth exist_ok (PosixPath.split_twice name).1 w)
        as [[[] | e |] w1]; cbn [fst snd] in *.
      * destruct (String.eqb (PosixPath.split_twice name).2 ".").
        { injection E as <- <-. split; [exact Hg | discriminate]. }
        destruct (makedirs_leaf_run exist_ok name w1) as (H1 & H2 & _).
        rewrite E in H1, H2. cbn [fst snd] in *.
        split; [eapply grown_trans; eassumption | exact H2].
      * cbn [dispatch] in E.
        destruct (only_FileExistsError (exn_class e)); unfold ret, raise in E.
        { destruct (String.eqb (PosixPath.split_twice name).2 ".").
          - injection E as <- <-. split; [exact Hg | discriminate].
          - destruct (makedirs_leaf_run exist_ok name w1) as (H1 & H2 & _).
            rewrite E in H1, H2. cbn [fst snd] in *.
            split; [eapply grown_trans; eassumption | exact H2]. }
        injection E as <- <-. split; [exact Hg | discriminate].
      * congruence.
    + destruct (makedirs_leaf_run exist_ok name w) as (H1 & H2 & _).
      rewrite E in H1, H2. auto.
Qed.

Lemma makedirs_grown (exist_ok : bool) (name : string) (w : World) :
  grown (String.length name) w (os.makedirs exist_ok name w).2
  /\ (os.makedirs exist_ok name w).1 <> OutOfFuel.
Proof. apply makedirs_upto_grown. Qed.

(** The recursion of [os.makedirs] needs no more depth than the length of
    the name: each call on [head] is on a shorter name. *)
Lemma makedirs_upto_depth (exist_ok : bool) (d : nat) :
  forall (k : nat) (s : string) (w : World),
    String.length s <= d -> String.length s <= k ->
    os.makedirs_upto d exist_ok s w = os.makedirs_upto k exist_ok s w.
Proof.
  induction d as [|d IHd]; intros k s w Hd Hk.
  - destruct s; [| cbn in Hd; lia]. destruct k; reflexivity.
  - destruct k as [|k].
    + destruct s; [| cbn in Hk; lia]. reflexivity.
    + cbn [os.makedirs_upto]. unfold bind at 1 3, os.path_exists.
      destruct (negb (PyStr.is_empty (PosixPath.split_twice s).1)
                && negb (PyStr.is_empty (PosixPath.split_twice s).2)
                && negb (os.exists_at (PosixPath.split_twice s).1 w))
        eqn:Hc; [| reflexivity].
      apply andb_true_iff in Hc as [Hc _].
      apply andb_true_iff in Hc as [_ Hc].
      apply negb_true_iff, is_empty_false in Hc.
      pose proof (split_twice_length s) as Hl.
      assert (Hs : String.length (PosixPath.split_twice s).1 < String.length s).
      { destruct (PosixPath.split_twice s).2; [congruence |].
        cbn in Hl. lia. }
      unfold bind, try_clauses.
      now rewrite (IHd k _ w) by lia.
Qed.

Lemma makedirs_upto_enough (exist_ok : bool) (depth : nat) (name : string)
    (w : World) :
  String.length name <= depth ->
  os.makedirs_upto depth exist_ok name w = os.makedirs exist_ok name w.
Proof. intros H. unfold os.makedirs. apply makedirs_upto_depth; lia. Qed.

(** What [os.makedirs] with [exist_ok] leaves when it returns: the
    directory is there. *)
Lemma makedirs_leaf_return (name : string) (w : World) :
  (os.makedirs_leaf true name w).1 = Return tt ->
  os.is_dir name (os.makedirs_leaf true name w).2 = true.
Proof.
  unfold os.makedirs_leaf, try_clauses.
  destruct (mkdir_run name w) as [(e & E & Hc) | (E & Hn & Hne & _)];
    rewrite E.
  - cbn [dispatch]. rewrite Hc. unfold bind, os.path_isdir.
    destruct (os.is_dir name w) eqn:Hd; cbn; [auto | discriminate].
  - intros _. cbn. unfold os.is_dir. cbn.
    rewrite lookup_insert_eq, bool_decide_eq_true_2 by reflexivity.
    apply is_empty_false in Hne. now rewrite Hne.
Qed.

(** On a name that is not there, the last statement of [os.makedirs]
    raises no [FileExistsError]. *)
Lemma makedirs_leaf_class (exist_ok : bool) (name : string) (w : World)
    (e : Exn) :
  nodes w !! name = None ->
  (os.makedirs_leaf exist_ok name w).1 = Raise e ->
  only_FileExistsError (exn_class e) = false.
Proof.
  intros Hn. unfold os.makedirs_leaf, try_clauses, os.mkdir.
  assert (Hex : os.exists_at name w = false) by now apply exists_at_false.
  assert (Hd : os.is_dir name w = false).
  { unfold os.is_dir. rewrite Hn.
    rewrite bool_decide_eq_false_2 by discriminate. apply andb_false_r. }
  rewrite Hex.
  destruct (PyStr.is_empty name).
  { cbn. unfold bind, os.path_isdir. rewrite Hd, orb_true_r. cbn.
    now intros [= <-]. }
  destruct (PyStr.is_empty (PosixPath.split_twice name).1
            || os.dir_there (PosixPath.split_twice name).1 w);
    [discriminate |].
  destruct (os.exists_at (PosixPath.split_twice name).1 w); cbn;
    unfold bind, os.path_isdir; rewrite Hd, orb_true_r; cbn;
    now intros [= <-].
Qed.

Lemma makedirs_upto_class (depth : nat) (exist_ok : bool) (name : string)
    (w : World) (e : Exn) :
  nodes w !! name = None ->
  (os.makedirs_upto depth exist_ok name w).1 = Raise e ->
  only_FileExistsError (exn_class e) = false.
Proof.
  intros Hn. destruct depth as [|depth]; cbn [os.makedirs_upto];
    [now apply makedirs_leaf_class |].
  unfold bind at 1, os.path_exists.
  destruct (negb (PyStr.is_empty (PosixPath.split_twice name).1)
            && negb (PyStr.is_empty (PosixPath.split_twice name).2)
            && negb (os.exists_at (PosixPath.split_twice name).1 w)) eqn:Hc;
    [| now apply makedirs_leaf_class].
  apply andb_true_iff in Hc as [Hc _]. apply andb_true_iff in Hc as [_ Hc].
  apply negb_true_iff, is_empty_false in Hc.
  destruct (makedirs_upto_grown depth exist_ok (PosixPath.split_twice name).1 w)
    as [(_ & _ & Hg) _].
  assert (Hlater : nodes (os.makedirs_upto depth exist_ok
                            (PosixPath.split_twice name).1 w).2 !! name = None).
  { destruct (Hg name) as [E | (_ & _ & _ & _ & Hlen)]; [congruence |].
    pose proof (split_twice_length name) as Hl.
    destruct (PosixPath.split_twice name).2; [congruence | cbn in Hl; lia]. }
  unfold bind, try_clauses.
  destruct (os.makedirs_upto depth exist_ok (PosixPath.split_twice name).1 w)
    as [[[] | e0 |] w1]; cbn [fst snd] in *.
  - destruct (String.eqb (PosixPath.split_twice name).2 ".");
      [discriminate | now apply makedirs_leaf_class].
  - cbn [dispatch].
    destruct (only_FileExistsError (exn_class e0)) eqn:Hclass; cbn.
    + destruct (String.eqb (PosixPath.split_twice name).2 ".");
        [discriminate | now apply makedirs_leaf_class].
    + now intros [= <-].
  - discriminate.
Qed.

Lemma makedirs_upto_dir_there (depth : nat) :
  forall (name : string) (w : World),
    (os.makedirs_upto depth true name w).1 = Return tt ->
    os.dir_there name (os.makedirs_upto depth true name w).2 = true.
Proof.
  induction depth as [|depth IH]; intros name w.
  - cbn [os.makedirs_upto]. intros H.
    now apply is_dir_there, makedirs_leaf_return.
  - destruct (os.makedirs_upto (S depth) true name w) as [r w'] eqn:E.
    cbn [fst snd]. intros ->. cbn [os.makedirs_upto] in E.
    unfold bind at 1, os.path_exists in E.
    assert (Hleaf : forall w0,
               os.makedirs_leaf true name w0 = (Return tt, w') ->
               os.dir_there name w' = true).
    { intros w0 H. apply is_dir_there.
      pose proof (makedirs_leaf_return name w0) as Hr.
      rewrite H in Hr. now apply Hr. }
    destruct (negb (PyStr.is_empty (PosixPath.split_twice name).1)
              && negb (PyStr.is_empty (PosixPath.split_twice name).2)
              && negb (os.exists_at (PosixPath.split_twice name).1 w)) eqn:Hc;
      [| exact (Hleaf w E)].
    apply andb_true_iff in Hc as [Hc Hex]. apply andb_true_iff in Hc as [Hh Ht].
    apply negb_true_iff, exists_at_false in Hex.
    pose proof (IH (PosixPath.split_twice name).1 w) as Hrec.
    pose proof (makedirs_upto_class depth true (PosixPath.split_twice name).1 w)
      as Hclass.
    unfold bind, try_clauses in E.
    destruct (os.makedirs_upto depth true (PosixPath.split_twice name).1 w)
      as [[[] | e0 |] w1]; cbn [fst snd] in *.
    + destruct (String.eqb (PosixPath.split_twice name).2 ".") eqn:Hdot;
        [| exact (Hleaf w1 E)].
      injection E as <-. specialize (Hrec eq_refl).
      apply String.eqb_eq in Hdot.
      pose proof (split_twice_length name) as Hl. rewrite Hdot in Hl.
      cbn in Hl. unfold os.dir_there in *.
      destruct (String.length name) as [|k] eqn:Hk; [lia |].
      cbn [os.dir_in]. rewrite Hdot. cbn.
      rewrite (dir_in_depth _ k (String.length (PosixPath.split_twice name).1))
        by lia.
      rewrite Hrec. now rewrite !orb_true_r.
    + cbn [dispatch] in E. rewrite (Hclass e0 Hex eq_refl) in E.
      discriminate E.
    + discriminate E.
Qed.

Lemma makedirs_dir_there (name : string) (w : World) :
  (os.makedirs true name w).1 = Return tt ->
  os.dir_there name (os.makedirs true name w).2 = true.
Proof. apply makedirs_upto_dir_there. Qed.

(** What [os.makedirs] on the directory of a path makes is never the path
    itself. *)
Lemma grown_keeps_absent (dest : string) (w w1 : World) :
  nodes w !! dest = None ->
  grown (String.length (PosixPath.dirname dest)) w w1 ->
  nodes w1 !! dest = None.
Proof.
  intros Habs (_ & _ & Hn).
  destruct (Hn dest) as [E | (_ & _ & _ & Hp & Hlen)]; [congruence |].
  exfalso. apply Hp.
  destruct (dirname_whole dest Hlen) as [Hd Ht].
  now apply split_twice_whole.
Qed.

Lemma file_verdict_outcome (read_zip : list byte -> Exn + list Member)
    (read_chars : list byte -> nat -> string) (p : string)
    (content : list byte) (w w0 : World) :
  (file_verdict read_zip read_chars p content w).1
  = (file_verdict read_zip read_chars p content w0).1.
Proof.
  unfold file_verdict.
  destruct (Nat.eqb (length content) 0); [reflexivity |].
  destruct (html_signature (take 100 content)); [reflexivity |].
  destruct (negb (pk_signature (take 100 content))); [reflexivity |].
  destruct (read_zip content); reflexivity.
Qed.

(** ** [download_file] *)

Section Download.

Variable read_zip : list byte -> Exn + list Member.
Variable urlretrieve_response : nat -> string -> Response.
Variable get_size : nat -> string.
Variable read_chars : list byte -> nat -> string.
Variable dir_size : string -> nat.
Variable config : DataIngestionConfig.

Local Abbreviation validate := (_validate_zip_file read_zip read_chars dir_size).
Local Abbreviation outcome_of := (validation_outcome read_zip read_chars dir_size).
Local Abbreviation download :=
  (download_file read_zip urlretrieve_response get_size read_chars dir_size
     config).
Local Abbreviation download_block :=
  (download_try read_zip urlretrieve_response get_size read_chars dir_size
     config).
Local Abbreviation handler := (download_except config).
Local Abbreviation dest := (local_data_file config).
Local Abbreviation request_url := (normalized_url (source_URL config)).

Lemma validate_outcome_of (p : string) (w : World) (content : list byte) :
  files w !! p = Some content ->
  (validate p w).1 = outcome_of p content.
Proof.
  intros H. unfold validation_outcome.
  rewrite (validate_file_eq _ _ _ _ _ _ H).
  rewrite (validate_file_eq _ _ _ p _ content).
  - apply file_verdict_outcome.
  - apply files_lookup_Some. cbn. apply lookup_singleton_eq.
Qed.

Lemma outcome_not_out_of_fuel (p : string) (content : list byte) :
  outcome_of p content <> OutOfFuel.
Proof. apply validate_not_out_of_fuel. Qed.

Lemma fix_github_url_run (url : string) (w : World) :
  (_fix_github_url url w).1 = Return (normalized_url url)
  /\ nodes (_fix_github_url url w).2 = nodes w
  /\ requests (_fix_github_url url w).2 = requests w.
Proof.
  unfold normalized_url, _fix_github_url.
  destruct (PyStr.contains "github.com" url && PyStr.contains "/blob/" url);
    cbn; auto.
Qed.

(** The handler of [download_file], by what the destination is. *)
Lemma handler_absent (e : Exn) (w : World) :
  nodes w !! dest = None ->
  handler e w = (Raise e, add_log ERROR ("Download failed: " +:+ exn_msg e) w).
Proof.
  intros H. unfold download_except, bind, os.path_exists, os.exists_at.
  rewrite H. reflexivity.
Qed.

Lemma handler_file (e : Exn) (w : World) (content : list byte) :
  files w !! dest = Some content ->
  handler e w
  = (Raise e,
     add_log ERROR ("Download failed: " +:+ exn_msg e)
       (add_log ERROR "Removed failed download"
          (set_nodes (delete dest (nodes w)) w))).
Proof.
  intros H. apply files_lookup_Some in H.
  unfold download_except, bind, os.path_exists, os.exists_at, os.remove.
  rewrite H. cbn. rewrite H. reflexivity.
Qed.

Lemma handler_directory (e : Exn) (w : World) :
  nodes w !! dest = Some Directory ->
  handler e w = (Raise (os.eisdir dest), w).
Proof.
  intros H.
  unfold download_except, bind, os.path_exists, os.exists_at, os.remove.
  rewrite H. cbn. rewrite H. reflexivity.
Qed.

Lemma handler_raises (e : Exn) (w : World) :
  nodes w !! dest <> Some Directory ->
  exists w',
    handler e w = (Raise e, w')
    /\ nodes w' = delete dest (nodes w) /\ requests w' = requests w.
Proof.
  intros Hnd. destruct (nodes w !! dest) as [[content|]|] eqn:Hn.
  - apply files_lookup_Some in Hn. rewrite (handler_file e w content Hn).
    eexists. split; [reflexivity |]. cbn. auto.
  - congruence.
  - rewrite (handler_absent e w Hn). eexists.
    split; [reflexivity |]. cbn. split; [| reflexivity].
    symmetry. now apply delete_id.
Qed.

Local Abbreviation fresh :=
  (download_fresh read_zip urlretrieve_response read_chars dir_size config).
Local Abbreviation parent := (PosixPath.dirname dest).

(** The world [os.makedirs] leaves when it is called on the parent
    directory in [w]. *)
Local Abbreviation made w := (os.makedirs true parent w).2.

Lemma made_grown (w : World) :
  grown (String.length parent) w (made w).
Proof. apply makedirs_grown. Qed.

Lemma made_absent (w : World) :
  nodes w !! dest = None -> nodes (made w) !! dest = None.
Proof. intros H. eapply grown_keeps_absent; [exact H | apply made_grown]. Qed.

Lemma made_files (w : World) : files (made w) = files w.
Proof. eapply grown_files, made_grown. Qed.

Lemma made_requests (w : World) : requests (made w) = requests w.
Proof. apply made_grown. Qed.

Lemma makedirs_ok_dec (p : string) (w : World) :
  makedirs_ok p w \/ exists e, (os.makedirs true p w).1 = Raise e.
Proof.
  unfold makedirs_ok.
  destruct (makedirs_grown true p w) as [_ Hfuel].
  destruct (os.makedirs true p w).1 as [[] | e |]; [now left | eauto | congruence].
Qed.

Lemma makedirs_run (w : World) :
  makedirs_ok parent w ->
  os.makedirs true parent w = (Return tt, made w).
Proof.
  unfold makedirs_ok. destruct (os.makedirs true parent w) as [r w1].
  cbn. now intros ->.
Qed.

Lemma makedirs_raise (w : World) (e : Exn) :
  (os.makedirs true parent w).1 = Raise e ->
  os.makedirs true parent w = (Raise e, made w).
Proof.
  destruct (os.makedirs true parent w) as [r w1]. cbn. now intros ->.
Qed.

(** The fresh branch up to the transfer. *)
Lemma fresh_until_transfer (w : World) :
  makedirs_ok parent w ->
  exists w1,
    nodes w1 = nodes (made w) /\ requests w1 = requests w
    /\ fresh w
       = bind (urlretrieve urlretrieve_response request_url dest)
           (fun fetched =>
              bind (logger.info (fetched.1 +:+ " downloaded! Headers: "
                                 +:+ String "010"%char fetched.2))
                (fun _ => bind (validate dest)
                   (fun _ => logger.info "File validated successfully as ZIP")))
           w1.
Proof.
  intros Hok. unfold download_fresh.
  unfold bind at 1. rewrite (makedirs_run _ Hok).
  unfold bind at 1.
  destruct (fix_github_url_run (source_URL config) (made w)) as (Hu & Hf & Hr).
  destruct (_fix_github_url (source_URL config) (made w)) as [ru wu].
  cbn [fst snd] in *. subst ru.
  unfold bind at 1. cbn [logger.info logger.emit].
  eexists. split; [| split; [| reflexivity]]; cbn; [exact Hf |].
  rewrite Hr. apply made_requests.
Qed.

Lemma made_dir_there (w w1 : World) :
  makedirs_ok parent w ->
  nodes w1 = nodes (made w) ->
  os.dir_there parent w1 = true.
Proof.
  intros Hok E. unfold os.dir_there. rewrite E.
  now apply makedirs_dir_there.
Qed.

Lemma fresh_transfer_failed (w : World) (e : Exn) (partial : option (list byte)) :
  nodes w !! dest = None ->
  makedirs_ok parent w ->
  urlretrieve_response (length (requests w)) request_url = Failed e partial ->
  exists w',
    fresh w = (Raise e, w')
    /\ requests w' = requests w ++ [request_url]
    /\ nodes w' = match partial with
                  | None => nodes (made w)
                  | Some part => <[dest := File part]> (nodes (made w))
                  end.
Proof.
  intros Habs Hok Hr.
  destruct (fresh_until_transfer w Hok) as (w1 & Hf & Hq & ->).
  pose proof (made_absent w Habs) as Hm. rewrite <- Hf in Hm.
  unfold bind at 1, urlretrieve. rewrite Hq, Hr.
  destruct partial as [part|].
  - unfold bind, os.write_file. cbn [nodes add_request]. rewrite Hm.
    rewrite (made_dir_there w (add_request request_url w1) Hok Hf), orb_true_r.
    eexists. split; [reflexivity |]. cbn. rewrite Hf, Hq. auto.
  - eexists. split; [reflexivity |]. cbn. rewrite Hf, Hq. auto.
Qed.

Lemma fresh_transfer_fetched (w : World) (body : list byte) (headers : string) :
  nodes w !! dest = None ->
  makedirs_ok parent w ->
  urlretrieve_response (length (requests w)) request_url = Fetched body headers ->
  exists w5,
    nodes w5 = <[dest := File body]> (nodes (made w))
    /\ requests w5 = requests w ++ [request_url]
    /\ fresh w
       = bind (validate dest)
           (fun _ => logger.info "File validated successfully as ZIP") w5.
Proof.
  intros Habs Hok Hr.
  destruct (fresh_until_transfer w Hok) as (w1 & Hf & Hq & ->).
  pose proof (made_absent w Habs) as Hm. rewrite <- Hf in Hm.
  unfold bind at 1, urlretrieve. rewrite Hq, Hr.
  unfold bind at 1, os.write_file. cbn [nodes add_request]. rewrite Hm.
  rewrite (made_dir_there w (add_request request_url w1) Hok Hf), orb_true_r.
  unfold bind at 1. cbn [logger.info logger.emit ret].
  eexists. split; [| split; [| reflexivity]]; cbn; rewrite ?Hf, ?Hq; auto.
Qed.

Lemma validate_run (w : World) (content : list byte) :
  files w !! dest = Some content ->
  exists w',
    validate dest w = (outcome_of dest content, w')
    /\ nodes w' = nodes w /\ requests w' = requests w.
Proof.
  intros H. pose proof (validate_outcome_of dest w content H) as Ho.
  destruct (validate_frame read_zip read_chars dir_size dest w) as (Hf & Hq).
  destruct (validate dest w) as [r w']. cbn [fst snd] in *. subst r.
  exists w'. auto.
Qed.

Lemma files_of_nodes (w : World) (m : gmap string Node) (p : string)
    (content : list byte) :
  nodes w = <[p := File content]> m -> files w !! p = Some content.
Proof.
  intros H. apply files_lookup_Some. rewrite H. apply lookup_insert_eq.
Qed.

Lemma fresh_invalid (w : World) (body : list byte) (headers : string) (e : Exn) :
  nodes w !! dest = None ->
  makedirs_ok parent w ->
  urlretrieve_response (length (requests w)) request_url = Fetched body headers ->
  outcome_of dest body = Raise e ->
  exists w',
    fresh w = (Raise e, w')
    /\ requests w' = requests w ++ [request_url]
    /\ nodes w' = <[dest := File body]> (nodes (made w)).
Proof.
  intros Habs Hok Hr Ho.
  destruct (fresh_transfer_fetched w body headers Habs Hok Hr)
    as (w5 & Hf & Hq & ->).
  pose proof (files_of_nodes _ _ _ _ Hf) as Hl.
  destruct (validate_run w5 body Hl) as (w6 & Hv & Hf6 & Hq6).
  unfold bind. rewrite Hv, Ho.
  exists w6. split; [reflexivity |]. split; congruence.
Qed.

Lemma fresh_valid (w : World) (body : list byte) (headers : string) (b : bool) :
  nodes w !! dest = None ->
  makedirs_ok parent w ->
  urlretrieve_response (length (requests w)) request_url = Fetched body headers ->
  outcome_of dest body = Return b ->
  exists w',
    fresh w = (Return tt, w')
    /\ requests w' = requests w ++ [request_url]
    /\ nodes w' = <[dest := File body]> (nodes (made w)).
Proof.
  intros Habs Hok Hr Ho.
  destruct (fresh_transfer_fetched w body headers Habs Hok Hr)
    as (w5 & Hf & Hq & ->).
  pose proof (files_of_nodes _ _ _ _ Hf) as Hl.
  destruct (validate_run w5 body Hl) as (w6 & Hv & Hf6 & Hq6).
  unfold bind. rewrite Hv, Ho. cbn.
  eexists. split; [reflexivity |]. cbn. split; congruence.
Qed.

Lemma fresh_refused (w : World) (e : Exn) :
  (os.makedirs true parent w).1 = Raise e ->
  fresh w = (Raise e, made w).
Proof.
  intros H. unfold download_fresh, bind at 1.
  now rewrite (makedirs_raise _ _ H).
Qed.

Local Abbreviation existing :=
  (download_existing read_zip get_size read_chars dir_size config).

Lemma block_absent (self : Py unit) (w : World) :
  nodes w !! dest = None -> download_block self w = fresh w.
Proof.
  intros H. unfold download_try, bind, os.path_exists, os.exists_at.
  now rewrite H.
Qed.

Lemma block_present (self : Py unit) (w : World) (n : Node) :
  nodes w !! dest = Some n -> download_block self w = existing self w.
Proof.
  intros H. unfold download_try, bind, os.path_exists, os.exists_at.
  now rewrite H.
Qed.

Lemma block_file (self : Py unit) (w : World) (content : list byte) :
  files w !! dest = Some content -> download_block self w = existing self w.
Proof. intros H. apply files_lookup_Some in H. eapply block_present, H. Qed.

Lemma get_size_of_file (w : World) (content : list byte) :
  files w !! dest = Some content ->
  get_size_of get_size dir_size dest w = (Return (get_size (length content)), w).
Proof.
  intros H. apply files_lookup_Some in H.
  unfold get_size_of, bind, os.getsize. now rewrite H.
Qed.

Lemma existing_valid (w : World) (content : list byte) (b : bool) :
  files w !! dest = Some content ->
  outcome_of dest content = Return b ->
  exists w',
    nodes w' = nodes w /\ requests w' = requests w
    /\ forall self : Py unit, existing self w = (Return tt, w').
Proof.
  intros Hf Ho.
  set (w1 := add_log INFO ("File already exists of size: "
                           +:+ get_size (length content)) w).
  assert (Hf1 : files w1 !! dest = Some content) by exact Hf.
  destruct (validate_run w1 content Hf1) as (w2 & Hv & Hf2 & Hq2).
  exists w2. split; [exact Hf2 |]. split; [exact Hq2 |].
  intros self. unfold download_existing, bind at 1.
  rewrite (get_size_of_file _ _ Hf).
  unfold bind at 1. cbn [logger.info logger.emit]. fold w1.
  unfold try_clauses, bind. rewrite Hv, Ho. reflexivity.
Qed.

(** A validation failure of the classes named on line 95: the file is
    removed and the call of line 100 is made. *)
Lemma existing_invalid (w : World) (content : list byte) (e : Exn) :
  files w !! dest = Some content ->
  outcome_of dest content = Raise e ->
  ValueError_or_BadZipFile (exn_class e) = true ->
  exists w_del,
    nodes w_del = delete dest (nodes w)
    /\ requests w_del = requests w
    /\ forall self : Py unit, existing self w = self w_del.
Proof.
  intros Hf Ho Hclass.
  set (w1 := add_log INFO ("File already exists of size: "
                           +:+ get_size (length content)) w).
  assert (Hf1 : files w1 !! dest = Some content) by exact Hf.
  destruct (validate_run w1 content Hf1) as (w2 & Hv & Hf2 & Hq2).
  assert (Hf3 : nodes w2 !! dest = Some (File content))
    by (rewrite Hf2; now apply files_lookup_Some).
  exists (set_nodes (delete dest (nodes w2))
            (add_log INFO "Removing invalid file and re-downloading..."
               (add_log WARNING ("Existing file is invalid: " +:+ exn_msg e) w2))).
  split; [cbn; now rewrite Hf2 |]. split; [cbn; exact Hq2 |].
  intros self. unfold download_existing, bind at 1.
  rewrite (get_size_of_file _ _ Hf).
  unfold bind at 1. cbn [logger.info logger.emit].
  fold w1. unfold try_clauses, bind at 1. rewrite Hv, Ho.
  cbn [dispatch]. rewrite Hclass.
  unfold bind, logger.warning, logger.info, logger.emit, os.remove.
  cbn [nodes add_log]. rewrite Hf3. reflexivity.
Qed.

(** A failure of another class leaves the [try] block as it is. *)
Lemma existing_other (w : World) (content : list byte) (e : Exn) :
  files w !! dest = Some content ->
  outcome_of dest content = Raise e ->
  ValueError_or_BadZipFile (exn_class e) = false ->
  exists w1,
    nodes w1 = nodes w /\ requests w1 = requests w
    /\ forall self : Py unit, existing self w = (Raise e, w1).
Proof.
  intros Hf Ho Hclass.
  set (w1 := add_log INFO ("File already exists of size: "
                           +:+ get_size (length content)) w).
  assert (Hf1 : files w1 !! dest = Some content) by exact Hf.
  destruct (validate_run w1 content Hf1) as (w2 & Hv & Hf2 & Hq2).
  exists w2. split; [exact Hf2 |]. split; [exact Hq2 |].
  intros self. unfold download_existing, bind at 1.
  rewrite (get_size_of_file _ _ Hf).
  unfold bind at 1. cbn [logger.info logger.emit]. fold w1.
  unfold try_clauses, bind at 1. rewrite Hv, Ho.
  cbn [dispatch]. rewrite Hclass. reflexivity.
Qed.

(** A destination that is a directory: whatever the validation raises,
    [os.remove] refuses the directory, in the handler of line 95 or in the
    handler of line 102. *)
Lemma existing_directory (w : World) :
  nodes w !! dest = Some Directory ->
  exists e w1,
    nodes w1 = nodes w /\ requests w1 = requests w
    /\ log w1 = log w
                ++ [(INFO, "File already exists of size: "
                           +:+ get_size (dir_size dest))]
                ++ (if Nat.eqb (dir_size dest) 0
                    then [(WARNING, "Existing file is invalid: Downloaded file is empty");
                          (INFO, "Removing invalid file and re-downloading...")]
                    else [])
    /\ e = os.eisdir dest
    /\ forall self : Py unit, existing self w = (Raise e, w1).
Proof.
  intros Hn.
  set (w1 := add_log INFO ("File already exists of size: "
                           +:+ get_size (dir_size dest)) w).
  assert (Hv : validate dest w1
               = (Raise (if Nat.eqb (dir_size dest) 0
                         then mkExn ValueError "Downloaded file is empty"
                         else os.eisdir dest), w1)).
  { rewrite validate_eq. change (nodes w1) with (nodes w). rewrite Hn.
    destruct (Nat.eqb (dir_size dest) 0); reflexivity. }
  exists (os.eisdir dest).
  destruct (Nat.eqb (dir_size dest) 0) eqn:Hsize.
  - exists (add_log INFO "Removing invalid file and re-downloading..."
              (add_log WARNING "Existing file is invalid: Downloaded file is empty" w1)).
    split; [reflexivity |]. split; [reflexivity |].
    split; [cbn; now rewrite <- !app_assoc |]. split; [reflexivity |].
    intros self. unfold download_existing, bind at 1, get_size_of, bind at 1,
      os.getsize. rewrite Hn. cbn [ret]. unfold bind at 1.
    cbn [logger.info logger.emit]. fold w1.
    unfold try_clauses, bind at 1. rewrite Hv. cbn [dispatch exn_class].
    cbn [ValueError_or_BadZipFile exn_msg].
    unfold bind, logger.warning, logger.info, logger.emit, os.remove.
    unfold w1. cbn [nodes add_log]. rewrite Hn. reflexivity.
  - exists w1. split; [reflexivity |]. split; [reflexivity |].
    split; [reflexivity |]. split; [reflexivity |].
    intros self. unfold download_existing, bind at 1, get_size_of, bind at 1,
      os.getsize. rewrite Hn. cbn [ret]. unfold bind at 1.
    cbn [logger.info logger.emit]. fold w1.
    unfold try_clauses, bind at 1. rewrite Hv. reflexivity.
Qed.

Lemma download_S (n : nat) (w : World) :
  download (S n) w
  = match download_block (download n) w with
    | (Raise e, w1) => handler e w1
    | r => r
    end.
Proof.
  cbn [download_file]. unfold try_clauses.
  destruct (download_try _ _ _ _ _ _ _ w) as [[a|e|] w1]; reflexivity.
Qed.

Lemma files_nodes_eq (w1 w2 : World) : nodes w1 = nodes w2 -> files w1 = files w2.
Proof. unfold files. now intros ->. Qed.

Lemma lookup_nodes_eq (w1 w2 : World) (p : string) :
  nodes w1 = nodes w2 -> nodes w1 !! p = nodes w2 !! p.
Proof. now intros ->. Qed.

(** What a call on an absent destination comes to: the four ways the fresh
    branch can go, after the clean-up of the handler. *)
Lemma download_absent (n : nat) (w : World) :
  nodes w !! dest = None ->
  exists r w',
    download (S n) w = (r, w') /\ r <> OutOfFuel
    /\ ((exists e, (os.makedirs true parent w).1 = Raise e
           /\ r = Raise e /\ requests w' = requests w
           /\ nodes w' = nodes (made w))
        \/ (makedirs_ok parent w
            /\ requests w' = requests w ++ [request_url]
            /\ ((exists e partial,
                   urlretrieve_response (length (requests w)) request_url
                   = Failed e partial
                   /\ r = Raise e /\ nodes w' = nodes (made w))
                \/ (exists body headers e,
                      urlretrieve_response (length (requests w)) request_url
                      = Fetched body headers
                      /\ outcome_of dest body = Raise e
                      /\ r = Raise e /\ nodes w' = nodes (made w))
                \/ (exists body headers b,
                      urlretrieve_response (length (requests w)) request_url
                      = Fetched body headers
                      /\ outcome_of dest body = Return b
                      /\ r = Return tt
                      /\ nodes w' = <[dest := File body]> (nodes (made w)))))).
Proof.
  intros Habs. rewrite download_S, (block_absent _ _ Habs).
  pose proof (made_absent w Habs) as Hm.
  assert (Hwritten : forall (w1 : World) (c : list byte),
             nodes w1 = <[dest := File c]> (nodes (made w)) ->
             nodes w1 !! dest <> Some Directory
             /\ delete dest (nodes w1) = nodes (made w)).
  { intros w1 c E. rewrite E. split.
    - rewrite lookup_insert_eq. discriminate.
    - now apply delete_insert_id. }
  assert (Hplain : forall w1 : World,
             nodes w1 = nodes (made w) ->
             nodes w1 !! dest <> Some Directory
             /\ delete dest (nodes w1) = nodes (made w)).
  { intros w1 E. rewrite E. split; [congruence | now apply delete_id]. }
  destruct (makedirs_ok_dec parent w) as [Hok | [e He]].
  - destruct (urlretrieve_response (length (requests w)) request_url)
      as [body headers | e partial] eqn:Hr.
    + destruct (outcome_of dest body) as [b | e |] eqn:Ho.
      * destruct (fresh_valid w body headers b Habs Hok Hr Ho) as (w' & -> & Hq & Hf).
        exists (Return tt), w'. split; [reflexivity |]. split; [discriminate |].
        right. split; [exact Hok |]. split; [exact Hq |].
        right. right. exists body, headers, b. auto.
      * destruct (fresh_invalid w body headers e Habs Hok Hr Ho)
          as (w1 & -> & Hq & Hf).
        destruct (Hwritten w1 body Hf) as [Hnd Hdel].
        destruct (handler_raises e w1 Hnd) as (w' & -> & Hf' & Hq').
        exists (Raise e), w'. split; [reflexivity |]. split; [discriminate |].
        right. split; [exact Hok |]. split; [congruence |].
        right. left. exists body, headers, e.
        repeat (split; [reflexivity || assumption |]). congruence.
      * exfalso. exact (outcome_not_out_of_fuel _ _ Ho).
    + destruct (fresh_transfer_failed w e partial Habs Hok Hr)
        as (w1 & -> & Hq & Hf).
      assert (Hboth : nodes w1 !! dest <> Some Directory
                      /\ delete dest (nodes w1) = nodes (made w))
        by (destruct partial; [eapply Hwritten | apply Hplain]; exact Hf).
      destruct Hboth as [Hnd Hdel].
      destruct (handler_raises e w1 Hnd) as (w' & -> & Hf' & Hq').
      exists (Raise e), w'. split; [reflexivity |]. split; [discriminate |].
      right. split; [exact Hok |]. split; [congruence |].
      left. exists e, partial.
      repeat (split; [reflexivity || assumption |]). congruence.
  - rewrite (fresh_refused w e He).
    destruct (Hplain (made w) eq_refl) as [Hnd Hdel].
    destruct (handler_raises e (made w) Hnd) as (w' & -> & Hf' & Hq').
    exists (Raise e), w'. split; [reflexivity |]. split; [discriminate |].
    left. exists e. repeat (split; [reflexivity || assumption |]).
    split; [rewrite Hq'; apply made_requests | congruence].
Qed.

(** What a call on a destination that fails validation with a
    [ValueError] or a [BadZipFile] comes to: the file is removed and the
    call is made once more. *)
Lemma download_present_invalid (w : World) (content : list byte) (e : Exn) :
  files w !! dest = Some content ->
  outcome_of dest content = Raise e ->
  ValueError_or_BadZipFile (exn_class e) = true ->
  exists w_del,
    nodes w_del = delete dest (nodes w)
    /\ requests w_del = requests w
    /\ forall n : nat,
         download (S n) w
         = match download n w_del with
           | (Raise e', w1) => handler e' w1
           | r => r
           end.
Proof.
  intros Hf Ho Hc.
  destruct (existing_invalid w content e Hf Ho Hc) as (w_del & Hfd & Hqd & Hrun).
  exists w_del. split; [exact Hfd |]. split; [exact Hqd |].
  intros n. rewrite download_S, (block_file _ _ _ Hf), Hrun. reflexivity.
Qed.

Lemma download_present_valid (w : World) (content : list byte) (b : bool) :
  files w !! dest = Some content ->
  outcome_of dest content = Return b ->
  exists w',
    nodes w' = nodes w /\ requests w' = requests w
    /\ forall n : nat, download (S n) w = (Return tt, w').
Proof.
  intros Hf Ho.
  destruct (existing_valid w content b Hf Ho) as (w' & H1 & H2 & Hrun).
  exists w'. split; [exact H1 |]. split; [exact H2 |].
  intros n. now rewrite download_S, (block_file _ _ _ Hf), Hrun.
Qed.

(** A validation failure of another class is not retried: the file is
    removed and the failure raised. *)
Lemma download_present_other (w : World) (content : list byte) (e : Exn) :
  files w !! dest = Some content ->
  outcome_of dest content = Raise e ->
  ValueError_or_BadZipFile (exn_class e) = false ->
  exists w1 w',
    nodes w' = delete dest (nodes w) /\ requests w' = requests w
    /\ (forall self : Py unit, download_block self w = (Raise e, w1))
    /\ forall n : nat, download (S n) w = (Raise e, w').
Proof.
  intros Hf Ho Hc.
  destruct (existing_other w content e Hf Ho Hc) as (w1 & H1 & H2 & Hrun).
  assert (Hnd : nodes w1 !! dest <> Some Directory).
  { rewrite H1. apply files_lookup_Some in Hf. rewrite Hf. discriminate. }
  destruct (handler_raises e w1 Hnd) as (w' & Hh & Hf' & Hq').
  exists w1, w'. split; [congruence |]. split; [congruence |]. split.
  - intros self. now rewrite (block_file _ _ _ Hf), Hrun.
  - intros n. now rewrite download_S, (block_file _ _ _ Hf), Hrun, Hh.
Qed.

(** A destination that is a directory stays: the call raises what
    [os.remove] raised, at every depth. *)
Lemma download_directory (w : World) :
  nodes w !! dest = Some Directory ->
  exists w',
    nodes w' = nodes w /\ requests w' = requests w
    /\ forall n : nat, download (S n) w = (Raise (os.eisdir dest), w').
Proof.
  intros Hn.
  destruct (existing_directory w Hn) as (e & w1 & H1 & H2 & _ & -> & Hrun).
  exists w1. split; [exact H1 |]. split; [exact H2 |].
  intros n. rewrite download_S, (block_present _ _ _ Hn), Hrun.
  apply handler_directory. now rewrite H1.
Qed.

Local Abbreviation from_operation :=
  (raised_by_operation read_zip urlretrieve_response read_chars dir_size config).

Lemma download_absent_fuel (n : nat) (w : World) :
  nodes w !! dest = None -> download (S n) w = download 1 w.
Proof. intros H. now rewrite !download_S, !(block_absent _ _ H). Qed.

Lemma outcome_from_operation (content : list byte) (e : Exn) :
  outcome_of dest content = Raise e -> from_operation e.
Proof.
  intros H. right. right.
  exists (mkWorld {[ dest := File content ]} [] []). exact H.
Qed.

Lemma fresh_raise_origin (w w1 : World) (e : Exn) :
  nodes w !! dest = None ->
  fresh w = (Raise e, w1) ->
  from_operation e /\ nodes w1 !! dest <> Some Directory.
Proof.
  intros Habs H. pose proof (made_absent w Habs) as Hm.
  destruct (makedirs_ok_dec parent w) as [Hok | [e0 He]].
  - destruct (urlretrieve_response (length (requests w)) request_url)
      as [body headers | e0 partial] eqn:Hr.
    + destruct (outcome_of dest body) as [b | e0 |] eqn:Ho.
      * destruct (fresh_valid w body headers b Habs Hok Hr Ho) as (w' & E & _).
        congruence.
      * destruct (fresh_invalid w body headers e0 Habs Hok Hr Ho)
          as (w' & E & _ & Hf).
        rewrite E in H. injection H as <- <-. split.
        -- exact (outcome_from_operation _ _ Ho).
        -- rewrite Hf, lookup_insert_eq. discriminate.
      * exfalso. exact (outcome_not_out_of_fuel _ _ Ho).
    + destruct (fresh_transfer_failed w e0 partial Habs Hok Hr)
        as (w' & E & _ & Hf).
      rewrite E in H. injection H as <- <-. split.
      * right. left. exists (length (requests w)), request_url, partial.
        exact Hr.
      * rewrite Hf. destruct partial; [rewrite lookup_insert_eq |]; congruence.
  - rewrite (fresh_refused w e0 He) in H. injection H as <- <-. split.
    + left. exists w. exact He.
    + congruence.
Qed.

(** What a call on an absent destination raises is what an operation
    raised, and it leaves nothing at the destination. *)
Lemma download_absent_raise (n : nat) (w w' : World) (e : Exn) :
  nodes w !! dest = None ->
  download (S n) w = (Raise e, w') ->
  from_operation e /\ nodes w' = nodes (made w) /\ nodes w' !! dest = None.
Proof.
  intros Habs H. pose proof (made_absent w Habs) as Hm.
  destruct (download_absent n w Habs) as (r & w0 & E & _ & Hcases).
  rewrite E in H. injection H as -> ->.
  assert (Hgone : nodes w' = nodes (made w) -> nodes w' !! dest = None)
    by (now intros ->).
  destruct Hcases as [(e0 & Hm0 & [= <-] & _ & Hf) | (_ & _ & Hcases)].
  { split; [left; exists w; exact Hm0 | auto]. }
  destruct Hcases as [(e0 & partial & Hr & [= <-] & Hf)
                     | [(body & headers & e0 & _ & Ho & [= <-] & Hf)
                       | (body & headers & b & _ & _ & He & _)]];
    [| | discriminate He].
  - split; [| auto]. right. left.
    exists (length (requests w)), request_url, partial. exact Hr.
  - split; [exact (outcome_from_operation _ _ Ho) | auto].
Qed.

(** Where no directory is at the destination, what the [try] block raises
    is what an operation raised, and no directory is at the destination
    then. *)
Lemma block_raise_origin (n : nat) (w w1 : World) (e : Exn) :
  nodes w !! dest <> Some Directory ->
  download_block (download n) w = (Raise e, w1) ->
  from_operation e /\ nodes w1 !! dest <> Some Directory.
Proof.
  intros Hnd H.
  destruct (nodes w !! dest) as [[content|]|] eqn:Hn; [| congruence |].
  - apply files_lookup_Some in Hn. rewrite (block_file _ _ _ Hn) in H.
    destruct (outcome_of dest content) as [b | e1 |] eqn:Ho.
    + destruct (existing_valid w content b Hn Ho) as (w' & _ & _ & E).
      rewrite E in H. discriminate H.
    + destruct (ValueError_or_BadZipFile (exn_class e1)) eqn:Hc.
      * destruct (existing_invalid w content e1 Hn Ho Hc) as (w_del & Hfd & _ & E).
        rewrite E in H. destruct n as [|m]; [discriminate H |].
        assert (Habs : nodes w_del !! dest = None)
          by (rewrite Hfd; apply lookup_delete_eq).
        destruct (download_absent_raise m w_del w1 e Habs H) as (Hop & _ & Hgone).
        split; [exact Hop | congruence].
      * destruct (existing_other w content e1 Hn Ho Hc) as (w2 & H2 & _ & E).
        rewrite E in H. injection H as <- <-.
        split; [exact (outcome_from_operation _ _ Ho) |].
        rewrite H2. apply files_lookup_Some in Hn. rewrite Hn. discriminate.
    + exfalso. exact (outcome_not_out_of_fuel _ _ Ho).
  - rewrite (block_absent _ _ Hn) in H. exact (fresh_raise_origin _ _ _ Hn H).
Qed.

Lemma download_raise_block (n : nat) (w w' : World) (e : Exn) :
  nodes w !! dest <> Some Directory ->
  download (S n) w = (Raise e, w') ->
  exists w1, download_block (download n) w = (Raise e, w1)
             /\ nodes w' = delete dest (nodes w1)
             /\ requests w' = requests w1.
Proof.
  intros Hnd H. rewrite download_S in H.
  destruct (download_block (download n) w) as [[a | e0 |] w1] eqn:Eb;
    try discriminate H.
  destruct (block_raise_origin n w w1 e0 Hnd Eb) as [_ Hnd1].
  destruct (handler_raises e0 w1 Hnd1) as (w2 & Hh & Hf & Hq). rewrite Hh in H.
  injection H as <- <-. exists w1. auto.
Qed.

(** A depth of 2 is enough in every world: the call ends, and further
    depth changes nothing. *)
Lemma download_depth_two (n : nat) (w : World) :
  (download (S (S n)) w).1 <> OutOfFuel
  /\ download (S (S n)) w = download 2 w.
Proof.
  destruct (nodes w !! dest) as [[content|]|] eqn:Hn.
  - apply files_lookup_Some in Hn.
    destruct (outcome_of dest content) as [b | e |] eqn:Ho.
    + destruct (download_present_valid w content b Hn Ho) as (w' & _ & _ & Hrun).
      rewrite !Hrun. split; [discriminate | reflexivity].
    + destruct (ValueError_or_BadZipFile (exn_class e)) eqn:Hc.
      * destruct (download_present_invalid w content e Hn Ho Hc)
          as (w_del & Hfd & _ & Hrun).
        assert (Habs : nodes w_del !! dest = None)
          by (rewrite Hfd; apply lookup_delete_eq).
        rewrite !Hrun, (download_absent_fuel n _ Habs). split; [| reflexivity].
        destruct (download 1 w_del) as [[a | e1 |] w1] eqn:E.
        -- discriminate.
        -- destruct (download_absent_raise 0 w_del w1 e1 Habs E) as (_ & _ & Hgone).
           rewrite (handler_absent e1 w1 Hgone). discriminate.
        -- destruct (download_absent 0 w_del Habs) as (r & w0 & E0 & Hr & _).
           congruence.
      * destruct (download_present_other w content e Hn Ho Hc)
          as (w1 & w' & _ & _ & _ & Hrun).
        rewrite !Hrun. split; [discriminate | reflexivity].
    + exfalso. exact (outcome_not_out_of_fuel _ _ Ho).
  - destruct (download_directory w Hn) as (w' & _ & _ & Hrun).
    rewrite !Hrun. split; [discriminate | reflexivity].
  - rewrite (download_absent_fuel (S n) _ Hn), (download_absent_fuel 1 _ Hn).
    destruct (download_absent 0 w Hn) as (r & w1 & E & Hr & _).
    rewrite E. split; [exact Hr | reflexivity].
Qed.


(** C4.  With the destination absent, a download that is stored and then
    fails validation makes the call raise that failure after one request and
    with the file removed; the call of line 100 is not used, so a depth of 1
    is enough and nothing depends on the depth. *)
Theorem download_fresh_no_retry (w : World) (body : list byte)
    (headers : string) (e : Exn) :
  os.exists_at dest w = false ->
  makedirs_ok parent w ->
  urlretrieve_response (length (requests w)) request_url = Fetched body headers ->
  outcome_of dest body = Raise e ->
  (exists w',
     download 1 w = (Raise e, w')
     /\ requests w' = requests w ++ [request_url]
     /\ os.exists_at dest w' = false)
  /\ (forall n, download (S n) w = download 1 w)
  /\ (forall self1 self2 : Py unit,
        download_block self1 w = download_block self2 w).
Proof.
  intros Habs Hok Hr Ho. apply exists_at_false in Habs.
  split; [| split].
  - destruct (download_absent 0 w Habs) as (r & w' & E & _ & Hcases).
    exists w'.
    destruct Hcases as [(e0 & Hm & _) | (_ & Hq & Hcases)].
    { unfold makedirs_ok in Hok. congruence. }
    destruct Hcases as [(e0 & partial & Hr' & _)
                       | [(body' & headers' & e0 & Hr' & Ho' & -> & Hf)
                         | (body' & headers' & b & Hr' & Ho' & _)]].
    + congruence.
    + rewrite Hr in Hr'. injection Hr' as <- <-.
      rewrite Ho in Ho'. injection Ho' as <-.
      split; [exact E |]. split; [exact Hq |].
      apply exists_at_false. rewrite Hf. now apply made_absent.
    + rewrite Hr in Hr'. injection Hr' as <- <-. congruence.
  - intros n. now apply download_absent_fuel.
  - intros self1 self2. now rewrite !(block_absent _ _ Habs).
Qed.

(** C1.  With the destination there and failing validation with a
    [ValueError] or a [BadZipFile], the file is removed and the call is made
    once more, and no further: a depth of 1 stops at that call with the file
    gone and nothing requested, a depth of 2 or more ends, with at most one
    request (exactly one when the parent directory can be made).  When the
    file then downloaded fails validation too, that failure is raised and
    the file is gone; when the call returns, the file is the one just
    downloaded. *)
Theorem download_retries_once (w : World) (content : list byte) (e : Exn) :
  files w !! dest = Some content ->
  outcome_of dest content = Raise e ->
  ValueError_or_BadZipFile (exn_class e) = true ->
  exists w_del,
    download 1 w = (OutOfFuel, w_del)
    /\ files w_del = delete dest (files w)
    /\ os.exists_at dest w_del = false
    /\ requests w_del = requests w
    /\ exists r w',
         (forall n, download (S (S n)) w = (r, w'))
         /\ r <> OutOfFuel
         /\ (requests w' = requests w \/ requests w' = requests w ++ [request_url])
         /\ (makedirs_ok parent w_del -> requests w' = requests w ++ [request_url])
         /\ (forall e', r = Raise e' -> os.exists_at dest w' = false)
         /\ (forall a, r = Return a ->
               exists body headers,
                 urlretrieve_response (length (requests w)) request_url
                 = Fetched body headers
                 /\ files w' !! dest = Some body)
         /\ (forall body headers e2,
               makedirs_ok parent w_del ->
               urlretrieve_response (length (requests w)) request_url
               = Fetched body headers ->
               outcome_of dest body = Raise e2 ->
               r = Raise e2).
Proof.
  intros Hf Ho Hclass.
  destruct (download_present_invalid w content e Hf Ho Hclass)
    as (w_del & Hfd & Hqd & Hrun).
  exists w_del.
  assert (Habs : nodes w_del !! dest = None)
    by (rewrite Hfd; apply lookup_delete_eq).
  split; [rewrite Hrun; reflexivity |].
  split; [unfold files; rewrite Hfd; apply omap_delete |].
  split; [now apply exists_at_false |]. split; [exact Hqd |].
  destruct (download_absent 0 w_del Habs) as (r1 & w1 & E & Hfuel & Hcases).
  assert (Hdel : nodes w1 !! dest = None \/ exists a, r1 = Return a).
  { pose proof (made_absent w_del Habs) as Hm.
    destruct Hcases as [(e0 & _ & _ & _ & Hf1) | (_ & _ & Hcases)];
      [left; now rewrite Hf1 |].
    destruct Hcases as [(e0 & partial & _ & _ & Hf1)
                       | [(body' & headers' & e0 & _ & _ & _ & Hf1)
                         | (body' & headers' & b & _ & _ & -> & _)]];
      [left; now rewrite Hf1 | left; now rewrite Hf1 | right; eauto]. }
  assert (Hfinal : exists w',
             (forall n, download (S (S n)) w = (r1, w'))
             /\ requests w' = requests w1
             /\ (nodes w1 !! dest = None -> nodes w' !! dest = None)
             /\ (forall a, r1 = Return a -> w' = w1)).
  { destruct r1 as [a | e1 |].
    - exists w1. split; [| auto].
      intros n. now rewrite Hrun, (download_absent_fuel n _ Habs), E.
    - destruct (download_absent_raise 0 w_del w1 e1 Habs E) as (_ & _ & Hgone).
      eexists. split; [| split; [| split]].
      + intros n. rewrite Hrun, (download_absent_fuel n _ Habs), E.
        apply (handler_absent e1 w1 Hgone).
      + reflexivity.
      + intros _. exact Hgone.
      + intros a H. discriminate H.
    - congruence. }
  destruct Hfinal as (w' & Hall & Hq' & Hgone & Hkept).
  exists r1, w'. split; [exact Hall |]. split; [exact Hfuel |].
  rewrite Hq', <- Hqd.
  split; [| split; [| split; [| split]]].
  - destruct Hcases as [(e0 & _ & _ & Hq & _) | (_ & Hq & _)]; auto.
  - intros Hok.
    destruct Hcases as [(e0 & Hm & _) | (_ & Hq & _)]; [| exact Hq].
    unfold makedirs_ok in Hok. congruence.
  - intros e' ->. apply exists_at_false, Hgone.
    destruct Hdel as [H | [a H]]; [exact H | discriminate H].
  - intros a Hr. rewrite (Hkept a Hr).
    destruct Hcases as [(e0 & _ & He0 & _) | (_ & _ & Hcases)];
      [congruence |].
    destruct Hcases as [(e0 & partial & _ & He0 & _)
                       | [(body' & headers' & e0 & _ & _ & He0 & _)
                         | (body' & headers' & b & Hr' & _ & _ & Hf1)]];
      [congruence | congruence |].
    exists body', headers'. split; [exact Hr' |].
    exact (files_of_nodes _ _ _ _ Hf1).
  - intros body headers e2 Hok Hr Ho2.
    destruct Hcases as [(e0 & Hm & _) | (_ & _ & Hcases)].
    { unfold makedirs_ok in Hok. congruence. }
    destruct Hcases as [(e0 & partial & Hr' & _)
                       | [(body' & headers' & e0 & Hr' & Ho' & -> & _)
                         | (body' & headers' & b & Hr' & Ho' & _)]].
    + congruence.
    + rewrite Hr in Hr'. injection Hr' as <- <-. congruence.
    + rewrite Hr in Hr'. injection Hr' as <- <-. congruence.
Qed.

(** ** More on [download_file] *)

Lemma outcome_return_valid (p : string) (content : list byte) (b : bool) :
  outcome_of p content = Return b ->
  b = true
  /\ content <> []
  /\ html_signature (take 100 content) = false
  /\ pk_signature (take 100 content) = true
  /\ exists members, read_zip content = inr members.
Proof.
  unfold validation_outcome. rewrite validate_eq. cbn [nodes].
  rewrite lookup_singleton_eq. unfold file_verdict.
  destruct content as [|x content]; [discriminate |].
  cbn [length Nat.eqb].
  destruct (html_signature (take 100 (x :: content))); [discriminate |].
  destruct (pk_signature (take 100 (x :: content))); [| discriminate].
  cbn [negb].
  destruct (read_zip (x :: content)) as [e | members]; [discriminate |].
  intros [= <-]. split; [reflexivity |]. split; [discriminate |].
  split; [reflexivity |]. split; [reflexivity |]. eauto.
Qed.

Lemma handler_log (e : Exn) (w : World) :
  nodes w !! dest <> Some Directory ->
  exists w',
    handler e w = (Raise e, w')
    /\ nodes w' = delete dest (nodes w)
    /\ requests w' = requests w
    /\ log w'
       = log w
         ++ (if os.exists_at dest w
             then [(ERROR, "Removed failed download")] else [])
         ++ [(ERROR, "Download failed: " +:+ exn_msg e)].
Proof.
  intros Hnd. destruct (nodes w !! dest) as [[content|]|] eqn:Hn.
  - rewrite (exists_at_true _ _ _ Hn). apply files_lookup_Some in Hn.
    rewrite (handler_file e w content Hn). eexists.
    split; [reflexivity |]. cbn. rewrite <- app_assoc. auto.
  - congruence.
  - rewrite (proj2 (exists_at_false _ _) Hn).
    rewrite (handler_absent e w Hn). eexists.
    split; [reflexivity |]. cbn. split; [| auto].
    symmetry. now apply delete_id.
Qed.

Lemma files_lookup_ne (w1 : World) (m : gmap string Node) (p q : string)
    (n : Node) :
  nodes w1 = <[q := n]> m -> p <> q ->
  files w1 !! p = m !! p ≫= node_content.
Proof.
  intros H Hp. rewrite files_lookup, H. now rewrite lookup_insert_ne.
Qed.

(** What a call on an absent destination touches. *)
Lemma download_absent_footprint (n : nat) (w : World) :
  nodes w !! dest = None ->
  exists r w',
    download (S n) w = (r, w')
    /\ (forall p, p <> dest -> files w' !! p = files w !! p)
    /\ (requests w' = requests w \/ requests w' = requests w ++ [request_url]).
Proof.
  intros Habs.
  destruct (download_absent n w Habs) as (r & w' & E & _ & Hcases).
  exists r, w'. split; [exact E |].
  assert (Hsame : nodes w' = nodes (made w) ->
                  forall p, p <> dest -> files w' !! p = files w !! p).
  { intros Hf p _. rewrite (files_nodes_eq _ _ Hf). now rewrite made_files. }
  destruct Hcases as [(e0 & _ & _ & Hq & Hf) | (_ & Hq & Hcases)].
  { split; [exact (Hsame Hf) | now left]. }
  split; [| now right].
  destruct Hcases as [(e0 & partial & _ & _ & Hf)
                     | [(body & headers & e0 & _ & _ & _ & Hf)
                       | (body & headers & b & _ & _ & _ & Hf)]];
    [exact (Hsame Hf) | exact (Hsame Hf) |].
  intros p Hp. rewrite (files_lookup_ne _ _ _ _ _ Hf Hp), <- files_lookup.
  now rewrite made_files.
Qed.

Lemma files_delete_ne (w1 w2 : World) (p q : string) :
  nodes w1 = delete q (nodes w2) -> p <> q ->
  files w1 !! p = files w2 !! p.
Proof.
  intros H Hp. rewrite !files_lookup, H. now rewrite lookup_delete_ne.
Qed.

(** X8.  Whatever the world and the depth, and however the call ends,
    [download_file] leaves every file but the destination as it was and
    asks the network at most once, for the normalized source URL. *)
Theorem download_footprint (fuel : nat) (w : World) :
  (forall p, p <> dest ->
             files (download fuel w).2 !! p = files w !! p)
  /\ (requests (download fuel w).2 = requests w
      \/ requests (download fuel w).2 = requests w ++ [request_url]).
Proof.
  destruct fuel as [|n]; [cbn; auto |].
  destruct (nodes w !! dest) as [[content|]|] eqn:Hn.
  - apply files_lookup_Some in Hn.
    destruct (outcome_of dest content) as [b | e |] eqn:Ho.
    + destruct (download_present_valid w content b Hn Ho) as (w' & H1 & H2 & Hrun).
      rewrite Hrun. cbn [snd].
      split; [intros p _; now rewrite (files_nodes_eq _ _ H1) | now left].
    + destruct (ValueError_or_BadZipFile (exn_class e)) eqn:Hc.
      * destruct (download_present_invalid w content e Hn Ho Hc)
          as (w_del & Hfd & Hqd & Hrun).
        rewrite Hrun. destruct n as [|m].
        -- cbn. split; [| now left].
           intros p Hp. exact (files_delete_ne _ _ _ _ Hfd Hp).
        -- assert (Habs : nodes w_del !! dest = None)
             by (rewrite Hfd; apply lookup_delete_eq).
           destruct (download_absent_footprint m w_del Habs)
             as (r1 & w1 & E & Hframe & Hreq).
           rewrite Hqd in Hreq.
           assert (Hbase : forall p, p <> dest -> files w1 !! p = files w !! p).
           { intros p Hp. rewrite (Hframe p Hp).
             exact (files_delete_ne _ _ _ _ Hfd Hp). }
           destruct r1 as [a | e1 |];
             [rewrite E; split; assumption | | rewrite E; split; assumption].
           destruct (download_absent_raise m w_del w1 e1 Habs E) as (_ & _ & Hgone).
           rewrite E, (handler_absent e1 w1 Hgone). cbn [snd].
           split; [exact Hbase | exact Hreq].
      * destruct (download_present_other w content e Hn Ho Hc)
          as (w1 & w' & Hf' & Hq' & _ & Hrun).
        rewrite Hrun. cbn [snd]. split; [| now left].
        intros p Hp. exact (files_delete_ne _ _ _ _ Hf' Hp).
    + exfalso. exact (outcome_not_out_of_fuel _ _ Ho).
  - destruct (download_directory w Hn) as (w' & H1 & H2 & Hrun).
    rewrite Hrun. cbn [snd].
    split; [intros p _; now rewrite (files_nodes_eq _ _ H1) | now left].
  - destruct (download_absent_footprint n w Hn) as (r & w' & E & Hframe & Hreq).
    rewrite E. split; assumption.
Qed.

(** When [download_file] returns, the destination holds a file that passes
    validation. *)
Lemma download_return_valid (fuel : nat) (w w' : World) (a : unit) :
  download fuel w = (Return a, w') ->
  exists content,
    files w' !! dest = Some content
    /\ outcome_of dest content = Return true.
Proof.
  destruct fuel as [|n]; [discriminate |]. intros H.
  assert (Hfresh : forall m w0 w1 a1,
             nodes w0 !! dest = None ->
             download (S m) w0 = (Return a1, w1) ->
             exists content,
               files w1 !! dest = Some content
               /\ outcome_of dest content = Return true).
  { intros m w0 w1 a1 Habs E0.
    destruct (download_absent m w0 Habs) as (r & w2 & E & _ & Hcases).
    rewrite E in E0. injection E0 as -> ->.
    destruct Hcases as [(e0 & _ & He & _) | (_ & _ & Hcases)]; [discriminate He |].
    destruct Hcases as [(e0 & partial & _ & He & _)
                       | [(body & headers & e0 & _ & _ & He & _)
                         | (body & headers & b & _ & Ho & _ & Hf)]];
      [discriminate He | discriminate He |].
    exists body. split; [exact (files_of_nodes _ _ _ _ Hf) |].
    destruct (outcome_return_valid _ _ _ Ho) as (-> & _). exact Ho. }
  destruct (nodes w !! dest) as [[content|]|] eqn:Hn.
  - apply files_lookup_Some in Hn.
    destruct (outcome_of dest content) as [b | e |] eqn:Ho.
    + destruct (download_present_valid w content b Hn Ho) as (w1 & H1 & _ & Hrun).
      rewrite Hrun in H. injection H as _ <-.
      exists content. split; [now rewrite (files_nodes_eq _ _ H1) |].
      destruct (outcome_return_valid _ _ _ Ho) as (-> & _). exact Ho.
    + destruct (ValueError_or_BadZipFile (exn_class e)) eqn:Hc.
      * destruct (download_present_invalid w content e Hn Ho Hc)
          as (w_del & Hfd & _ & Hrun).
        rewrite Hrun in H. destruct n as [|m]; [discriminate H |].
        assert (Habs : nodes w_del !! dest = None)
          by (rewrite Hfd; apply lookup_delete_eq).
        destruct (download (S m) w_del) as [[a1 | e1 |] w1] eqn:E;
          [| | discriminate H].
        -- injection H as _ <-. exact (Hfresh m w_del w1 a1 Habs E).
        -- destruct (download_absent_raise m w_del w1 e1 Habs E) as (_ & _ & Hg).
           rewrite (handler_absent e1 w1 Hg) in H. discriminate H.
      * destruct (download_present_other w content e Hn Ho Hc)
          as (w1 & w2 & _ & _ & _ & Hrun).
        rewrite Hrun in H. discriminate H.
    + exfalso. exact (outcome_not_out_of_fuel _ _ Ho).
  - destruct (download_directory w Hn) as (w1 & _ & _ & Hrun).
    rewrite Hrun in H. discriminate H.
  - exact (Hfresh n w w' a Hn H).
Qed.

(** X9.  When [download_file] returns, the destination holds a file that
    passes validation; a further call then returns as well, asks the
    network for nothing and leaves the file system as it is. *)
Theorem download_then_download (fuel : nat) (w w' : World) (a : unit) :
  download fuel w = (Return a, w') ->
  (exists content,
     files w' !! dest = Some content
     /\ outcome_of dest content = Return true)
  /\ exists w'',
       (forall n, download (S n) w' = (Return tt, w''))
       /\ nodes w'' = nodes w'
       /\ requests w'' = requests w'.
Proof.
  intros H.
  destruct (download_return_valid fuel w w' a H) as (content & Hf & Ho).
  split; [exists content; auto |].
  destruct (download_present_valid w' content true Hf Ho) as (w'' & H1 & H2 & Hrun).
  exists w''. auto.
Qed.

(** X4.  A destination that passes validation is kept: the call returns at
    every depth without asking the network, the file system is as it was,
    and the log gains the size line and the line of the validation, and no
    other. *)
Theorem download_keeps_valid_file (w : World) (content : list byte) :
  files w !! dest = Some content ->
  outcome_of dest content = Return true ->
  exists (w' : World) (members : list Member),
    read_zip content = inr members
    /\ (forall n, download (S n) w = (Return tt, w'))
    /\ nodes w' = nodes w
    /\ requests w' = requests w
    /\ log w'
       = log w
         ++ [(INFO, "File already exists of size: "
                    +:+ get_size (length content));
             (INFO, "ZIP file is valid with "
                    +:+ PyStr.str_of_nat (length members) +:+ " files")].
Proof.
  intros Hf Ho.
  destruct (outcome_return_valid _ _ _ Ho) as (_ & Hne & Hhtml & Hpk & members & Hz).
  set (w1 := add_log INFO ("File already exists of size: "
                           +:+ get_size (length content)) w).
  assert (Hv : validate dest w1
               = (Return true,
                  add_log INFO ("ZIP file is valid with "
                                +:+ PyStr.str_of_nat (length members)
                                +:+ " files") w1)).
  { rewrite (validate_file_eq _ _ _ dest w1 content Hf). unfold file_verdict.
    rewrite Hhtml, Hpk, Hz.
    destruct content; [congruence | reflexivity]. }
  eexists. exists members. split; [exact Hz |]. split.
  - intros n. rewrite download_S, (block_file _ _ _ Hf).
    unfold download_existing, bind at 1. rewrite (get_size_of_file _ _ Hf).
    unfold bind at 1. cbn [logger.info logger.emit]. fold w1.
    unfold try_clauses, bind. rewrite Hv. reflexivity.
  - cbn. rewrite <- app_assoc. auto.
Qed.

(** X5.  With the destination absent, a parent directory that can be made
    and a body that passes validation, the call returns at every depth
    after one request for the normalized URL, and the destination holds the
    body; the other files are as they were. *)
Theorem download_fresh_stores_body (w : World) (body : list byte)
    (headers : string) :
  os.exists_at dest w = false ->
  makedirs_ok parent w ->
  urlretrieve_response (length (requests w)) request_url = Fetched body headers ->
  outcome_of dest body = Return true ->
  exists w',
    (forall n, download (S n) w = (Return tt, w'))
    /\ files w' = <[dest := body]> (files w)
    /\ requests w' = requests w ++ [request_url].
Proof.
  intros Habs Hok Hr Ho. apply exists_at_false in Habs.
  destruct (download_absent 0 w Habs) as (r & w' & E & _ & Hcases).
  exists w'.
  destruct Hcases as [(e0 & Hm & _) | (_ & Hq & Hcases)].
  { unfold makedirs_ok in Hok. congruence. }
  destruct Hcases as [(e0 & partial & Hr' & _)
                     | [(body' & headers' & e0 & Hr' & Ho' & _)
                       | (body' & headers' & b & Hr' & _ & -> & Hf)]].
  - congruence.
  - rewrite Hr in Hr'. injection Hr' as <- <-. congruence.
  - rewrite Hr in Hr'. injection Hr' as <- <-.
    split; [| split; [| exact Hq]].
    + intros n. now rewrite (download_absent_fuel n w Habs).
    + unfold files at 1. rewrite Hf.
      rewrite (omap_insert_Some _ _ _ _ body) by reflexivity.
      fold (files (made w)). now rewrite made_files.
Qed.

(** X6.  A transfer that fails is not tried again: with the destination
    absent and a parent directory that can be made, the call raises what
    [urlretrieve] raised, at every depth, after that one request, and what
    the transfer had written of the file is removed. *)
Theorem download_network_failure (w : World) (e : Exn)
    (partial : option (list byte)) :
  os.exists_at dest w = false ->
  makedirs_ok parent w ->
  urlretrieve_response (length (requests w)) request_url = Failed e partial ->
  exists w',
    (forall n, download (S n) w = (Raise e, w'))
    /\ requests w' = requests w ++ [request_url]
    /\ files w' = files w
    /\ os.exists_at dest w' = false.
Proof.
  intros Habs Hok Hr. apply exists_at_false in Habs.
  destruct (download_absent 0 w Habs) as (r & w' & E & _ & Hcases).
  exists w'.
  destruct Hcases as [(e0 & Hm & _) | (_ & Hq & Hcases)].
  { unfold makedirs_ok in Hok. congruence. }
  destruct Hcases as [(e0 & partial' & Hr' & -> & Hf)
                     | [(body' & headers' & e0 & Hr' & _)
                       | (body' & headers' & b & Hr' & _)]];
    [| congruence | congruence].
  rewrite Hr in Hr'. injection Hr' as <- _.
  split; [| split; [exact Hq | split]].
  - intros n. now rewrite (download_absent_fuel n w Habs).
  - rewrite (files_nodes_eq _ _ Hf). apply made_files.
  - apply exists_at_false. rewrite Hf. now apply made_absent.
Qed.

Lemma makedirs_empty (w : World) :
  os.makedirs true EmptyString w = (Raise (os.enoent EmptyString), w).
Proof. reflexivity. Qed.

(** X7.  A destination without a directory part cannot be downloaded to:
    [os.makedirs] is handed the empty path, so with the file absent the
    call raises its [FileNotFoundError] and asks the network for nothing,
    and a file that is there and fails validation is removed before the
    same error is raised. *)
Theorem download_bare_filename (w : World) :
  parent = EmptyString ->
  (os.exists_at dest w = false ->
   exists w',
     (forall n, download (S n) w = (Raise (os.enoent EmptyString), w'))
     /\ requests w' = requests w
     /\ nodes w' = nodes w)
  /\ (forall content e,
        files w !! dest = Some content ->
        outcome_of dest content = Raise e ->
        ValueError_or_BadZipFile (exn_class e) = true ->
        exists w',
          (forall n, download (S (S n)) w = (Raise (os.enoent EmptyString), w'))
          /\ requests w' = requests w
          /\ nodes w' = delete dest (nodes w)).
Proof.
  intros Hparent.
  assert (Hfresh : forall w0, nodes w0 !! dest = None ->
             exists w',
               (forall n, download (S n) w0 = (Raise (os.enoent EmptyString), w'))
               /\ requests w' = requests w0
               /\ nodes w' = nodes w0).
  { intros w0 Habs.
    destruct (download_absent 0 w0 Habs) as (r & w' & E & _ & Hcases).
    exists w'.
    destruct Hcases as [(e0 & Hm & -> & Hq & Hf) | (Hok & _)].
    - rewrite Hparent, makedirs_empty in Hm, Hf. cbn [fst snd] in *.
      injection Hm as <-.
      split; [| split; assumption].
      intros n. now rewrite (download_absent_fuel n w0 Habs).
    - unfold makedirs_ok in Hok. rewrite Hparent, makedirs_empty in Hok.
      discriminate Hok. }
  split; [intros Habs; apply exists_at_false in Habs; exact (Hfresh w Habs) |].
  intros content e Hf Ho Hc.
  destruct (download_present_invalid w content e Hf Ho Hc)
    as (w_del & Hfd & Hqd & Hrun).
  assert (Habs : nodes w_del !! dest = None)
    by (rewrite Hfd; apply lookup_delete_eq).
  destruct (Hfresh w_del Habs) as (w1 & Hall & Hq1 & Hf1).
  assert (Hgone : nodes w1 !! dest = None) by now rewrite Hf1.
  eexists. split; [| split].
  - intros n. rewrite Hrun, Hall.
    apply (handler_absent (os.enoent EmptyString) w1 Hgone).
  - cbn. congruence.
  - cbn. congruence.
Qed.

(** X10.  When the call made after removing an invalid file raises, the
    failure is reported by both calls: the log ends with the same
    "Download failed" line twice. *)
Theorem download_retry_failure_logged_twice (w w' : World)
    (content : list byte) (e e2 : Exn) (n : nat) :
  files w !! dest = Some content ->
  outcome_of dest content = Raise e ->
  ValueError_or_BadZipFile (exn_class e) = true ->
  download (S (S n)) w = (Raise e2, w') ->
  exists earlier,
    log w'
    = earlier
      ++ [(ERROR, "Download failed: " +:+ exn_msg e2);
          (ERROR, "Download failed: " +:+ exn_msg e2)].
Proof.
  intros Hf Ho Hc H.
  destruct (download_present_invalid w content e Hf Ho Hc)
    as (w_del & Hfd & _ & Hrun).
  assert (Habs : nodes w_del !! dest = None)
    by (rewrite Hfd; apply lookup_delete_eq).
  assert (Hnd : nodes w_del !! dest <> Some Directory) by congruence.
  rewrite Hrun, download_S in H.
  destruct (download_block (download n) w_del) as [[a | e0 |] w0] eqn:Eb;
    [discriminate H | | discriminate H].
  destruct (block_raise_origin n w_del w0 e0 Hnd Eb) as [_ Hnd0].
  destruct (handler_log e0 w0 Hnd0) as (w1 & Hh & Hf1 & _ & Hl1).
  rewrite Hh in H.
  assert (Hgone : nodes w1 !! dest = None)
    by (rewrite Hf1; apply lookup_delete_eq).
  rewrite (handler_absent e0 w1 Hgone) in H. injection H as <- <-.
  cbn [log add_log]. rewrite Hl1.
  exists (log w0
          ++ (if os.exists_at dest w0
              then [(ERROR, "Removed failed download")] else [])).
  now rewrite <- !app_assoc.
Qed.

Lemma dirs_nodes_eq (w1 w2 : World) : nodes w1 = nodes w2 -> dirs w1 = dirs w2.
Proof. unfold dirs. now intros ->. Qed.

Lemma dirs_write (w1 : World) (m : gmap string Node) (p : string)
    (content : list byte) :
  nodes w1 = <[p := File content]> m -> m !! p = None ->
  dirs w1 = dom (omap node_directory m).
Proof.
  intros H Hp. unfold dirs. rewrite H.
  rewrite (omap_insert_None _ _ _ (File content)) by reflexivity.
  rewrite delete_id; [reflexivity |].
  rewrite lookup_omap, Hp. reflexivity.
Qed.

(** X16.  The directories made for a download stay when the download
    fails: with the destination absent and a parent directory that can be
    made, the directories after the call are those [os.makedirs] left, which
    are those before it and the ones it made, however the call ends. *)
Theorem download_keeps_parent_directory (n : nat) (w : World) :
  os.exists_at dest w = false ->
  makedirs_ok parent w ->
  dirs (download (S n) w).2 = dirs (os.makedirs true parent w).2
  /\ dirs w ⊆ dirs (download (S n) w).2.
Proof.
  intros Habs Hok. apply exists_at_false in Habs.
  assert (Heq : dirs (download (S n) w).2 = dirs (made w)).
  { destruct (download_absent n w Habs) as (r & w' & E & _ & Hcases).
    rewrite E. cbn [snd].
    destruct Hcases as [(e0 & _ & _ & _ & Hf) | (_ & _ & Hcases)];
      [exact (dirs_nodes_eq _ _ Hf) |].
    destruct Hcases as [(e0 & partial & _ & _ & Hf)
                       | [(body & headers & e0 & _ & _ & _ & Hf)
                         | (body & headers & b & _ & _ & _ & Hf)]];
      [exact (dirs_nodes_eq _ _ Hf) | exact (dirs_nodes_eq _ _ Hf) |].
    apply (dirs_write _ _ _ _ Hf). now apply made_absent. }
  split; [exact Heq |]. rewrite Heq.
  eapply grown_dirs, made_grown.
Qed.

End Download.

(** ** Calls that touch the file system only *)

Lemma set_nodes_same (w : World) : set_nodes (nodes w) w = w.
Proof. now destruct w. Qed.

Lemma fs_only_ret {A} (a : A) : fs_only (ret a).
Proof.
  intros w. exists (Return a), (nodes w). intros w2 H.
  unfold ret. now rewrite <- H, set_nodes_same.
Qed.

Lemma fs_only_raise {A} (e : Exn) : fs_only (@raise A e).
Proof.
  intros w. exists (Raise e), (nodes w). intros w2 H.
  unfold raise. now rewrite <- H, set_nodes_same.
Qed.

Lemma fs_only_bind {A B} (m : Py A) (k : A -> Py B) :
  fs_only m -> (forall a, fs_only (k a)) -> fs_only (bind m k).
Proof.
  intros Hm Hk w. destruct (Hm w) as (r & N & Hr).
  destruct r as [a | e |].
  - destruct (Hk a (set_nodes N w)) as (r2 & N2 & Hr2).
    exists r2, N2. intros w2 H. unfold bind. rewrite (Hr w2 H).
    now rewrite (Hr2 (set_nodes N w2)) by reflexivity.
  - exists (Raise e), N. intros w2 H. unfold bind. now rewrite (Hr w2 H).
  - exists OutOfFuel, N. intros w2 H. unfold bind. now rewrite (Hr w2 H).
Qed.

Lemma fs_only_try {A} (m : Py A)
    (clauses : list ((ExnClass -> bool) * (Exn -> Py A))) :
  fs_only m ->
  Forall (fun clause => forall e, fs_only (clause.2 e)) clauses ->
  fs_only (try_clauses m clauses).
Proof.
  intros Hm Hc.
  assert (Hd : forall e, fs_only (dispatch clauses e)).
  { intros e. induction Hc as [|[catches h] rest Hh _ IH]; cbn [dispatch].
    - apply fs_only_raise.
    - destruct (catches (exn_class e)); [apply Hh | exact IH]. }
  intros w. destruct (Hm w) as (r & N & Hr).
  destruct r as [a | e |].
  - exists (Return a), N. intros w2 H. unfold try_clauses. now rewrite (Hr w2 H).
  - destruct (Hd e (set_nodes N w)) as (r2 & N2 & Hr2).
    exists r2, N2. intros w2 H. unfold try_clauses. rewrite (Hr w2 H).
    now rewrite (Hr2 (set_nodes N w2)) by reflexivity.
  - exists OutOfFuel, N. intros w2 H. unfold try_clauses. now rewrite (Hr w2 H).
Qed.

Lemma fs_only_pure {A} (f : gmap string Node -> Outcome A * gmap string Node)
    (m : Py A) :
  (forall w, m w = ((f (nodes w)).1, set_nodes (f (nodes w)).2 w)) ->
  fs_only m.
Proof.
  intros H w. exists (f (nodes w)).1, (f (nodes w)).2.
  intros w2 E. now rewrite H, E.
Qed.

Lemma fs_only_path_exists (p : string) : fs_only (os.path_exists p).
Proof.
  apply (fs_only_pure (fun N => (Return (bool_decide (is_Some (N !! p))), N))).
  intros w. cbn. now rewrite set_nodes_same.
Qed.

Lemma fs_only_path_isdir (p : string) : fs_only (os.path_isdir p).
Proof.
  apply (fs_only_pure
           (fun N => (Return (negb (PyStr.is_empty p)
                              && bool_decide (N !! p = Some Directory)), N))).
  intros w. cbn. now rewrite set_nodes_same.
Qed.

Lemma fs_only_write_file (p : string) (content : list byte) :
  fs_only (os.write_file p content).
Proof.
  apply (fs_only_pure
           (fun N =>
              let parent := PosixPath.dirname p in
              match N !! p with
              | Some Directory => (Raise (os.eisdir p), N)
              | _ =>
                  if PyStr.is_empty parent
                     || os.dir_in (String.length parent) N parent
                  then (Return tt, <[p := File content]> N)
                  else if bool_decide (is_Some (N !! parent))
                  then (Raise (os.enotdir p), N)
                  else (Raise (os.enoent p), N)
              end)).
  intros w. unfold os.write_file, os.dir_there, os.exists_at.
  destruct (nodes w !! p) as [[c|]|]; cbn [fst snd];
    try (now rewrite set_nodes_same);
    (destruct (PyStr.is_empty (PosixPath.dirname p)
               || os.dir_in (String.length (PosixPath.dirname p)) (nodes w)
                    (PosixPath.dirname p)); [reflexivity |];
     destruct (bool_decide (is_Some (nodes w !! PosixPath.dirname p)));
     cbn; now rewrite set_nodes_same).
Qed.

Lemma fs_only_mkdir (name : string) : fs_only (os.mkdir name).
Proof.
  apply (fs_only_pure
           (fun N =>
              let parent := (PosixPath.split_twice name).1 in
              if PyStr.is_empty name then (Raise (os.enoent name), N)
              else if bool_decide (is_Some (N !! name))
              then (Raise (os.eexist name), N)
              else if PyStr.is_empty parent
                      || os.dir_in (String.length parent) N parent
              then (Return tt, <[name := Directory]> N)
              else if bool_decide (is_Some (N !! parent))
              then (Raise (os.enotdir name), N)
              else (Raise (os.enoent name), N))).
  intros w. unfold os.mkdir, os.exists_at, os.dir_there.
  destruct (PyStr.is_empty name); [cbn; now rewrite set_nodes_same |].
  destruct (bool_decide (is_Some (nodes w !! name)));
    [cbn; now rewrite set_nodes_same |].
  destruct (PyStr.is_empty (PosixPath.split_twice name).1
            || os.dir_in (String.length (PosixPath.split_twice name).1)
                 (nodes w) (PosixPath.split_twice name).1); [reflexivity |].
  destruct (bool_decide (is_Some (nodes w !! (PosixPath.split_twice name).1)));
    cbn; now rewrite set_nodes_same.
Qed.

Lemma fs_only_makedirs_leaf (exist_ok : bool) (name : string) :
  fs_only (os.makedirs_leaf exist_ok name).
Proof.
  unfold os.makedirs_leaf. apply fs_only_try; [apply fs_only_mkdir |].
  repeat constructor. intros e. cbn [snd].
  apply fs_only_bind; [apply fs_only_path_isdir |]. intros isdir.
  destruct (negb exist_ok || negb isdir);
    [apply fs_only_raise | apply fs_only_ret].
Qed.

Lemma fs_only_makedirs_upto (depth : nat) (exist_ok : bool) :
  forall name, fs_only (os.makedirs_upto depth exist_ok name).
Proof.
  induction depth as [|depth IH]; intros name; cbn [os.makedirs_upto].
  - apply fs_only_makedirs_leaf.
  - apply fs_only_bind; [apply fs_only_path_exists |]. intros head_exists.
    destruct (negb (PyStr.is_empty (PosixPath.split_twice name).1)
              && negb (PyStr.is_empty (PosixPath.split_twice name).2)
              && negb head_exists); [| apply fs_only_makedirs_leaf].
    apply fs_only_bind.
    + apply fs_only_try; [apply IH |]. repeat constructor.
      intros e. apply fs_only_ret.
    + intros _. destruct (String.eqb (PosixPath.split_twice name).2 ".");
        [apply fs_only_ret | apply fs_only_makedirs_leaf].
Qed.

Lemma fs_only_makedirs (exist_ok : bool) (name : string) :
  fs_only (os.makedirs exist_ok name).
Proof. apply fs_only_makedirs_upto. Qed.

Lemma fs_only_for_each {A} (xs : list A) (body : A -> Py unit) :
  (forall x, fs_only (body x)) -> fs_only (for_each xs body).
Proof.
  intros Hb. induction xs as [|x xs IH]; cbn [for_each].
  - apply fs_only_ret.
  - apply fs_only_bind; [apply Hb | intros _; exact IH].
Qed.

Lemma fs_only_extract_member (members : list Member) (path name : string) :
  fs_only (extract_member members path name).
Proof.
  unfold extract_member.
  destruct (getinfo members name) as [member|]; [| apply fs_only_raise].
  apply fs_only_bind; [apply fs_only_path_exists |]. intros found.
  apply fs_only_bind.
  { destruct (negb (PyStr.is_empty _) && negb found);
      [apply fs_only_makedirs | apply fs_only_ret]. }
  intros _. apply fs_only_bind.
  { unfold member_is_dir. destruct (String.get _ _);
      [apply fs_only_ret | apply fs_only_raise]. }
  intros is_dir. destruct is_dir.
  - apply fs_only_bind; [apply fs_only_path_isdir |]. intros isdir.
    destruct (negb isdir); [apply fs_only_mkdir | apply fs_only_ret].
  - destruct (member_payload member) as [data | e | e copied].
    + apply fs_only_write_file.
    + apply fs_only_raise.
    + apply fs_only_bind; [apply fs_only_write_file |].
      intros _. apply fs_only_raise.
Qed.

Lemma fs_only_extractall (members : list Member) (path : string) :
  fs_only (extractall members path).
Proof. apply fs_only_for_each. intros name. apply fs_only_extract_member. Qed.

(** A call on the file system goes the same way whatever has been
    logged. *)
Lemma fs_only_add_log {A} (m : Py A) (l : Level) (msg : string) (w : World) :
  fs_only m ->
  m (add_log l msg w) = ((m w).1, add_log l msg (m w).2).
Proof.
  intros H. destruct (H w) as (r & N & Hr).
  rewrite (Hr w eq_refl), (Hr (add_log l msg w) eq_refl). reflexivity.
Qed.

Lemma fs_only_frame {A} (m : Py A) (w : World) :
  fs_only m -> log (m w).2 = log w /\ requests (m w).2 = requests w.
Proof.
  intros H. destruct (H w) as (r & N & Hr). rewrite (Hr w eq_refl). auto.
Qed.

(** ** [extractall] *)

Lemma extracted_same (targets : string -> Prop) (w w' : World) :
  nodes w' = nodes w -> requests w' = requests w -> extracted targets w w'.
Proof. intros Hn Hq. split; [exact Hq |]. intros p. left. now rewrite Hn. Qed.

Lemma extracted_refl (targets : string -> Prop) (w : World) :
  extracted targets w w.
Proof. now apply extracted_same. Qed.

Lemma extracted_weaken (t1 t2 : string -> Prop) (w w' : World) :
  (forall p, t1 p -> t2 p) -> extracted t1 w w' -> extracted t2 w w'.
Proof.
  intros Ht [Hq H]. split; [exact Hq |]. intros p.
  destruct (H p) as [E | [E | (Hin & E)]];
    [left; exact E | right; left; exact E |].
  right. right. split; [apply Ht, Hin | exact E].
Qed.

Lemma extracted_trans (targets : string -> Prop) (w1 w2 w3 : World) :
  extracted targets w1 w2 -> extracted targets w2 w3 -> extracted targets w1 w3.
Proof.
  intros [Hq1 H1] [Hq2 H2]. split; [congruence |]. intros p.
  destruct (H2 p) as [E2 | [(E2 & E2') | (Hin & E2 & c & E2')]].
  - rewrite E2. apply H1.
  - destruct (H1 p) as [E1 | [(E1 & E1') | (_ & _ & c & E1')]].
    + right. left. split; congruence.
    + congruence.
    + congruence.
  - destruct (H1 p) as [E1 | [(E1 & E1') | (_ & E1 & _)]].
    + right. right. split; [exact Hin |]. split; [congruence | eauto].
    + congruence.
    + right. right. split; [exact Hin |]. split; [exact E1 | eauto].
Qed.

Lemma grown_extracted (bound : nat) (targets : string -> Prop) (w w' : World) :
  grown bound w w' -> extracted targets w w'.
Proof.
  intros (_ & Hq & H). split; [exact Hq |]. intros p.
  destruct (H p) as [E | (E & E' & _)]; auto.
Qed.

(** What an extraction keeps. *)
Lemma extracted_files (targets : string -> Prop) (w w' : World) (p : string) :
  extracted targets w w' ->
  is_Some (files w !! p) -> is_Some (files w' !! p).
Proof.
  intros [_ H] [c Hc]. apply files_lookup_Some in Hc.
  destruct (H p) as [E | [(E & _) | (_ & _ & c' & E)]].
  - exists c. apply files_lookup_Some. congruence.
  - congruence.
  - exists c'. now apply files_lookup_Some.
Qed.

Lemma extracted_dirs (targets : string -> Prop) (w w' : World) :
  extracted targets w w' -> dirs w ⊆ dirs w'.
Proof.
  intros [_ H] p. rewrite !elem_of_dirs. intros Hd.
  destruct (H p) as [E | [(E & _) | (_ & E & _)]]; congruence.
Qed.

Lemma extracted_outside (targets : string -> Prop) (w w' : World)
    (p : string) (n : Node) :
  extracted targets w w' -> ~ targets p ->
  nodes w !! p = Some n -> nodes w' !! p = Some n.
Proof.
  intros [_ H] Hp Hn.
  destruct (H p) as [E | [(E & _) | (Hin & _)]];
    [congruence | congruence | contradiction].
Qed.

Lemma write_file_run (p : string) (content : list byte) (w : World) :
  (exists e, os.write_file p content w = (Raise e, w))
  \/ (os.write_file p content w
      = (Return tt, set_nodes (<[p := File content]> (nodes w)) w)
      /\ nodes w !! p <> Some Directory).
Proof.
  unfold os.write_file.
  assert (H : (exists e,
                 (if PyStr.is_empty (PosixPath.dirname p)
                     || os.dir_there (PosixPath.dirname p) w
                  then (Return tt, set_nodes (<[p := File content]> (nodes w)) w)
                  else if os.exists_at (PosixPath.dirname p) w
                       then (Raise (os.enotdir p), w)
                       else (Raise (os.enoent p), w))
                 = (Raise e, w))
              \/ (if PyStr.is_empty (PosixPath.dirname p)
                     || os.dir_there (PosixPath.dirname p) w
                  then (Return tt, set_nodes (<[p := File content]> (nodes w)) w)
                  else if os.exists_at (PosixPath.dirname p) w
                       then (Raise (os.enotdir p), w)
                       else (Raise (os.enoent p), w))
                 = (Return tt, set_nodes (<[p := File content]> (nodes w)) w)).
  { destruct (PyStr.is_empty (PosixPath.dirname p)
              || os.dir_there (PosixPath.dirname p) w); [now right |].
    destruct (os.exists_at (PosixPath.dirname p) w); left; eauto. }
  destruct (nodes w !! p) as [[c|]|] eqn:Hn.
  - destruct H as [H | H]; [now left | right]. split; [exact H | discriminate].
  - left. eauto.
  - destruct H as [H | H]; [now left | right]. split; [exact H | discriminate].
Qed.

Lemma write_file_extracted (targets : string -> Prop) (p : string)
    (content : list byte) (w : World) :
  targets p -> extracted targets w (os.write_file p content w).2.
Proof.
  intros Hp.
  destruct (write_file_run p content w) as [(e & ->) | (-> & Hn)];
    [apply extracted_refl |].
  split; [reflexivity |].
  intros q. destruct (decide (q = p)) as [-> | Hq].
  - right. right. split; [exact Hp |].
    split; [exact Hn |]. exists content. cbn. apply lookup_insert_eq.
  - left. cbn. now rewrite lookup_insert_ne.
Qed.

Lemma getinfo_name (members : list Member) (name : string) (m : Member) :
  getinfo members name = Some m -> member_name m = name /\ m ∈ members.
Proof.
  unfold getinfo. intros H. apply last_Some_elem_of in H.
  apply list_elem_of_filter in H as [H1 H2].
  split; [| exact H2]. now apply Is_true_true, String.eqb_eq in H1.
Qed.

Lemma getinfo_unique (members : list Member) (m : Member) :
  NoDup (namelist members) -> m ∈ members ->
  getinfo members (member_name m) = Some m.
Proof.
  unfold getinfo, namelist.
  induction members as [|x members IH]; intros Hnd Hin;
    [exfalso; exact (not_elem_of_nil _ Hin) |].
  cbn [map] in Hnd. apply NoDup_cons in Hnd as [Hx Hnd].
  cbn [filter list_filter].
  apply elem_of_cons in Hin as [-> | Hin].
  - destruct (decide _) as [_ | Hne];
      [| exfalso; apply Hne; apply Is_true_true, String.eqb_refl].
    match goal with
    | |- last (x :: ?rest) = _ => assert (Hnone : rest = [])
    end.
    { revert Hx. clear.
      induction members as [|y members IH]; intros Hx; [reflexivity |].
      cbn [filter list_filter]. destruct (decide _) as [Hy | _].
      - exfalso. apply Hx. apply Is_true_true, String.eqb_eq in Hy.
        rewrite <- Hy. cbn. apply list_elem_of_here.
      - apply IH. intros H. apply Hx. cbn. now apply list_elem_of_further. }
    now rewrite Hnone.
  - destruct (decide _) as [Heq | _].
    + exfalso. apply Hx. apply Is_true_true, String.eqb_eq in Heq.
      rewrite Heq. apply list_elem_of_fmap. exists m. auto.
    + exact (IH Hnd Hin).
Qed.

Lemma member_is_dir_run (name : string) (w : World) :
  (exists e, member_is_dir name w = (Raise e, w))
  \/ member_is_dir name w = (Return (is_dir_name name), w).
Proof.
  unfold member_is_dir, is_dir_name.
  destruct (String.get _ name); [right | left; eexists]; reflexivity.
Qed.

Lemma extracting_same {A} (targets : string -> Prop) (m : Py A) :
  (forall w, nodes (m w).2 = nodes w /\ requests (m w).2 = requests w) ->
  extracting targets m.
Proof. intros H w. destruct (H w). now apply extracted_same. Qed.

Lemma extracting_ret {A} (targets : string -> Prop) (a : A) :
  extracting targets (ret a).
Proof. intros w. apply extracted_refl. Qed.

Lemma extracting_raise {A} (targets : string -> Prop) (e : Exn) :
  extracting targets (@raise A e).
Proof. intros w. apply extracted_refl. Qed.

Lemma extracting_emit (targets : string -> Prop) (l : Level) (msg : string) :
  extracting targets (logger.emit l msg).
Proof. intros w. now apply extracted_same. Qed.

Lemma extracting_bind {A B} (targets : string -> Prop) (m : Py A)
    (k : A -> Py B) :
  extracting targets m -> (forall a, extracting targets (k a)) ->
  extracting targets (bind m k).
Proof.
  intros Hm Hk w. unfold bind. specialize (Hm w).
  destruct (m w) as [[a | e |] w1]; cbn [snd] in *; try exact Hm.
  eapply extracted_trans; [exact Hm | apply Hk].
Qed.

Lemma extracting_try {A} (targets : string -> Prop) (m : Py A)
    (clauses : list ((ExnClass -> bool) * (Exn -> Py A))) :
  extracting targets m ->
  Forall (fun clause => forall e, extracting targets (clause.2 e)) clauses ->
  extracting targets (try_clauses m clauses).
Proof.
  intros Hm Hc.
  assert (Hd : forall e, extracting targets (dispatch clauses e)).
  { intros e. induction Hc as [|[catches h] rest Hh _ IH]; cbn [dispatch].
    - apply extracting_raise.
    - destruct (catches (exn_class e)); [apply Hh | exact IH]. }
  intros w. unfold try_clauses. specialize (Hm w).
  destruct (m w) as [[a | e |] w1]; cbn [snd] in *; try exact Hm.
  eapply extracted_trans; [exact Hm | apply Hd].
Qed.

Lemma extracting_for_each {A} (targets : string -> Prop) (xs : list A)
    (body : A -> Py unit) :
  (forall x, x ∈ xs -> extracting targets (body x)) ->
  extracting targets (for_each xs body).
Proof.
  induction xs as [|x xs IH]; intros Hb; cbn [for_each].
  - apply extracting_ret.
  - apply extracting_bind; [apply Hb, list_elem_of_here |].
    intros _. apply IH. intros y Hy. apply Hb. now apply list_elem_of_further.
Qed.

Lemma extracting_makedirs (targets : string -> Prop) (exist_ok : bool)
    (name : string) :
  extracting targets (os.makedirs exist_ok name).
Proof.
  intros w. destruct (makedirs_grown exist_ok name w) as [Hg _].
  eapply grown_extracted, Hg.
Qed.

Lemma extracting_mkdir (targets : string -> Prop) (name : string) :
  extracting targets (os.mkdir name).
Proof. intros w. eapply grown_extracted, mkdir_grown. Qed.

Lemma extracting_write_file (targets : string -> Prop) (p : string)
    (content : list byte) :
  targets p -> extracting targets (os.write_file p content).
Proof. intros Hp w. now apply write_file_extracted. Qed.

Lemma extracting_extract_member (targets : string -> Prop)
    (members : list Member) (path name : string) :
  targets (member_target path name) ->
  extracting targets (extract_member members path name).
Proof.
  intros Ht. unfold extract_member.
  destruct (getinfo members name) as [member|] eqn:Hg;
    [| apply extracting_raise].
  apply getinfo_name in Hg as [-> _].
  apply extracting_bind; [apply extracting_same; intros w; now cbn |].
  intros found. apply extracting_bind.
  { destruct (negb (PyStr.is_empty _) && negb found);
      [apply extracting_makedirs | apply extracting_ret]. }
  intros _. apply extracting_bind.
  { unfold member_is_dir. destruct (String.get _ _);
      [apply extracting_ret | apply extracting_raise]. }
  intros is_dir. destruct is_dir.
  - apply extracting_bind; [apply extracting_same; intros w; now cbn |].
    intros isdir. destruct (negb isdir);
      [apply extracting_mkdir | apply extracting_ret].
  - destruct (member_payload member) as [data | e | e copied].
    + now apply extracting_write_file.
    + apply extracting_raise.
    + apply extracting_bind; [now apply extracting_write_file |].
      intros _. apply extracting_raise.
Qed.

Lemma extracting_extractall (targets : string -> Prop)
    (members : list Member) (path : string) :
  (forall name, name ∈ namelist members ->
                targets (member_target path name)) ->
  extracting targets (extractall members path).
Proof.
  intros Ht. apply extracting_for_each. intros name Hn.
  apply extracting_extract_member, Ht, Hn.
Qed.

(** ** What [extractall] has written when it returns *)

Lemma extract_member_return (members : list Member) (path name : string)
    (w w' : World) :
  extract_member members path name w = (Return tt, w') ->
  in_place members path name w'.
Proof.
  unfold extract_member, in_place.
  destruct (getinfo members name) as [member|] eqn:Hg; [| discriminate].
  destruct (getinfo_name _ _ _ Hg) as [Hname _]. rewrite Hname.
  intros H. exists member. split; [reflexivity |].
  unfold bind at 1, os.path_exists in H. unfold bind at 1 in H.
  destruct ((if negb (PyStr.is_empty (PosixPath.dirname (member_target path name)))
                && negb (os.exists_at (PosixPath.dirname (member_target path name)) w)
             then os.makedirs false (PosixPath.dirname (member_target path name))
             else ret tt) w) as [[[] | e |] w1]; try discriminate H.
  unfold bind at 1 in H.
  destruct (member_is_dir_run name w1) as [(e & E) | E]; rewrite E in H;
    [discriminate H |].
  destruct (is_dir_name name).
  - unfold bind, os.path_isdir in H.
    destruct (os.is_dir (member_target path name) w1) eqn:Hd; cbn in H.
    + injection H as <-. now apply is_dir_true.
    + destruct (mkdir_run (member_target path name) w1)
        as [(e & E1 & _) | (E1 & _)]; rewrite E1 in H; [discriminate H |].
      injection H as <-. cbn. apply lookup_insert_eq.
  - destruct (member_payload member) as [data | e | e copied].
    + exists data. split; [reflexivity |].
      destruct (write_file_run (member_target path name) data w1)
        as [(e & E1) | (E1 & _)]; rewrite E1 in H; [discriminate H |].
      injection H as <-. cbn. apply lookup_insert_eq.
    + discriminate H.
    + unfold bind in H.
      destruct (os.write_file (member_target path name) copied w1)
        as [[[] | e0 |] w2]; discriminate H.
Qed.

(** A member in place stays in place while other targets are written. *)
Lemma in_place_kept (targets : string -> Prop) (members : list Member)
    (path name : string) (w w' : World) :
  extracted targets w w' -> ~ targets (member_target path name) ->
  in_place members path name w -> in_place members path name w'.
Proof.
  intros He Hn (member & Hg & H). exists member. split; [exact Hg |].
  destruct (is_dir_name name).
  - eapply extracted_outside; eassumption.
  - destruct H as (data & Hp & H). exists data. split; [exact Hp |].
    eapply extracted_outside; eassumption.
Qed.

Lemma for_each_in_place (members : list Member) (path : string)
    (names : list string) :
  NoDup (map (member_target path) names) ->
  forall w w',
    for_each names (extract_member members path) w = (Return tt, w') ->
    forall name, name ∈ names -> in_place members path name w'.
Proof.
  induction names as [|x names IH]; intros Hnd w w' H name Hin;
    [exfalso; exact (not_elem_of_nil _ Hin) |].
  cbn [map] in Hnd. apply NoDup_cons in Hnd as [Hx Hnd].
  cbn [for_each] in H. unfold bind in H.
  destruct (extract_member members path x w) as [[[] | e |] w1] eqn:E;
    try discriminate H.
  apply elem_of_cons in Hin as [-> | Hin].
  - apply (in_place_kept (fun p => p ∈ map (member_target path) names)
             members path x w1 w').
    + pose proof (extracting_for_each
                    (fun p => p ∈ map (member_target path) names) names
                    (extract_member members path)) as Hf.
      replace w' with (for_each names (extract_member members path) w1).2
        by now rewrite H.
      apply Hf. intros y Hy.
      apply extracting_extract_member.
      apply list_elem_of_fmap. exists y. auto.
    + exact Hx.
    + exact (extract_member_return _ _ _ _ _ E).
  - exact (IH Hnd w1 w' H name Hin).
Qed.

(** When the names of an archive go to targets that are all different
    and [extractall] returns, every member is in place. *)
Lemma extractall_in_place (members : list Member) (path : string)
    (w w' : World) :
  NoDup (map (member_target path) (namelist members)) ->
  extractall members path w = (Return tt, w') ->
  forall member,
    member ∈ members ->
    if is_dir_name (member_name member)
    then nodes w' !! member_target path (member_name member) = Some Directory
    else exists data,
           member_payload member = Stored data
           /\ nodes w' !! member_target path (member_name member)
              = Some (File data).
Proof.
  intros Hnd H member Hin.
  assert (Hnames : NoDup (namelist members)).
  { eapply (NoDup_fmap_1 (member_target path)). exact Hnd. }
  destruct (for_each_in_place members path (namelist members) Hnd w w' H
              (member_name member)) as (member' & Hg & Hp).
  { apply list_elem_of_fmap. exists member. auto. }
  rewrite (getinfo_unique _ _ Hnames Hin) in Hg. injection Hg as <-.
  exact Hp.
Qed.

(** ** [extract_zip_file] *)

Lemma enumerate_from_length {A} (k : nat) (xs : list A) :
  length (enumerate_from k xs) = length xs.
Proof.
  revert k. induction xs as [|x xs IH]; intros k; simpl; [reflexivity |].
  now rewrite IH.
Qed.

Lemma enumerate_from_lookup {A} (k i : nat) (xs : list A) (x : A) :
  xs !! i = Some x -> enumerate_from k xs !! i = Some (k + i, x).
Proof.
  revert k i. induction xs as [|y xs IH]; intros k [|i] H; simpl in *;
    try discriminate.
  - injection H as ->. f_equal. f_equal. lia.
  - rewrite (IH (S k) i H). f_equal. f_equal. lia.
Qed.

Lemma sample_name_lines_length (names : list string) :
  length (sample_name_lines names) = Nat.min (length names) 5.
Proof.
  unfold sample_name_lines.
  rewrite length_map, enumerate_from_length, length_take. lia.
Qed.

Lemma sample_name_lines_lookup (names : list string) (i : nat) (name : string) :
  i < 5 -> names !! i = Some name ->
  sample_name_lines names !! i
  = Some (INFO, "  " +:+ PyStr.str_of_nat (S i) +:+ ". " +:+ name).
Proof.
  intros Hi Hn. unfold sample_name_lines.
  rewrite list_lookup_fmap.
  rewrite (enumerate_from_lookup 0 i _ name)
    by (now rewrite lookup_take_lt).
  cbn. now replace (i + 1) with (S i) by lia.
Qed.

(** The loop of lines 135-136 appends its lines to the log and touches
    nothing else. *)
Lemma sample_loop_run (k : nat) (xs : list string) (w : World) :
  for_each (enumerate_from k xs)
    (fun item =>
       logger.info ("  " +:+ PyStr.str_of_nat (item.1 + 1) +:+ ". " +:+ item.2)) w
  = (Return tt,
     mkWorld (nodes w)
       (log w ++ map (fun item : nat * string =>
                        (INFO, "  " +:+ PyStr.str_of_nat (item.1 + 1) +:+ ". "
                               +:+ item.2))
                     (enumerate_from k xs))
       (requests w)).
Proof.
  revert k w. induction xs as [|x xs IH]; intros k w.
  - cbn. rewrite app_nil_r. now destruct w.
  - cbn [enumerate_from for_each map]. unfold bind.
    cbn [logger.info logger.emit]. rewrite IH. cbn.
    now rewrite <- app_assoc.
Qed.

Lemma log_samples_run (names : list string) (w : World) :
  log_samples names w
  = (Return tt, mkWorld (nodes w) (log w ++ sample_report names) (requests w)).
Proof.
  unfold log_samples, sample_report.
  destruct names as [|name0 names].
  - cbn. rewrite app_nil_r. now destruct w.
  - unfold bind at 1. cbn [logger.info logger.emit].
    unfold bind at 1. rewrite sample_loop_run.
    destruct (Nat.ltb 5 (length (name0 :: names)));
      unfold logger.info, logger.emit, add_log, ret, sample_name_lines;
      cbn [nodes log requests Nat.eqb length];
      rewrite <- ?app_assoc, ?app_nil_r; reflexivity.
Qed.

Lemma makedirs_raise_class (exist_ok : bool) (p : string) (w : World) (e : Exn) :
  (os.makedirs exist_ok p w).1 = Raise e -> any_OSError (exn_class e) = true.
Proof.
  assert (Hleaf : forall name w0,
             (os.makedirs_leaf exist_ok name w0).1 = Raise e ->
             any_OSError (exn_class e) = true).
  { intros name w0. unfold os.makedirs_leaf, try_clauses.
    destruct (mkdir_run name w0) as [(e0 & E & Hc) | (E & _)]; rewrite E;
      [| discriminate].
    cbn [dispatch]. rewrite Hc. unfold bind, os.path_isdir.
    destruct (negb exist_ok || negb (os.is_dir name w0)); cbn;
      [| discriminate].
    now intros [= <-]. }
  unfold os.makedirs. generalize (String.length p) as depth. intros depth.
  revert p w. induction depth as [|depth IH]; intros p w;
    cbn [os.makedirs_upto]; [apply Hleaf |].
  unfold bind at 1, os.path_exists.
  destruct (negb (PyStr.is_empty (PosixPath.split_twice p).1)
            && negb (PyStr.is_empty (PosixPath.split_twice p).2)
            && negb (os.exists_at (PosixPath.split_twice p).1 w));
    [| apply Hleaf].
  unfold bind, try_clauses. specialize (IH (PosixPath.split_twice p).1 w).
  destruct (os.makedirs_upto depth exist_ok (PosixPath.split_twice p).1 w)
    as [[[] | e0 |] w1]; cbn [fst snd] in *.
  - destruct (String.eqb (PosixPath.split_twice p).2 ".");
      [discriminate | apply Hleaf].
  - cbn [dispatch]. destruct (only_FileExistsError (exn_class e0)); cbn.
    + destruct (String.eqb (PosixPath.split_twice p).2 ".");
        [discriminate | apply Hleaf].
    + intros [= <-]. now apply IH.
  - discriminate.
Qed.

Section Extract.

Variable read_zip : list byte -> Exn + list Member.
Variable read_chars : list byte -> nat -> string.
Variable dir_size : string -> nat.
Variable config : DataIngestionConfig.

Local Abbreviation validate := (_validate_zip_file read_zip read_chars dir_size).
Local Abbreviation extract_block
  := (extract_try read_zip read_chars dir_size config).
Local Abbreviation extract
  := (extract_zip_file read_zip read_chars dir_size config).
Local Abbreviation outcome_of := (validation_outcome read_zip read_chars dir_size).
Local Abbreviation dest := (local_data_file config).
Local Abbreviation target := (unzip_dir config).

(** What the [except] clauses make of an exception of the [try] block:
    they log it and raise it again. *)
Lemma extract_raise (w w1 : World) (e : Exn) :
  extract_block w = (Raise e, w1) ->
  extract w
  = (Raise e,
     mkWorld (nodes w1) (log w1 ++ extract_failure_report e) (requests w1)).
Proof.
  intros H. unfold extract_zip_file, try_clauses. rewrite H.
  cbn [dispatch]. unfold extract_failure_report.
  destruct (only_BadZipFile (exn_class e)).
  - unfold bind, logger.error, logger.emit, raise, add_log.
    cbn [nodes log requests]. now rewrite <- ?app_assoc.
  - cbn [any_Exception]. reflexivity.
Qed.

Lemma extract_return (w w1 : World) :
  extract_block w = (Return tt, w1) -> extract w = (Return tt, w1).
Proof. intros H. unfold extract_zip_file, try_clauses. now rewrite H. Qed.

Lemma block_invalid (w w1 : World) (e : Exn) :
  validate dest w = (Raise e, w1) -> extract_block w = (Raise e, w1).
Proof. intros H. unfold extract_try, bind at 1. now rewrite H. Qed.

(** The run of the validation on a file that passes it. *)
Lemma validate_valid (w : World) (content : list byte) :
  files w !! dest = Some content ->
  outcome_of dest content = Return true ->
  exists members,
    read_zip content = inr members
    /\ validate dest w
       = (Return true,
          add_log INFO ("ZIP file is valid with "
                        +:+ PyStr.str_of_nat (length members) +:+ " files") w).
Proof.
  intros Hf Ho.
  destruct (outcome_return_valid read_zip read_chars dir_size _ _ _ Ho)
    as (_ & Hne & Hhtml & Hpk & members & Hz).
  exists members. split; [exact Hz |].
  rewrite (validate_file_eq _ _ _ _ _ _ Hf). unfold file_verdict.
  rewrite Hhtml, Hpk, Hz.
  destruct content; [congruence | reflexivity].
Qed.

(** The [try] block when [os.makedirs] refuses the target directory. *)
Lemma block_refused (w w1 : World) (e : Exn) (l : Level) (msg : string) :
  validate dest w = (Return true, add_log l msg w) ->
  (os.makedirs true target w).1 = Raise e ->
  extract_block w
  = (Raise e, add_log l msg (os.makedirs true target w).2).
Proof.
  intros Hv Hm. unfold extract_try, bind at 1. rewrite Hv.
  unfold bind at 1.
  rewrite (fs_only_add_log _ _ _ _ (fs_only_makedirs true target)), Hm.
  reflexivity.
Qed.

(** The [try] block on a file that passes validation, with a target
    directory that can be made: it ends as [extractall] ends. *)
Lemma block_run (w : World) (content : list byte) (members : list Member) :
  files w !! dest = Some content ->
  read_zip content = inr members ->
  validate dest w
  = (Return true,
     add_log INFO ("ZIP file is valid with "
                   +:+ PyStr.str_of_nat (length members) +:+ " files") w) ->
  makedirs_ok target w ->
  exists w',
    extract_block w
    = ((extractall members target (os.makedirs true target w).2).1, w')
    /\ nodes w' = nodes (extractall members target (os.makedirs true target w).2).2
    /\ requests w' = requests w
    /\ log w'
       = log w
         ++ [(INFO, "ZIP file is valid with "
                    +:+ PyStr.str_of_nat (length members) +:+ " files");
             (INFO, "Extracting ZIP file to: " +:+ target);
             (INFO, "Extracting " +:+ PyStr.str_of_nat (length (namelist members))
                    +:+ " files...")]
         ++ match (extractall members target (os.makedirs true target w).2).1 with
            | Return _ =>
                sample_report (namelist members)
                ++ [(INFO, "ZIP extraction completed successfully!")]
            | _ => []
            end.
Proof.
  intros Hf Hz Hv Hok.
  destruct (makedirs_grown true target w) as [Hg _].
  pose proof (grown_files _ _ _ Hg) as Hfiles.
  destruct Hg as (Hlog & Hreq & _).
  unfold makedirs_ok in Hok.
  destruct (fs_only_frame (extractall members target)
              (os.makedirs true target w).2 (fs_only_extractall _ _))
    as [Hxl Hxq].
  unfold extract_try, bind at 1. rewrite Hv.
  unfold bind at 1.
  rewrite (fs_only_add_log _ _ _ _ (fs_only_makedirs true target)), Hok.
  unfold bind at 1. cbn [logger.info logger.emit].
  unfold bind at 1, zip_open, bind at 1, os.open_read.
  cbn [nodes add_log].
  assert (Hn : nodes (os.makedirs true target w).2 !! dest = Some (File content)).
  { apply files_lookup_Some. now rewrite Hfiles. }
  rewrite Hn, Hz. cbn [ret].
  unfold bind at 1. cbn [logger.info logger.emit].
  unfold bind at 1.
  rewrite !(fs_only_add_log _ _ _ _ (fs_only_extractall members target)).
  destruct (extractall members target (os.makedirs true target w).2)
    as [[[] | e |] wx]; cbn [fst snd] in *.
  - unfold bind at 1. rewrite log_samples_run.
    cbn [logger.info logger.emit]. eexists. split; [reflexivity |].
    cbn. split; [reflexivity |]. split; [congruence |].
    rewrite Hxl, Hlog. now rewrite <- !app_assoc.
  - eexists. split; [reflexivity |]. cbn. split; [reflexivity |].
    split; [congruence |]. rewrite Hxl, Hlog. now rewrite <- !app_assoc.
  - eexists. split; [reflexivity |]. cbn. split; [reflexivity |].
    split; [congruence |]. rewrite Hxl, Hlog. now rewrite <- !app_assoc.
Qed.

Lemma zip_open_frame (p : string) (w : World) :
  nodes (zip_open read_zip p w).2 = nodes w
  /\ requests (zip_open read_zip p w).2 = requests w.
Proof.
  unfold zip_open, bind, os.open_read.
  destruct (nodes w !! p) as [[content|]|]; cbn; auto.
  destruct (read_zip content); auto.
Qed.

(** However it ends, [extract_zip_file] does to the world what an
    extraction may do. *)
Lemma extract_extracting : extracting (fun _ => True) extract.
Proof.
  unfold extract_zip_file. apply extracting_try.
  - unfold extract_try.
    apply extracting_bind;
      [apply extracting_same; intros w;
       apply (validate_frame read_zip read_chars dir_size) |].
    intros _. apply extracting_bind; [apply extracting_makedirs |].
    intros _. apply extracting_bind; [apply extracting_emit |].
    intros _. apply extracting_bind;
      [apply extracting_same; intros w; apply zip_open_frame |].
    intros members. apply extracting_bind; [apply extracting_emit |].
    intros _. apply extracting_bind; [now apply extracting_extractall |].
    intros _. apply extracting_bind; [| intros _; apply extracting_emit].
    apply extracting_same. intros w. now rewrite log_samples_run.
  - repeat constructor; intros e; cbn [snd];
      repeat (apply extracting_bind; [apply extracting_emit | intros _]);
      apply extracting_raise.
Qed.

(** C9.  When the validation of the archive raises an exception, the
    call raises that exception, and the files and directories of the world
    are what they were: the target directory has not been made and no member
    has been written. *)
Theorem extract_invalid_leaves_disk (w : World) (e : Exn) :
  (validate dest w).1 = Raise e ->
  exists w',
    extract w = (Raise e, w')
    /\ files w' = files w
    /\ dirs w' = dirs w.
Proof.
  intros Hv.
  destruct (validate_frame read_zip read_chars dir_size dest w) as (Hn & _).
  destruct (validate dest w) as [r w1] eqn:E. cbn [fst snd] in *. subst r.
  rewrite (extract_raise w w1 e (block_invalid w w1 e E)).
  eexists. split; [reflexivity |]. unfold files, dirs. cbn [nodes].
  now rewrite Hn.
Qed.

(** C8, as amended.  On an archive that passes validation, with a target
    directory that can be made and members that [extractall] extracts
    without an error to targets that are all different,
    [extract_zip_file] returns;
    every member of the archive is then at the place [extractall] gives
    its name under the target directory, a directory for a name that ends
    in a slash and otherwise a file with the data of the member; and the
    log gains the count of names, one numbered line for each of the first
    [min n 5] names, counted from 1, and, when there are more than five,
    one line with the number [n - 5] of names left out. *)
Theorem extract_valid_archive (w : World) (rest : list byte)
    (members : list Member) :
  files w !! dest = Some (PyBytes.lit "PK" ++ rest) ->
  read_zip (PyBytes.lit "PK" ++ rest) = inr members ->
  makedirs_ok target w ->
  (extractall members target (os.makedirs true target w).2).1 = Return tt ->
  NoDup (map (member_target target) (namelist members)) ->
  exists (w' : World) (samples : list (Level * string)),
    extract w = (Return tt, w')
    /\ log w'
       = log w
         ++ [(INFO, "ZIP file is valid with "
                    +:+ PyStr.str_of_nat (length (namelist members)) +:+ " files");
             (INFO, "Extracting ZIP file to: " +:+ target);
             (INFO, "Extracting " +:+ PyStr.str_of_nat (length (namelist members))
                    +:+ " files...")]
         ++ (if Nat.eqb (length (namelist members)) 0 then []
             else [(INFO, "Sample extracted files:")])
         ++ samples
         ++ (if Nat.ltb 5 (length (namelist members))
             then [(INFO, "  ... and "
                          +:+ PyStr.str_of_nat (length (namelist members) - 5)
                          +:+ " more files")]
             else [])
         ++ [(INFO, "ZIP extraction completed successfully!")]
    /\ length samples = Nat.min (length (namelist members)) 5
    /\ (forall (i : nat) (name : string),
          i < 5 -> namelist members !! i = Some name ->
          samples !! i
          = Some (INFO, "  " +:+ PyStr.str_of_nat (S i) +:+ ". " +:+ name))
    /\ (forall member : Member,
          member ∈ members ->
          if is_dir_name (member_name member)
          then member_target target (member_name member) ∈ dirs w'
          else exists data,
                 member_payload member = Stored data
                 /\ files w' !! member_target target (member_name member)
                    = Some data).
Proof.
  intros Hf Hz Hok Hx Hnd.
  assert (Hv : validate dest w
               = (Return true,
                  add_log INFO ("ZIP file is valid with "
                                +:+ PyStr.str_of_nat (length members)
                                +:+ " files") w)).
  { rewrite (validate_file_eq _ _ _ _ _ _ Hf). unfold file_verdict.
    rewrite Hz. reflexivity. }
  destruct (block_run w _ members Hf Hz Hv Hok) as (w' & Hrun & Hn & _ & Hl).
  rewrite Hx in Hrun, Hl.
  exists w', (sample_name_lines (namelist members)).
  split; [exact (extract_return w w' Hrun) |].
  split; [| split; [| split]].
  - rewrite Hl. unfold sample_report, namelist. rewrite !length_map.
    now rewrite <- !app_assoc.
  - apply sample_name_lines_length.
  - intros i name. apply sample_name_lines_lookup.
  - intros member Hin.
    destruct (extractall members target (os.makedirs true target w).2)
      as [r wx] eqn:E. cbn [fst snd] in *. subst r.
    pose proof (extractall_in_place members target _ wx Hnd E member Hin) as Hp.
    destruct (is_dir_name (member_name member)).
    + apply elem_of_dirs. now rewrite Hn.
    + destruct Hp as (data & Hd & Hp). exists data. split; [exact Hd |].
      apply files_lookup_Some. now rewrite Hn.
Qed.

(** ** More on [extract_zip_file] *)

(** X12.  However it ends, and also when a member fails half way
    through the extraction, [extract_zip_file] removes nothing and asks the
    network for nothing: every file and every directory of the world is
    still there afterwards, and the list of requests is unchanged. *)
Theorem extract_removes_nothing (w : World) :
  (forall p, is_Some (files w !! p) -> is_Some (files (extract w).2 !! p))
  /\ (forall p, p ∈ dirs w -> p ∈ dirs (extract w).2)
  /\ requests (extract w).2 = requests w.
Proof.
  pose proof (extract_extracting w) as H. split; [| split].
  - intros p. now apply (extracted_files _ _ _ _ H).
  - intros p. apply (extracted_dirs _ _ _ H).
  - apply H.
Qed.

(** X13.  When the archive passes validation and [os.makedirs] refuses
    the target directory, the call raises what [os.makedirs] raised, reports
    it as a failed extraction, and writes no member: the files are as they
    were, and the directories are those [os.makedirs] left. *)
Theorem extract_target_refused (w w0 : World) (content : list byte) (e : Exn) :
  files w !! dest = Some content ->
  outcome_of dest content = Return true ->
  os.makedirs true target w = (Raise e, w0) ->
  exists (w' : World) (members : list Member),
    read_zip content = inr members
    /\ extract w = (Raise e, w')
    /\ files w' = files w
    /\ nodes w' = nodes w0
    /\ log w'
       = log w
         ++ [(INFO, "ZIP file is valid with "
                    +:+ PyStr.str_of_nat (length members) +:+ " files");
             (ERROR, "Extraction failed: " +:+ exn_msg e)].
Proof.
  intros Hf Ho Hm.
  destruct (validate_valid w content Hf Ho) as (members & Hz & Hv).
  assert (Hr : (os.makedirs true target w).1 = Raise e) by now rewrite Hm.
  pose proof (block_refused w w0 e _ _ Hv Hr) as Hb.
  rewrite (extract_raise _ _ _ Hb), Hm. cbn [snd].
  destruct (makedirs_grown true target w) as [Hg _]. rewrite Hm in Hg.
  cbn [snd] in Hg. pose proof (grown_files _ _ _ Hg) as Hfiles.
  destruct Hg as (Hlog & _).
  pose proof (makedirs_raise_class true target w e Hr) as Hc.
  exists (mkWorld (nodes (add_log INFO
                             ("ZIP file is valid with "
                              +:+ PyStr.str_of_nat (length members) +:+ " files")
                             w0))
            (log (add_log INFO
                    ("ZIP file is valid with "
                     +:+ PyStr.str_of_nat (length members) +:+ " files") w0)
             ++ extract_failure_report e)
            (requests (add_log INFO
                         ("ZIP file is valid with "
                          +:+ PyStr.str_of_nat (length members) +:+ " files")
                         w0))), members.
  split; [exact Hz |]. split; [reflexivity |].
  split; [exact Hfiles |]. split; [reflexivity |].
  cbn [log add_log]. rewrite Hlog. unfold extract_failure_report.
  destruct (exn_class e); try discriminate Hc; cbn [only_BadZipFile];
    now rewrite <- app_assoc.
Qed.

(** X14.  An exception of the validation is reported by one handler only: a
    [BadZipFile] by the five lines that name the possible causes, and not as
    a failed extraction, and an exception of any other class by the one
    line of the failed extraction. *)
Theorem extract_reports_by_class (w w1 : World) (e : Exn) :
  validate dest w = (Raise e, w1) ->
  exists w',
    extract w = (Raise e, w')
    /\ (exn_class e = BadZipFile ->
        log w'
        = log w1
          ++ [(ERROR, "ZIP file error: " +:+ exn_msg e);
              (ERROR, "Possible causes:");
              (ERROR, "1. Downloaded file is corrupted");
              (ERROR, "2. Wrong URL (downloaded HTML instead of ZIP)");
              (ERROR, "3. File is not actually a ZIP file")])
    /\ (exn_class e <> BadZipFile ->
        log w' = log w1 ++ [(ERROR, "Extraction failed: " +:+ exn_msg e)]).
Proof.
  intros Hv. rewrite (extract_raise w w1 e (block_invalid w w1 e Hv)).
  eexists. split; [reflexivity |]. cbn [log]. unfold extract_failure_report.
  split; intros Hc.
  - now rewrite Hc.
  - destruct (exn_class e); try reflexivity. congruence.
Qed.

(** X18.  When a member fails half way through [extractall], the call
    raises what [extractall] raised and reports it, and what was extracted
    before the failure stays where it is: the file system is the one
    [extractall] left. *)
Theorem extract_failure_keeps_extracted (w : World) (content : list byte)
    (members : list Member) (e : Exn) :
  files w !! dest = Some content ->
  outcome_of dest content = Return true ->
  read_zip content = inr members ->
  makedirs_ok target w ->
  (extractall members target (os.makedirs true target w).2).1 = Raise e ->
  exists w',
    extract w = (Raise e, w')
    /\ nodes w'
       = nodes (extractall members target (os.makedirs true target w).2).2
    /\ log w'
       = log w
         ++ [(INFO, "ZIP file is valid with "
                    +:+ PyStr.str_of_nat (length members) +:+ " files");
             (INFO, "Extracting ZIP file to: " +:+ target);
             (INFO, "Extracting " +:+ PyStr.str_of_nat (length (namelist members))
                    +:+ " files...")]
         ++ extract_failure_report e.
Proof.
  intros Hf Ho Hz Hok Hx.
  destruct (validate_valid w content Hf Ho) as (members' & Hz' & Hv).
  assert (members' = members) by congruence. subst members'.
  destruct (block_run w _ members Hf Hz Hv Hok) as (w1 & Hrun & Hn & _ & Hl).
  rewrite Hx in Hrun, Hl. rewrite (extract_raise _ _ _ Hrun).
  eexists. split; [reflexivity |]. cbn [nodes log].
  split; [exact Hn |]. rewrite Hl, app_nil_r. now rewrite <- !app_assoc.
Qed.

End Extract.

(** ** [download_file], then [extract_zip_file] *)

Section Pipeline.

Variable read_zip : list byte -> Exn + list Member.
Variable urlretrieve_response : nat -> string -> Response.
Variable get_size : nat -> string.
Variable read_chars : list byte -> nat -> string.
Variable dir_size : string -> nat.
Variable config : DataIngestionConfig.

Local Abbreviation extract
  := (extract_zip_file read_zip read_chars dir_size config).
Local Abbreviation target := (unzip_dir config).

(** X11.  After [download_file] has returned, [extract_zip_file] finds an
    archive that passes its validation: when the target directory can be
    made, the call ends as [extractall] on the members of the downloaded
    archive ends, and asks the network for nothing; and when [extractall]
    returns, with targets that are all different, every member is at its
    place under the target directory. *)
Theorem download_then_extract (fuel : nat) (w w' : World) (a : unit) :
  download_file read_zip urlretrieve_response get_size read_chars dir_size
    config fuel w = (Return a, w') ->
  makedirs_ok target w' ->
  exists (content : list byte) (members : list Member),
    files w' !! local_data_file config = Some content
    /\ read_zip content = inr members
    /\ (extract w').1
       = (extractall members target (os.makedirs true target w').2).1
    /\ requests (extract w').2 = requests w'
    /\ ((extract w').1 = Return tt ->
        NoDup (map (member_target target) (namelist members)) ->
        forall member : Member,
          member ∈ members ->
          if is_dir_name (member_name member)
          then member_target target (member_name member) ∈ dirs (extract w').2
          else exists data,
                 member_payload member = Stored data
                 /\ files (extract w').2 !! member_target target (member_name member)
                    = Some data).
Proof.
  intros Hd Hok.
  destruct (download_return_valid read_zip urlretrieve_response get_size
              read_chars dir_size config fuel w w' a Hd) as (content & Hf & Ho).
  destruct (validate_valid read_zip read_chars dir_size config w' content Hf Ho)
    as (members & Hz & Hv).
  destruct (block_run read_zip read_chars dir_size config w' content members
              Hf Hz Hv Hok) as (w1 & Hrun & Hn & Hq & _).
  exists content, members. split; [exact Hf |]. split; [exact Hz |].
  destruct (extractall members target (os.makedirs true target w').2)
    as [[[] | e |] wx] eqn:E; cbn [fst snd] in *.
  - rewrite (extract_return _ _ _ _ _ _ Hrun). cbn [fst snd].
    split; [reflexivity |]. split; [exact Hq |].
    intros _ Hnd member Hin.
    pose proof (extractall_in_place members target _ wx Hnd E member Hin) as Hp.
    destruct (is_dir_name (member_name member)).
    + apply elem_of_dirs. now rewrite Hn.
    + destruct Hp as (data & Hdata & Hp). exists data. split; [exact Hdata |].
      apply files_lookup_Some. now rewrite Hn.
  - rewrite (extract_raise _ _ _ _ _ _ _ Hrun). cbn [fst snd requests].
    split; [reflexivity |]. split; [exact Hq |]. discriminate.
  - unfold extract_zip_file, try_clauses. rewrite Hrun. cbn [fst snd].
    split; [reflexivity |]. split; [exact Hq |]. discriminate.
Qed.

End Pipeline.

(** ** [_fix_github_url], once more *)

Lemma agree_false_not_prefix (pat x t : string) :
  agree pat x = false -> PyStr.startswith (x +:+ t) pat = false.
Proof.
  unfold PyStr.startswith. revert x.
  induction pat as [|a pat IH]; intros x H; [discriminate H |].
  destruct x as [|b x]; [discriminate H |].
  cbn [agree] in H. cbn [String.append String.prefix].
  destruct (ascii_dec a b) as [-> | Hne]; [| reflexivity].
  rewrite Ascii.eqb_refl in H. now apply IH.
Qed.

Lemma starts_nowhere_in_end (pat X k k' : string) :
  starts_nowhere_in pat X = true ->
  X = k +:+ k' -> k' <> EmptyString ->
  agree pat k' = false.
Proof.
  revert X. induction k as [|c k IH]; intros X H -> Hne.
  - destruct k' as [|d k']; [congruence |].
    cbn [String.append starts_nowhere_in] in H.
    apply andb_true_iff in H as [H _]. now apply negb_true_iff in H.
  - cbn [String.append starts_nowhere_in] in H.
    apply andb_true_iff in H as [_ H]. exact (IH _ H eq_refl Hne).
Qed.

(** An occurrence of [pat] in a string around [X] lies on one side of [X],
    when [pat] does not hold the first character of [X] and cannot start
    inside [X]. *)
Lemma occurrence_outside (X pat pre tail a b : string) (x0 : ascii)
    (X' : string) :
  X = String x0 X' ->
  has_char x0 pat = false ->
  starts_nowhere_in pat X = true ->
  pre +:+ X +:+ tail = a +:+ pat +:+ b ->
  (exists c, pre = a +:+ pat +:+ c)
  \/ (exists a', a = pre +:+ X +:+ a' /\ tail = a' +:+ pat +:+ b).
Proof.
  intros HX Hx Hin H.
  destruct (str_app_eq_inv _ _ _ _ H) as [[k [-> Hk]] | [k [-> Hk]]].
  - destruct (str_app_eq_inv _ _ _ _ Hk) as [[k' [Hk1 Hk2]] | [k' [-> _]]].
    + destruct k' as [|y k'].
      * rewrite str_app_nil_r in Hk1. subst k. left. exists EmptyString.
        now rewrite str_app_nil_r.
      * exfalso. rewrite HX in Hk2. simpl in Hk2. injection Hk2 as <- _.
        rewrite Hk1, has_char_app, has_char_head, orb_true_r in Hx.
        discriminate.
    + left. exists k'. reflexivity.
  - symmetry in Hk.
    destruct (str_app_eq_inv _ _ _ _ Hk) as [[k' [-> Hk2]] | [k' [Hk1 Hk2]]].
    + right. exists k'. split; [reflexivity | exact Hk2].
    + destruct k' as [|y k'].
      * rewrite str_app_nil_r in Hk1. subst k. right. exists EmptyString.
        split; [now rewrite str_app_nil_r | now rewrite Hk2].
      * exfalso.
        assert (Hag : agree pat (String y k') = false)
          by (apply (starts_nowhere_in_end pat X k); [exact Hin | exact Hk1 | discriminate]).
        pose proof (agree_false_not_prefix pat (String y k') tail Hag) as Hno.
        assert (Hyes : PyStr.startswith (String y k' +:+ tail) pat = true)
          by (apply startswith_spec; exists b; now rewrite Hk2).
        congruence.
Qed.

(** After [old] has been replaced by [new], [old] occurs no more, when
    [new] brings no occurrence of [old] with it. *)
Lemma replaced_clears (old new : string) (n0 : ascii) (new' : string) :
  new = String n0 new' ->
  has_char n0 old = false ->
  starts_nowhere_in old new = true ->
  old <> EmptyString ->
  forall s out, replaced old new s out -> ~ occurs old out.
Proof.
  intros Hnew Hn0 Hin Hne s out Hrep.
  induction Hrep as [s Hno | pre rest out Hleft Hrep IH]; [exact Hno |].
  intros (a & b & H).
  destruct (occurrence_outside new old pre out a b n0 new' Hnew Hn0 Hin H)
    as [[c Hc] | [a' [_ Ha']]].
  - specialize (Hleft a (c +:+ old +:+ rest)).
    rewrite Hc, !str_app_assoc in Hleft. specialize (Hleft eq_refl).
    rewrite !str_length_app in Hleft.
    destruct old; [congruence | simpl in Hleft; lia].
  - apply IH. exists a', b. exact Ha'.
Qed.

(** A replacement by [new] brings no occurrence of [pat] into a string
    that has none, when [new] cannot be part of one. *)
Lemma replaced_keeps_absent (old new pat : string) (n0 : ascii) (new' : string) :
  new = String n0 new' ->
  has_char n0 pat = false ->
  starts_nowhere_in pat new = true ->
  forall s out, replaced old new s out -> ~ occurs pat s -> ~ occurs pat out.
Proof.
  intros Hnew Hn0 Hin s out Hrep.
  induction Hrep as [s Hno | pre rest out Hleft Hrep IH]; [auto |].
  intros Habs (a & b & H).
  destruct (occurrence_outside new pat pre out a b n0 new' Hnew Hn0 Hin H)
    as [[c Hc] | [a' [_ Ha']]].
  - apply Habs. exists a, (c +:+ old +:+ rest).
    now rewrite Hc, !str_app_assoc.
  - apply IH; [| exists a', b; exact Ha'].
    intros (x & y & Hxy). apply Habs.
    exists (pre +:+ old +:+ x), y. now rewrite Hxy, !str_app_assoc.
Qed.

(** X15.  A URL that [_fix_github_url] has rewritten holds [github.com] no
    more, so the function changes nothing when it is applied to its own
    result: it returns it as it is and logs nothing. *)
Theorem fix_github_url_idempotent (url : string) (w : World) :
  (occurs "github.com" url -> occurs "/blob/" url ->
   ~ occurs "github.com" (normalized_url url))
  /\ _fix_github_url (normalized_url url) w = (Return (normalized_url url), w).
Proof.
  assert (Hclear : PyStr.contains "github.com" url
                   && PyStr.contains "/blob/" url = true ->
                   ~ occurs "github.com" (normalized_url url)).
  { intros E. unfold normalized_url, _fix_github_url. rewrite E. cbn [fst bind].
    cbn -[PyStr.replace].
    apply (replaced_keeps_absent "/blob/" "/" "github.com" _ _ eq_refl
             eq_refl eq_refl _ _
             (replace_replaced "/blob/" "/" ltac:(discriminate) _)).
    apply (replaced_clears "github.com" "raw.githubusercontent.com" _ _ eq_refl
             eq_refl eq_refl ltac:(discriminate) _ _
             (replace_replaced "github.com" "raw.githubusercontent.com"
                ltac:(discriminate) url)). }
  split.
  - intros H1 H2. apply Hclear.
    apply contains_spec in H1. apply contains_spec in H2. now rewrite H1, H2.
  - destruct (PyStr.contains "github.com" url && PyStr.contains "/blob/" url)
      eqn:E.
    + specialize (Hclear eq_refl).
      assert (Hc : PyStr.contains "github.com" (normalized_url url) = false).
      { destruct (PyStr.contains "github.com" (normalized_url url)) eqn:Hc;
          [| reflexivity].
        exfalso. apply Hclear. now apply contains_spec. }
      unfold _fix_github_url at 1. rewrite Hc. reflexivity.
    + assert (Hid : normalized_url url = url)
        by (unfold normalized_url, _fix_github_url; now rewrite E).
      rewrite Hid. unfold _fix_github_url. now rewrite E.
Qed.

(** ** The theorems at work in the concrete environment *)

Lemma validate_check_order_witness :
  files (world_with []) !! local_data_file demo_config = Some []
  /\ demo_validate (local_data_file demo_config) (world_with [])
     = (Raise (mkExn ValueError "Downloaded file is empty"), world_with [])
  /\ files (world_with demo_html) !! local_data_file demo_config = Some demo_html
  /\ demo_read_zip demo_members demo_html = inr demo_members
  /\ (demo_validate (local_data_file demo_config) (world_with demo_html)).1
     = Raise (mkExn ValueError
                "Downloaded HTML page instead of ZIP file. Check the URL.").
Proof.
  assert (H1 : files (world_with []) !! local_data_file demo_config = Some [])
    by reflexivity.
  assert (H2 : files (world_with demo_html) !! local_data_file demo_config
               = Some demo_html) by reflexivity.
  split; [exact H1 |]. split.
  - exact (proj1 (validate_check_order (demo_read_zip demo_members) demo_text
                    demo_dir_size (local_data_file demo_config) (world_with []))
             H1).
  - split; [exact H2 |]. split; [reflexivity |].
    unfold demo_validate.
    rewrite (proj2 (validate_check_order (demo_read_zip demo_members) demo_text
                      demo_dir_size (local_data_file demo_config)
                      (world_with demo_html))
               demo_html
               (PyBytes.lit " html><html>PK-0123456789-0123456789</html>")
               H2 (or_introl eq_refl)).
    reflexivity.
Defined.

Lemma validate_accepts_archive_witness :
  files (world_with demo_archive) !! local_data_file demo_config
  = Some (PyBytes.lit "PK" ++ PyBytes.lit "-0123456789-0123456789-01234")
  /\ demo_read_zip demo_members
       (PyBytes.lit "PK" ++ PyBytes.lit "-0123456789-0123456789-01234")
     = inr demo_members
  /\ demo_validate (local_data_file demo_config) (world_with demo_archive)
     = (Return true,
        add_log INFO "ZIP file is valid with 7 files" (world_with demo_archive)).
Proof.
  assert (H1 : files (world_with demo_archive) !! local_data_file demo_config
               = Some (PyBytes.lit "PK" ++ PyBytes.lit "-0123456789-0123456789-01234"))
    by reflexivity.
  assert (H2 : demo_read_zip demo_members
                 (PyBytes.lit "PK" ++ PyBytes.lit "-0123456789-0123456789-01234")
               = inr demo_members) by reflexivity.
  split; [exact H1 |]. split; [exact H2 |].
  exact (validate_accepts_archive (demo_read_zip demo_members) demo_text
           demo_dir_size (local_data_file demo_config) (world_with demo_archive)
           _ _ H1 H2).
Defined.

Lemma validate_short_file_witness :
  files (world_with (PyBytes.lit "x")) !! local_data_file demo_config
  = Some (PyBytes.lit "x")
  /\ 0 < length (PyBytes.lit "x") < 100
  /\ demo_validate (local_data_file demo_config) (world_with (PyBytes.lit "x"))
     = (Raise (mkExn ValueError "File is not a ZIP file. First bytes: 78"),
        world_with (PyBytes.lit "x")).
Proof.
  assert (H1 : files (world_with (PyBytes.lit "x")) !! local_data_file demo_config
               = Some (PyBytes.lit "x")) by reflexivity.
  assert (H2 : 0 < length (PyBytes.lit "x") < 100) by (simpl; lia).
  split; [exact H1 |]. split; [exact H2 |].
  exact (proj1 (proj2 (validate_short_file (demo_read_zip demo_members) demo_text
                         demo_dir_size
                         (local_data_file demo_config) (world_with (PyBytes.lit "x"))
                         (PyBytes.lit "x") H1 H2 eq_refl eq_refl))).
Defined.

(** C3, as stated, fails: the five kinds are not five exception classes.
    The empty file and the HTML page fail different checks and are both
    refused with a [ValueError]. *)
Lemma empty_and_html_share_ValueError :
  ~ kinds_have_own_class (demo_read_zip demo_members) demo_text demo_dir_size.
Proof.
  intros H.
  apply (H (local_data_file demo_config) (world_with []) (world_with demo_html)
           (mkExn ValueError "Downloaded file is empty")
           (mkExn ValueError
              "Downloaded HTML page instead of ZIP file. Check the URL.")
           EmptyFileError WrongContentTypeError);
    try reflexivity.
  discriminate.
Qed.

Lemma download_fresh_no_retry_witness :
  os.exists_at (local_data_file demo_config) root_world = false
  /\ makedirs_ok (PosixPath.dirname (local_data_file demo_config)) root_world
  /\ demo_serve demo_html (length (requests root_world))
       (normalized_url (source_URL demo_config))
     = Fetched demo_html "Content-Type: application/octet-stream"
  /\ validation_outcome (demo_read_zip demo_members) demo_text demo_dir_size
       (local_data_file demo_config) demo_html
     = Raise (mkExn ValueError
                "Downloaded HTML page instead of ZIP file. Check the URL.")
  /\ exists w',
       demo_download (demo_serve demo_html) 1 root_world
       = (Raise (mkExn ValueError
                   "Downloaded HTML page instead of ZIP file. Check the URL."), w')
       /\ requests w'
          = ["https://raw.githubusercontent.com/org/repo/main/data.zip"]
       /\ os.exists_at (local_data_file demo_config) w' = false.
Proof.
  assert (H1 : os.exists_at (local_data_file demo_config) root_world = false)
    by reflexivity.
  assert (H2 : makedirs_ok (PosixPath.dirname (local_data_file demo_config))
                 root_world) by (vm_compute; reflexivity).
  assert (H3 : demo_serve demo_html (length (requests root_world))
                 (normalized_url (source_URL demo_config))
               = Fetched demo_html "Content-Type: application/octet-stream")
    by reflexivity.
  assert (H4 : validation_outcome (demo_read_zip demo_members) demo_text
                 demo_dir_size (local_data_file demo_config) demo_html
               = Raise (mkExn ValueError
                          "Downloaded HTML page instead of ZIP file. Check the URL."))
    by reflexivity.
  split; [exact H1 |]. split; [exact H2 |]. split; [exact H3 |].
  split; [exact H4 |].
  exact (proj1 (download_fresh_no_retry (demo_read_zip demo_members)
                  (demo_serve demo_html) demo_get_size demo_text demo_dir_size
                  demo_config root_world demo_html _ _ H1 H2 H3 H4)).
Defined.

Lemma download_retries_once_witness :
  files (world_with (PyBytes.lit "x")) !! local_data_file demo_config
  = Some (PyBytes.lit "x")
  /\ validation_outcome (demo_read_zip demo_members) demo_text demo_dir_size
       (local_data_file demo_config) (PyBytes.lit "x")
     = Raise (mkExn ValueError "File is not a ZIP file. First bytes: 78")
  /\ (demo_download (demo_serve demo_html) 1 (world_with (PyBytes.lit "x"))).1
     = OutOfFuel
  /\ (demo_download (demo_serve demo_html) 2 (world_with (PyBytes.lit "x"))).1
     = Raise (mkExn ValueError
                "Downloaded HTML page instead of ZIP file. Check the URL.")
  /\ requests
       (demo_download (demo_serve demo_html) 2 (world_with (PyBytes.lit "x"))).2
     = ["https://raw.githubusercontent.com/org/repo/main/data.zip"].
Proof.
  assert (H1 : files (world_with (PyBytes.lit "x")) !! local_data_file demo_config
               = Some (PyBytes.lit "x")) by reflexivity.
  assert (H2 : validation_outcome (demo_read_zip demo_members) demo_text
                 demo_dir_size (local_data_file demo_config) (PyBytes.lit "x")
               = Raise (mkExn ValueError "File is not a ZIP file. First bytes: 78"))
    by reflexivity.
  split; [exact H1 |]. split; [exact H2 |].
  destruct (download_retries_once (demo_read_zip demo_members)
              (demo_serve demo_html) demo_get_size demo_text demo_dir_size
              demo_config (world_with (PyBytes.lit "x")) _ _ H1 H2 eq_refl)
    as (w_del & Hone & Hfd & Hgone & Hqd & r & w' & Hall & _ & _ & Hreq & _ & _
        & Hsecond).
  assert (Hw : w_del
               = (demo_download (demo_serve demo_html) 1
                    (world_with (PyBytes.lit "x"))).2)
    by (unfold demo_download; now rewrite Hone).
  assert (Hok : makedirs_ok (PosixPath.dirname (local_data_file demo_config)) w_del)
    by (rewrite Hw; vm_compute; reflexivity).
  unfold demo_download.
  split; [now rewrite Hone |].
  rewrite (Hall 0). cbn [fst snd].
  split.
  - exact (Hsecond demo_html "Content-Type: application/octet-stream" _ Hok
             eq_refl eq_refl).
  - exact (Hreq Hok).
Defined.


(** With a directory for which [stat] reports the size 0, the validation
    raises the [ValueError] of the empty file, and what reaches the caller
    is the [IsADirectoryError] of [os.remove]. *)
Example directory_failure_replaces_exception :
  (_validate_zip_file (demo_read_zip demo_members) demo_text (fun _ => 0)
     (local_data_file demo_config) world_with_directory).1
  = Raise (mkExn ValueError "Downloaded file is empty")
  /\ (download_file (demo_read_zip demo_members) demo_refuse demo_get_size
        demo_text (fun _ => 0) demo_config 2 world_with_directory).1
     = Raise (os.eisdir (local_data_file demo_config))
  /\ os.exists_at (local_data_file demo_config)
       (download_file (demo_read_zip demo_members) demo_refuse demo_get_size
          demo_text (fun _ => 0) demo_config 2 world_with_directory).2
     = true.
Proof. vm_compute. repeat split; reflexivity. Qed.


Lemma extract_invalid_leaves_disk_witness :
  (demo_validate (local_data_file demo_config) (world_with [])).1
  = Raise (mkExn ValueError "Downloaded file is empty")
  /\ exists w',
       demo_extract (world_with [])
       = (Raise (mkExn ValueError "Downloaded file is empty"), w')
       /\ files w' = files (world_with [])
       /\ dirs w' = dirs (world_with []).
Proof.
  assert (H : (demo_validate (local_data_file demo_config) (world_with [])).1
              = Raise (mkExn ValueError "Downloaded file is empty"))
    by reflexivity.
  split; [exact H |].
  exact (extract_invalid_leaves_disk (demo_read_zip demo_members) demo_text
           demo_dir_size demo_config (world_with []) _ H).
Defined.

Lemma extract_valid_archive_witness :
  files (world_with demo_archive) !! local_data_file demo_config
  = Some (PyBytes.lit "PK" ++ PyBytes.lit "-0123456789-0123456789-01234")
  /\ demo_read_zip demo_members
       (PyBytes.lit "PK" ++ PyBytes.lit "-0123456789-0123456789-01234")
     = inr demo_members
  /\ makedirs_ok (unzip_dir demo_config) (world_with demo_archive)
  /\ (extractall demo_members (unzip_dir demo_config)
        (os.makedirs true (unzip_dir demo_config) (world_with demo_archive)).2).1
     = Return tt
  /\ NoDup (map (member_target (unzip_dir demo_config)) (namelist demo_members))
  /\ exists (w' : World) (samples : list (Level * string)),
       demo_extract (world_with demo_archive) = (Return tt, w')
       /\ length samples = 5
       /\ log w'
          = [(INFO, "ZIP file is valid with 7 files");
             (INFO, "Extracting ZIP file to: /tmp/out");
             (INFO, "Extracting 7 files...");
             (INFO, "Sample extracted files:")]
            ++ samples
            ++ [(INFO, "  ... and 2 more files");
                (INFO, "ZIP extraction completed successfully!")]
       /\ samples !! 0 = Some (INFO, "  1. a.txt")
       /\ samples !! 4 = Some (INFO, "  5. d/e.txt")
       /\ (exists data,
             Stored (PyBytes.lit "E") = Stored data
             /\ files w' !! "/tmp/out/d/e.txt" = Some data)
       /\ "/tmp/out/d" ∈ dirs w'.
Proof.
  assert (H1 : files (world_with demo_archive) !! local_data_file demo_config
               = Some (PyBytes.lit "PK" ++ PyBytes.lit "-0123456789-0123456789-01234"))
    by reflexivity.
  assert (H2 : demo_read_zip demo_members
                 (PyBytes.lit "PK" ++ PyBytes.lit "-0123456789-0123456789-01234")
               = inr demo_members) by reflexivity.
  assert (H3 : makedirs_ok (unzip_dir demo_config) (world_with demo_archive))
    by (vm_compute; reflexivity).
  assert (H4 : (extractall demo_members (unzip_dir demo_config)
                  (os.makedirs true (unzip_dir demo_config)
                     (world_with demo_archive)).2).1 = Return tt)
    by (vm_compute; reflexivity).
  assert (H5 : NoDup (map (member_target (unzip_dir demo_config))
                        (namelist demo_members)))
    by (apply (bool_decide_unpack _); vm_compute; exact I).
  split; [exact H1 |]. split; [exact H2 |]. split; [exact H3 |].
  split; [exact H4 |]. split; [exact H5 |].
  destruct (extract_valid_archive (demo_read_zip demo_members) demo_text
              demo_dir_size demo_config (world_with demo_archive) _ _
              H1 H2 H3 H4 H5)
    as (w' & samples & Hrun & Hlog & Hlen & Hlook & Hdisk).
  exists w', samples.
  split; [exact Hrun |]. split; [exact Hlen |]. split; [exact Hlog |].
  split; [exact (Hlook 0 "a.txt" ltac:(lia) eq_refl) |].
  split; [exact (Hlook 4 "d/e.txt" ltac:(lia) eq_refl) |].
  split.
  - exact (Hdisk (mkMember "d/e.txt" (Stored (PyBytes.lit "E")))
             ltac:(repeat constructor)).
  - exact (Hdisk (mkMember "d/" (Stored [])) ltac:(repeat constructor)).
Defined.

(** C8, as stated, fails: an entry whose name climbs out of the archive
    is not extracted at its own relative path.  [extractall] drops the
    [..] of the name, so the file is under the target directory and not
    where the name points. *)
Lemma climbing_entry_loses_its_path :
  ~ entries_keep_their_paths (demo_read_zip climbing_members) demo_text
      demo_dir_size.
Proof.
  intros H.
  destruct (H demo_config (world_with demo_archive) demo_archive
              climbing_members)
    as (w' & Hrun & Hall);
    [reflexivity | reflexivity | reflexivity | vm_compute; reflexivity |].
  specialize (Hall "../evil.txt" (PyBytes.lit "E")
                ltac:(repeat constructor) eq_refl).
  assert (Hw : w' = (extract_zip_file (demo_read_zip climbing_members)
                       demo_text demo_dir_size demo_config
                       (world_with demo_archive)).2)
    by now rewrite Hrun.
  rewrite Hw in Hall. vm_compute in Hall. discriminate Hall.
Qed.

Example climbing_entry_lands_in_the_target :
  files (extract_zip_file (demo_read_zip climbing_members) demo_text
           demo_dir_size demo_config (world_with demo_archive)).2
  !! "/tmp/out/evil.txt" = Some (PyBytes.lit "E")
  /\ member_target "/tmp/out" "../evil.txt" = "/tmp/out/evil.txt"
  /\ member_target "/tmp/out" "/etc/passwd" = "/tmp/out/etc/passwd".
Proof. vm_compute. repeat split; reflexivity. Qed.

(** ** The further properties at work in the concrete environment *)

Lemma validate_corrupt_archive_witness :
  files (world_with demo_truncated) !! local_data_file demo_config
  = Some (PyBytes.lit "PK" ++ PyBytes.lit "x")
  /\ demo_read_zip demo_members (PyBytes.lit "PK" ++ PyBytes.lit "x")
     = inl (mkExn BadZipFile "File is not a zip file")
  /\ demo_validate (local_data_file demo_config) (world_with demo_truncated)
     = (Raise (mkExn BadZipFile "Corrupted ZIP file: File is not a zip file"),
        world_with demo_truncated).
Proof.
  assert (H1 : files (world_with demo_truncated) !! local_data_file demo_config
               = Some (PyBytes.lit "PK" ++ PyBytes.lit "x")) by reflexivity.
  assert (H2 : demo_read_zip demo_members (PyBytes.lit "PK" ++ PyBytes.lit "x")
               = inl (mkExn BadZipFile "File is not a zip file")) by reflexivity.
  split; [exact H1 |]. split; [exact H2 |].
  exact (validate_corrupt_archive (demo_read_zip demo_members) demo_text
           demo_dir_size (local_data_file demo_config)
           (world_with demo_truncated) _ _ H1 H2).
Defined.

Lemma validate_unsigned_file_witness :
  files (world_with demo_plain) !! local_data_file demo_config = Some demo_plain
  /\ demo_plain <> []
  /\ html_signature demo_plain = false
  /\ pk_signature demo_plain = false
  /\ demo_validate (local_data_file demo_config) (world_with demo_plain)
     = (Raise (mkExn ValueError
                 ("File is not a ZIP file. First bytes: "
                  +:+ "706c61696e20746578742c207769746820504b20")),
        world_with demo_plain).
Proof.
  assert (H1 : files (world_with demo_plain) !! local_data_file demo_config
               = Some demo_plain) by reflexivity.
  assert (H2 : demo_plain <> []) by discriminate.
  split; [exact H1 |]. split; [exact H2 |].
  split; [reflexivity |]. split; [reflexivity |].
  exact (proj1 (validate_unsigned_file (demo_read_zip demo_members) demo_text
                  demo_dir_size (local_data_file demo_config)
                  (world_with demo_plain) demo_plain H1 H2 eq_refl eq_refl)).
Defined.

Lemma validate_passes_on_other_errors_witness :
  files (world_with demo_archive) !! local_data_file demo_config
  = Some (PyBytes.lit "PK" ++ PyBytes.lit "-0123456789-0123456789-01234")
  /\ demo_read_later_version
       (PyBytes.lit "PK" ++ PyBytes.lit "-0123456789-0123456789-01234")
     = inl (mkExn (OtherException "NotImplementedError") "zip file version 9.9")
  /\ OtherException "NotImplementedError" <> BadZipFile
  /\ _validate_zip_file demo_read_later_version demo_text demo_dir_size
       (local_data_file demo_config) (world_with demo_archive)
     = (Raise (mkExn (OtherException "NotImplementedError")
                 "zip file version 9.9"),
        world_with demo_archive).
Proof.
  assert (H1 : files (world_with demo_archive) !! local_data_file demo_config
               = Some (PyBytes.lit "PK" ++ PyBytes.lit "-0123456789-0123456789-01234"))
    by reflexivity.
  assert (H2 : demo_read_later_version
                 (PyBytes.lit "PK" ++ PyBytes.lit "-0123456789-0123456789-01234")
               = inl (mkExn (OtherException "NotImplementedError")
                        "zip file version 9.9")) by reflexivity.
  assert (H3 : OtherException "NotImplementedError" <> BadZipFile)
    by discriminate.
  split; [exact H1 |]. split; [exact H2 |]. split; [exact H3 |].
  exact (validate_passes_on_other_errors demo_read_later_version demo_text
           demo_dir_size (local_data_file demo_config)
           (world_with demo_archive) _ _ H1 H2 H3).
Defined.

Lemma download_keeps_valid_file_witness :
  files (world_with demo_archive) !! local_data_file demo_config
  = Some demo_archive
  /\ validation_outcome (demo_read_zip demo_members) demo_text demo_dir_size
       (local_data_file demo_config) demo_archive = Return true
  /\ exists w',
       demo_download demo_refuse 1 (world_with demo_archive) = (Return tt, w')
       /\ requests w' = []
       /\ log w' = [(INFO, "File already exists of size: ~ 0 KB");
                    (INFO, "ZIP file is valid with 7 files")].
Proof.
  assert (H1 : files (world_with demo_archive) !! local_data_file demo_config
               = Some demo_archive) by reflexivity.
  assert (H2 : validation_outcome (demo_read_zip demo_members) demo_text
                 demo_dir_size (local_data_file demo_config) demo_archive
               = Return true)
    by reflexivity.
  split; [exact H1 |]. split; [exact H2 |].
  destruct (download_keeps_valid_file (demo_read_zip demo_members) demo_refuse
              demo_get_size demo_text demo_dir_size demo_config
              (world_with demo_archive) demo_archive H1 H2)
    as (w' & members & Hz & Hrun & _ & Hq & Hl).
  exists w'. split; [exact (Hrun 0) |]. split; [exact Hq |].
  injection Hz as <-. exact Hl.
Defined.

Lemma download_fresh_stores_body_witness :
  os.exists_at (local_data_file demo_config) root_world = false
  /\ makedirs_ok (PosixPath.dirname (local_data_file demo_config)) root_world
  /\ validation_outcome (demo_read_zip demo_members) demo_text demo_dir_size
       (local_data_file demo_config) demo_archive = Return true
  /\ exists w',
       demo_download (demo_serve demo_archive) 1 root_world = (Return tt, w')
       /\ files w' !! local_data_file demo_config = Some demo_archive
       /\ requests w'
          = ["https://raw.githubusercontent.com/org/repo/main/data.zip"].
Proof.
  assert (H1 : os.exists_at (local_data_file demo_config) root_world = false)
    by reflexivity.
  assert (H2 : makedirs_ok (PosixPath.dirname (local_data_file demo_config))
                 root_world) by (vm_compute; reflexivity).
  assert (H3 : validation_outcome (demo_read_zip demo_members) demo_text
                 demo_dir_size (local_data_file demo_config) demo_archive
               = Return true)
    by reflexivity.
  split; [exact H1 |]. split; [exact H2 |]. split; [exact H3 |].
  destruct (download_fresh_stores_body (demo_read_zip demo_members)
              (demo_serve demo_archive) demo_get_size demo_text demo_dir_size
              demo_config root_world demo_archive _ H1 H2 eq_refl H3)
    as (w' & Hrun & Hf & Hq).
  exists w'. split; [exact (Hrun 0) |]. split; [| exact Hq].
  rewrite Hf. reflexivity.
Defined.

Lemma download_network_failure_witness :
  os.exists_at (local_data_file demo_config) root_world = false
  /\ makedirs_ok (PosixPath.dirname (local_data_file demo_config)) root_world
  /\ demo_break (length (requests root_world))
       (normalized_url (source_URL demo_config))
     = Failed (mkExn (OtherException "IncompleteRead")
                 "IncompleteRead(3 bytes read)")
         (Some (PyBytes.lit "PK-"))
  /\ exists w',
       demo_download demo_break 1 root_world
       = (Raise (mkExn (OtherException "IncompleteRead")
                   "IncompleteRead(3 bytes read)"), w')
       /\ requests w'
          = ["https://raw.githubusercontent.com/org/repo/main/data.zip"]
       /\ files w' = files root_world
       /\ os.exists_at (local_data_file demo_config) w' = false.
Proof.
  assert (H1 : os.exists_at (local_data_file demo_config) root_world = false)
    by reflexivity.
  assert (H2 : makedirs_ok (PosixPath.dirname (local_data_file demo_config))
                 root_world) by (vm_compute; reflexivity).
  assert (H3 : demo_break (length (requests root_world))
                 (normalized_url (source_URL demo_config))
               = Failed (mkExn (OtherException "IncompleteRead")
                           "IncompleteRead(3 bytes read)")
                   (Some (PyBytes.lit "PK-"))) by reflexivity.
  split; [exact H1 |]. split; [exact H2 |]. split; [exact H3 |].
  destruct (download_network_failure (demo_read_zip demo_members) demo_break
              demo_get_size demo_text demo_dir_size demo_config root_world
              _ _ H1 H2 H3)
    as (w' & Hrun & Hq & Hf & Hgone).
  exists w'. split; [exact (Hrun 0) |]. split; [exact Hq |].
  split; [exact Hf | exact Hgone].
Defined.

Lemma download_bare_filename_witness :
  PosixPath.dirname (local_data_file demo_config_bare) = EmptyString
  /\ os.exists_at (local_data_file demo_config_bare) root_world = false
  /\ exists w',
       download_file (demo_read_zip demo_members) (demo_serve demo_archive)
         demo_get_size demo_text demo_dir_size demo_config_bare 1 root_world
       = (Raise (mkExn FileNotFoundError
                   "[Errno 2] No such file or directory: ''"), w')
       /\ requests w' = [].
Proof.
  assert (H1 : PosixPath.dirname (local_data_file demo_config_bare) = EmptyString)
    by reflexivity.
  assert (H2 : os.exists_at (local_data_file demo_config_bare) root_world = false)
    by reflexivity.
  split; [exact H1 |]. split; [exact H2 |].
  destruct (proj1 (download_bare_filename (demo_read_zip demo_members)
                     (demo_serve demo_archive) demo_get_size demo_text
                     demo_dir_size demo_config_bare root_world H1) H2)
    as (w' & Hrun & Hq & _).
  exists w'. split; [exact (Hrun 0) | exact Hq].
Defined.

Lemma download_then_download_witness :
  demo_download (demo_serve demo_archive) 1 root_world
  = (Return tt, (demo_download (demo_serve demo_archive) 1 root_world).2)
  /\ exists w'',
       demo_download (demo_serve demo_archive) 1
         (demo_download (demo_serve demo_archive) 1 root_world).2
       = (Return tt, w'')
       /\ requests w''
          = ["https://raw.githubusercontent.com/org/repo/main/data.zip"].
Proof.
  assert (H : demo_download (demo_serve demo_archive) 1 root_world
              = (Return tt, (demo_download (demo_serve demo_archive) 1 root_world).2))
    by (vm_compute; reflexivity).
  split; [exact H |].
  destruct (download_then_download (demo_read_zip demo_members)
              (demo_serve demo_archive) demo_get_size demo_text demo_dir_size
              demo_config 1 root_world _ tt H)
    as (_ & w'' & Hrun & _ & Hq).
  exists w''. split; [exact (Hrun 0) |]. rewrite Hq. vm_compute. reflexivity.
Defined.

Lemma download_retry_failure_logged_twice_witness :
  files (world_with (PyBytes.lit "x")) !! local_data_file demo_config
  = Some (PyBytes.lit "x")
  /\ validation_outcome (demo_read_zip demo_members) demo_text demo_dir_size
       (local_data_file demo_config) (PyBytes.lit "x")
     = Raise (mkExn ValueError "File is not a ZIP file. First bytes: 78")
  /\ demo_download (demo_serve demo_html) 2 (world_with (PyBytes.lit "x"))
     = (Raise (mkExn ValueError
                 "Downloaded HTML page instead of ZIP file. Check the URL."),
        (demo_download (demo_serve demo_html) 2 (world_with (PyBytes.lit "x"))).2)
  /\ exists earlier,
       log (demo_download (demo_serve demo_html) 2 (world_with (PyBytes.lit "x"))).2
       = earlier
         ++ [(ERROR, "Download failed: Downloaded HTML page instead of ZIP file. Check the URL.");
             (ERROR, "Download failed: Downloaded HTML page instead of ZIP file. Check the URL.")].
Proof.
  assert (H1 : files (world_with (PyBytes.lit "x")) !! local_data_file demo_config
               = Some (PyBytes.lit "x")) by reflexivity.
  assert (H2 : validation_outcome (demo_read_zip demo_members) demo_text
                 demo_dir_size (local_data_file demo_config) (PyBytes.lit "x")
               = Raise (mkExn ValueError "File is not a ZIP file. First bytes: 78"))
    by reflexivity.
  assert (H3 : demo_download (demo_serve demo_html) 2 (world_with (PyBytes.lit "x"))
               = (Raise (mkExn ValueError
                           "Downloaded HTML page instead of ZIP file. Check the URL."),
                  (demo_download (demo_serve demo_html) 2
                     (world_with (PyBytes.lit "x"))).2))
    by (vm_compute; reflexivity).
  split; [exact H1 |]. split; [exact H2 |]. split; [exact H3 |].
  exact (download_retry_failure_logged_twice (demo_read_zip demo_members)
           (demo_serve demo_html) demo_get_size demo_text demo_dir_size
           demo_config (world_with (PyBytes.lit "x")) _ _ _ _ 0 H1 H2 eq_refl H3).
Defined.

Lemma download_keeps_parent_directory_witness :
  os.exists_at (local_data_file demo_config_nested) root_world = false
  /\ makedirs_ok (PosixPath.dirname (local_data_file demo_config_nested))
       root_world
  /\ dirs (download_file (demo_read_zip demo_members) demo_refuse demo_get_size
             demo_text demo_dir_size demo_config_nested 1 root_world).2
     = dirs (os.makedirs true "/tmp/a/b" root_world).2
  /\ dirs (os.makedirs true "/tmp/a/b" root_world).2
     = {[ "/"; "/tmp"; "/tmp/a"; "/tmp/a/b" ]}.
Proof.
  assert (H1 : os.exists_at (local_data_file demo_config_nested) root_world
               = false) by reflexivity.
  assert (H2 : makedirs_ok (PosixPath.dirname (local_data_file demo_config_nested))
                 root_world) by (vm_compute; reflexivity).
  split; [exact H1 |]. split; [exact H2 |]. split.
  - exact (proj1 (download_keeps_parent_directory (demo_read_zip demo_members)
                    demo_refuse demo_get_size demo_text demo_dir_size
                    demo_config_nested 0 root_world H1 H2)).
  - vm_compute. reflexivity.
Defined.

Lemma extract_target_refused_witness :
  files (world_with demo_archive) !! local_data_file demo_config_clash
  = Some demo_archive
  /\ validation_outcome (demo_read_zip demo_members) demo_text demo_dir_size
       (local_data_file demo_config_clash) demo_archive = Return true
  /\ os.makedirs true (unzip_dir demo_config_clash) (world_with demo_archive)
     = (Raise (mkExn FileExistsError "[Errno 17] File exists: '/tmp/d.zip'"),
        world_with demo_archive)
  /\ exists w',
       extract_zip_file (demo_read_zip demo_members) demo_text demo_dir_size
         demo_config_clash (world_with demo_archive)
       = (Raise (mkExn FileExistsError "[Errno 17] File exists: '/tmp/d.zip'"),
          w')
       /\ files w' = files (world_with demo_archive)
       /\ nodes w' = nodes (world_with demo_archive)
       /\ log w'
          = [(INFO, "ZIP file is valid with 7 files");
             (ERROR, "Extraction failed: [Errno 17] File exists: '/tmp/d.zip'")].
Proof.
  assert (H1 : files (world_with demo_archive) !! local_data_file demo_config_clash
               = Some demo_archive) by reflexivity.
  assert (H2 : validation_outcome (demo_read_zip demo_members) demo_text
                 demo_dir_size (local_data_file demo_config_clash) demo_archive
               = Return true)
    by reflexivity.
  assert (H3 : os.makedirs true (unzip_dir demo_config_clash)
                 (world_with demo_archive)
               = (Raise (mkExn FileExistsError
                           "[Errno 17] File exists: '/tmp/d.zip'"),
                  world_with demo_archive)) by (vm_compute; reflexivity).
  split; [exact H1 |]. split; [exact H2 |]. split; [exact H3 |].
  destruct (extract_target_refused (demo_read_zip demo_members) demo_text
              demo_dir_size demo_config_clash (world_with demo_archive) _
              demo_archive _ H1 H2 H3)
    as (w' & members & Hz & Hrun & Hf & Hn & Hl).
  exists w'. split; [exact Hrun |]. split; [exact Hf |]. split; [exact Hn |].
  injection Hz as <-. exact Hl.
Defined.

Lemma extract_reports_by_class_witness :
  demo_validate (local_data_file demo_config) (world_with demo_truncated)
  = (Raise (mkExn BadZipFile "Corrupted ZIP file: File is not a zip file"),
     world_with demo_truncated)
  /\ exists w',
       demo_extract (world_with demo_truncated)
       = (Raise (mkExn BadZipFile "Corrupted ZIP file: File is not a zip file"),
          w')
       /\ log w'
          = [(ERROR, "ZIP file error: Corrupted ZIP file: File is not a zip file");
             (ERROR, "Possible causes:");
             (ERROR, "1. Downloaded file is corrupted");
             (ERROR, "2. Wrong URL (downloaded HTML instead of ZIP)");
             (ERROR, "3. File is not actually a ZIP file")].
Proof.
  assert (H : demo_validate (local_data_file demo_config) (world_with demo_truncated)
              = (Raise (mkExn BadZipFile
                          "Corrupted ZIP file: File is not a zip file"),
                 world_with demo_truncated)) by reflexivity.
  split; [exact H |].
  destruct (extract_reports_by_class (demo_read_zip demo_members) demo_text
              demo_dir_size demo_config (world_with demo_truncated) _ _ H)
    as (w' & Hrun & Hbad & _).
  exists w'. split; [exact Hrun |]. exact (Hbad eq_refl).
Defined.

Lemma extract_failure_keeps_extracted_witness :
  files (world_with demo_archive) !! local_data_file demo_config
  = Some demo_archive
  /\ validation_outcome (demo_read_zip damaged_members) demo_text demo_dir_size
       (local_data_file demo_config) demo_archive = Return true
  /\ demo_read_zip damaged_members demo_archive = inr damaged_members
  /\ makedirs_ok (unzip_dir demo_config) (world_with demo_archive)
  /\ (extractall damaged_members (unzip_dir demo_config)
        (os.makedirs true (unzip_dir demo_config) (world_with demo_archive)).2).1
     = Raise (mkExn BadZipFile "Bad CRC-32 for file 'b.txt'")
  /\ exists w',
       extract_zip_file (demo_read_zip damaged_members) demo_text demo_dir_size
         demo_config (world_with demo_archive)
       = (Raise (mkExn BadZipFile "Bad CRC-32 for file 'b.txt'"), w')
       /\ files w' !! "/tmp/out/a.txt" = Some (PyBytes.lit "A")
       /\ files w' !! "/tmp/out/b.txt" = Some (PyBytes.lit "B")
       /\ files w' !! "/tmp/out/c.txt" = None
       /\ log w'
          = [(INFO, "ZIP file is valid with 3 files");
             (INFO, "Extracting ZIP file to: /tmp/out");
             (INFO, "Extracting 3 files...");
             (ERROR, "ZIP file error: Bad CRC-32 for file 'b.txt'");
             (ERROR, "Possible causes:");
             (ERROR, "1. Downloaded file is corrupted");
             (ERROR, "2. Wrong URL (downloaded HTML instead of ZIP)");
             (ERROR, "3. File is not actually a ZIP file")].
Proof.
  assert (H1 : files (world_with demo_archive) !! local_data_file demo_config
               = Some demo_archive) by reflexivity.
  assert (H2 : validation_outcome (demo_read_zip damaged_members) demo_text
                 demo_dir_size (local_data_file demo_config) demo_archive
               = Return true) by reflexivity.
  assert (H3 : demo_read_zip damaged_members demo_archive = inr damaged_members)
    by reflexivity.
  assert (H4 : makedirs_ok (unzip_dir demo_config) (world_with demo_archive))
    by (vm_compute; reflexivity).
  assert (H5 : (extractall damaged_members (unzip_dir demo_config)
                  (os.makedirs true (unzip_dir demo_config)
                     (world_with demo_archive)).2).1
               = Raise (mkExn BadZipFile "Bad CRC-32 for file 'b.txt'"))
    by (vm_compute; reflexivity).
  split; [exact H1 |]. split; [exact H2 |]. split; [exact H3 |].
  split; [exact H4 |]. split; [exact H5 |].
  destruct (extract_failure_keeps_extracted (demo_read_zip damaged_members)
              demo_text demo_dir_size demo_config (world_with demo_archive)
              demo_archive damaged_members _ H1 H2 H3 H4 H5)
    as (w' & Hrun & Hn & Hl).
  exists w'. split; [exact Hrun |].
  unfold files. rewrite Hn.
  split; [vm_compute; reflexivity |]. split; [vm_compute; reflexivity |].
  split; [vm_compute; reflexivity |]. exact Hl.
Defined.

Lemma fix_github_url_idempotent_witness :
  occurs "github.com" (source_URL demo_config)
  /\ occurs "/blob/" (source_URL demo_config)
  /\ ~ occurs "github.com"
       "https://raw.githubusercontent.com/org/repo/main/data.zip"
  /\ _fix_github_url "https://raw.githubusercontent.com/org/repo/main/data.zip"
       empty_world
     = (Return "https://raw.githubusercontent.com/org/repo/main/data.zip",
        empty_world).
Proof.
  assert (H1 : occurs "github.com" (source_URL demo_config))
    by (apply contains_spec; reflexivity).
  assert (H2 : occurs "/blob/" (source_URL demo_config))
    by (apply contains_spec; reflexivity).
  split; [exact H1 |]. split; [exact H2 |]. split.
  - exact (proj1 (fix_github_url_idempotent (source_URL demo_config) empty_world)
             H1 H2).
  - exact (proj2 (fix_github_url_idempotent (source_URL demo_config) empty_world)).
Defined.

Lemma download_then_extract_witness :
  demo_download (demo_serve demo_archive) 1 root_world
  = (Return tt, (demo_download (demo_serve demo_archive) 1 root_world).2)
  /\ makedirs_ok (unzip_dir demo_config)
       (demo_download (demo_serve demo_archive) 1 root_world).2
  /\ (demo_extract (demo_download (demo_serve demo_archive) 1 root_world).2).1
     = Return tt
  /\ requests
       (demo_extract (demo_download (demo_serve demo_archive) 1 root_world).2).2
     = ["https://raw.githubusercontent.com/org/repo/main/data.zip"]
  /\ (exists data,
        Stored (PyBytes.lit "A") = Stored data
        /\ files (demo_extract
                    (demo_download (demo_serve demo_archive) 1 root_world).2).2
           !! "/tmp/out/a.txt" = Some data).
Proof.
  assert (H1 : demo_download (demo_serve demo_archive) 1 root_world
               = (Return tt, (demo_download (demo_serve demo_archive) 1 root_world).2))
    by (vm_compute; reflexivity).
  assert (H2 : makedirs_ok (unzip_dir demo_config)
                 (demo_download (demo_serve demo_archive) 1 root_world).2)
    by (vm_compute; reflexivity).
  assert (H3 : (demo_extract
                  (demo_download (demo_serve demo_archive) 1 root_world).2).1
               = Return tt) by (vm_compute; reflexivity).
  split; [exact H1 |]. split; [exact H2 |]. split; [exact H3 |].
  destruct (download_then_extract (demo_read_zip demo_members)
              (demo_serve demo_archive) demo_get_size demo_text demo_dir_size
              demo_config 1 root_world _ tt H1 H2)
    as (content & members & Hf & Hz & _ & Hq & Hplace).
  assert (Hc : content = demo_archive)
    by (apply (inj Some); rewrite <- Hf; vm_compute; reflexivity).
  subst content. injection Hz as <-.
  split; [unfold demo_extract; rewrite Hq; vm_compute; reflexivity |].
  exact (Hplace H3
           ltac:(apply (bool_decide_unpack _); vm_compute; exact I)
           (mkMember "a.txt" (Stored (PyBytes.lit "A")))
           ltac:(repeat constructor)).
Defined.
